(** * The 96boards low-speed connector bus and the Secure96 mezzanine driver

    A shallow embedding of the connector driver (lscon_probe, lscon_remove,
    lscon_add_device, lscon_del_device, ls_inject_store, ls_eject_store),
    of the bus match function (ls_match) and of the Secure96 board driver
    (secure96_probe, secure96_remove), with the properties of their
    acquisition and rollback sequences.

    Kernel objects are modelled by what the drivers observe of them:
    a pointer that may be NULL is an [option], a call into a kernel
    subsystem that takes or drops a reference is an event appended to a
    trace, and the result of a subsystem the drivers do not control
    (allocation, device tree, adapters, GPIO lines) is read from an
    environment record. *)

From Stdlib Require Import ZArith Lia.
From stdpp Require Import base list strings pretty gmap.

(** ** Errno values of include/uapi/asm-generic/errno-base.h and
    include/linux/errno.h used by the drivers. *)

Definition ENOMEM : Z := 12.
Definition ENODEV : Z := 19.
Definition ENOSPC : Z := 28.
Definition EPROBE_DEFER : Z := 517.
Definition INT_MAX : Z := 2147483647.

(** A read through a NULL pointer ends the call: [Oops] stands for the
    dereference, [Done] for a normal return. *)
Inductive outcome (A : Type) : Type :=
| Done (a : A)
| Oops.
Arguments Done {A} a.
Arguments Oops {A}.

Module Lscon.

(** *** Device tree as the connector sees it *)

Record device_node := {
  full_name : string;
  compatible : list string;
  available : bool            (* status is absent, "okay" or "ok" *)
}.

(** The connector's own node: its phandle properties and direct children. *)
Record connector_node := {
  phandles : gmap string device_node;
  children : list device_node
}.

Definition i2c_adapter := nat.
Definition spi_controller := nat.

Record platform_device := {
  pdev_id : nat;
  pdev_of_node : connector_node
}.

(** struct ls_connector; the fields are zeroed by devm_kzalloc. *)
Record ls_connector := {
  lsc_dev : nat;
  lsc_i2c0 : option i2c_adapter;
  lsc_i2c1 : option i2c_adapter;
  lsc_spi : option spi_controller
}.

(** struct ls_device, with the name the device core keeps for it. *)
Record ls_device := {
  id : Z;
  dev_name : string;
  of_node : option device_node;
  parent : nat;
  i2c0 : option i2c_adapter;
  i2c1 : option i2c_adapter;
  spi : option spi_controller
}.

(** struct ls_driver: the callbacks may be NULL.  A probe callback is
    known by its return value, a remove callback by its being called. *)
Record ls_driver := {
  drv_name : string;
  of_match_table : list string;
  probe : option (ls_device → Z);
  remove : bool
}.

(** A device on the bus, with dev->driver: the driver it is bound to. *)
Record bus_device := {
  lsdev : ls_device;
  driver : option ls_driver
}.

Inductive bus_attr := bus_attr_supported | bus_attr_inject | bus_attr_eject.

Inductive event :=
| EvParsePhandle (prop : string)
| EvFindProvider (prop : string)
| EvI2cGet (a : i2c_adapter)
| EvI2cPut (a : option i2c_adapter)
| EvSpiGet (c : spi_controller)
| EvSpiPut (c : option spi_controller)
| EvSetRoot (dev : nat)
| EvClearRoot
| EvIdaGet (i : Z)
| EvIdaRemove (i : Z)
| EvDeviceAdd (i : Z) (name : string)
| EvDeviceDel (i : Z)
| EvDrvProbe (drv : string) (i : Z) (ret : Z)
| EvDrvRemove (drv : string) (i : Z)
| EvDevErr (msg : string)
| EvDevInfo (msg : string).

(** The bus: ls_bus_type with its driver and device lists and dev_root,
    the static ls_device_ida, the driver data of the platform devices,
    and the trace of calls made so far. *)
Record bus := {
  ls_device_ida : list bool;
  bus_drivers : list ls_driver;
  bus_devices : list bus_device;
  dev_root : option nat;
  drvdata : gmap nat ls_connector;
  bus_files : list bus_attr;
  trace : list event
}.

Definition log (e : event) (st : bus) : bus :=
  {| ls_device_ida := ls_device_ida st; bus_drivers := bus_drivers st;
     bus_devices := bus_devices st; dev_root := dev_root st;
     drvdata := drvdata st; bus_files := bus_files st;
     trace := trace st ++ [e] |}.

Definition set_ida (bm : list bool) (st : bus) : bus :=
  {| ls_device_ida := bm; bus_drivers := bus_drivers st;
     bus_devices := bus_devices st; dev_root := dev_root st;
     drvdata := drvdata st; bus_files := bus_files st;
     trace := trace st |}.

Definition set_devices (ds : list bus_device) (st : bus) : bus :=
  {| ls_device_ida := ls_device_ida st; bus_drivers := bus_drivers st;
     bus_devices := ds; dev_root := dev_root st;
     drvdata := drvdata st; bus_files := bus_files st;
     trace := trace st |}.

Definition set_dev_root (r : option nat) (st : bus) : bus :=
  {| ls_device_ida := ls_device_ida st; bus_drivers := bus_drivers st;
     bus_devices := bus_devices st; dev_root := r;
     drvdata := drvdata st; bus_files := bus_files st;
     trace := trace st |}.

Definition set_drvdata (m : gmap nat ls_connector) (st : bus) : bus :=
  {| ls_device_ida := ls_device_ida st; bus_drivers := bus_drivers st;
     bus_devices := bus_devices st; dev_root := dev_root st;
     drvdata := m; bus_files := bus_files st;
     trace := trace st |}.

Definition set_bus_files (fs : list bus_attr) (st : bus) : bus :=
  {| ls_device_ida := ls_device_ida st; bus_drivers := bus_drivers st;
     bus_devices := bus_devices st; dev_root := dev_root st;
     drvdata := drvdata st; bus_files := fs;
     trace := trace st |}.

(** The state at boot: DEFINE_IDA gives an empty pool, the bus has the
    registered drivers and nothing else. *)
Definition boot (drvs : list ls_driver) : bus :=
  {| ls_device_ida := []; bus_drivers := drvs; bus_devices := [];
     dev_root := None; drvdata := ∅; bus_files := []; trace := [] |}.

(** *** The id pool *)

(** Modelled from the spec: the ida of lib/idr.c is not among the
    sources.  The spec has a managed free pool with dense allocation and
    reuse after release; the pool is a bitmap, an allocation takes the
    lowest clear bit and fails with -ENOSPC beyond INT_MAX (the range
    that ida_simple_get(ida, 0, 0, gfp) asks for). *)
Fixpoint ida_first_free (bm : list bool) : nat :=
  match bm with
  | [] => 0
  | false :: _ => 0
  | true :: r => S (ida_first_free r)
  end.

Fixpoint ida_mark (i : nat) (bm : list bool) : list bool :=
  match i, bm with
  | 0, [] => [true]
  | 0, _ :: r => true :: r
  | S k, [] => false :: ida_mark k []
  | S k, b :: r => b :: ida_mark k r
  end.

Definition ida_simple_get (bm : list bool) : Z * list bool :=
  let i := ida_first_free bm in
  if (INT_MAX <? Z.of_nat i)%Z then ((- ENOSPC)%Z, bm)
  else (Z.of_nat i, ida_mark i bm).

Definition ida_simple_remove (bm : list bool) (i : Z) : list bool :=
  <[Z.to_nat i := false]> bm.

Definition ida_allocated (bm : list bool) (i : Z) : Prop :=
  (0 ≤ i)%Z ∧ bm !! Z.to_nat i = Some true.

(** *** Matching (96boards-ls-bus.c) *)

(** Modelled from the spec: of_driver_match_device of
    include/linux/of_device.h is not among the sources.  Following the
    registry's match, a device that carries a node is tested against the
    compatibility identifiers of the driver; a device without a node does
    not match this way. *)
Definition of_driver_match_device (dev : ls_device) (drv : ls_driver) : bool :=
  match of_node dev with
  | Some np =>
      existsb (λ c, existsb (String.eqb c) (compatible np)) (of_match_table drv)
  | None => false
  end.

Definition ls_match (dev : ls_device) (drv : ls_driver) : bool :=
  if of_driver_match_device dev drv then true
  else String.eqb (dev_name dev) (drv_name drv).

(** ls_driver_probe and ls_driver_remove: a NULL callback is skipped. *)
Definition ls_driver_probe (lsdev : ls_device) (lsdrv : ls_driver) : Z :=
  match probe lsdrv with
  | Some f => f lsdev
  | None => 0%Z
  end.

Definition ls_driver_remove (lsdev : ls_device) (lsdrv : ls_driver)
    (st : bus) : bus :=
  if remove lsdrv then log (EvDrvRemove (drv_name lsdrv) (id lsdev)) st
  else st.

(** *** Device core *)

(** What the environment decides for one lscon_add_device call: whether
    kzalloc returns memory and what device_add returns. *)
Record add_fate := {
  lsdev_alloc_ok : bool;
  device_add_ret : Z
}.

Definition fine : add_fate := {| lsdev_alloc_ok := true; device_add_ret := 0 |}.

(** Modelled from the spec: device_add and device_del of
    drivers/base/core.c are not among the sources.  Following the
    registry's bind and unbind, a device that is added goes on the bus,
    the first driver that the bus's match function accepts is probed, and
    the device is bound when that probe returns 0 and stays on the bus
    unbound otherwise; deleting a device calls the remove of the driver
    it is bound to and takes it off the bus.  Whether device_add itself
    fails, and with what value, is the environment's; a device whose
    device_add fails is not on the bus. *)
Definition bus_probe_device (dev : ls_device) (st : bus)
    : option ls_driver * bus :=
  match List.find (ls_match dev) (bus_drivers st) with
  | Some drv =>
      let ret := ls_driver_probe dev drv in
      let st := log (EvDrvProbe (drv_name drv) (id dev) ret) st in
      if (ret =? 0)%Z then (Some drv, st) else (None, st)
  | None => (None, st)
  end.

Definition device_add (dev : ls_device) (fate : add_fate) (st : bus)
    : Z * bus :=
  if (device_add_ret fate =? 0)%Z then
    let st := log (EvDeviceAdd (id dev) (dev_name dev)) st in
    let '(drv, st) := bus_probe_device dev st in
    (0%Z, set_devices (bus_devices st ++ [{| lsdev := dev; driver := drv |}]) st)
  else (device_add_ret fate, st).

Definition device_del (i : nat) (d : bus_device) (st : bus) : bus :=
  let st :=
    match driver d with
    | Some drv => ls_driver_remove (lsdev d) drv st
    | None => st
    end in
  log (EvDeviceDel (id (lsdev d)))
      (set_devices (delete i (bus_devices st)) st).

(** *** lscon_add_device and lscon_del_device *)

Definition lscon_add_device (ls : ls_connector) (name : option string)
    (np : option device_node) (fate : add_fate) (st : bus) : Z * bus :=
  if negb (lsdev_alloc_ok fate) then ((- ENOMEM)%Z, st)
  else
    let '(i, bm) := ida_simple_get (ls_device_ida st) in
    if (i <? 0)%Z then (i, st)
    else
      let st := log (EvIdaGet i) (set_ida bm st) in
      let dev :=
        {| id := i;
           dev_name := match name with
                       | Some n => n
                       | None => "mezzanine" +:+ pretty i
                       end;
           of_node := np;
           parent := lsc_dev ls;
           i2c0 := lsc_i2c0 ls; i2c1 := lsc_i2c1 ls; spi := lsc_spi ls |} in
      let '(ret, st) := device_add dev fate st in
      if negb (ret =? 0)%Z then
        (ret, log (EvDevErr ("failed to add device " +:+ dev_name dev)) st)
      else (0%Z, st).

(** The device is named by its place on the bus list. *)
Definition lscon_del_device (i : nat) (st : bus) : bus :=
  match bus_devices st !! i with
  | Some d =>
      let st := device_del i d st in
      log (EvIdaRemove (id (lsdev d)))
          (set_ida (ida_simple_remove (ls_device_ida st) (id (lsdev d))) st)
  | None => st
  end.

(** *** The inject and eject attributes *)

(** Modelled from the spec: strstrip of lib/string.c is not among the
    sources; it trims the whitespace that surrounds the name. *)
Definition isspace (c : Ascii.ascii) : bool :=
  let n := Ascii.nat_of_ascii c in
  (Nat.leb 9 n && Nat.leb n 13) || Nat.eqb n 32.

Fixpoint skip_spaces (s : string) : string :=
  match s with
  | String c r => if isspace c then skip_spaces r else s
  | EmptyString => s
  end.

Fixpoint strim (s : string) : string :=
  match s with
  | EmptyString => EmptyString
  | String c r =>
      match strim r with
      | EmptyString => if isspace c then EmptyString else String c EmptyString
      | r' => String c r'
      end
  end.

Definition strstrip (s : string) : string := skip_spaces (strim s).

(** bus_for_each_drv stops at the first driver for which fn returns
    nonzero and returns that value, and returns 0 at the end of the list. *)
Fixpoint bus_for_each_drv {D : Type} (drvs : list ls_driver) (data : D)
    (fn : ls_driver → D → Z) : Z :=
  match drvs with
  | [] => 0%Z
  | drv :: rest =>
      let error := fn drv data in
      if (error =? 0)%Z then bus_for_each_drv rest data fn else error
  end.

Definition ls_inject_match (drv : ls_driver) (devname : string) : Z :=
  if String.eqb devname (drv_name drv) then 1%Z else 0%Z.

(** bus_find_device_by_name: the place of the first device of that name. *)
Fixpoint bus_find_device_by_name (ds : list bus_device) (name : string)
    : option nat :=
  match ds with
  | [] => None
  | d :: rest =>
      if String.eqb (dev_name (lsdev d)) name then Some 0
      else option_map S (bus_find_device_by_name rest name)
  end.

(** How a write to inject or eject ends: it returns, or it reads
    through a NULL pointer, or it hands kfree a pointer that is not the
    one kstrdup returned. *)
Inductive store_end :=
| Returned (ret : Z) (st : bus)
| NullRead
| BadFree (st : bus).

(** return count: the size_t count leaves as the ssize_t result of the
    store function, on 64 bits. *)
Definition ssize_of_size (count : Z) : Z :=
  let c := (count mod 2 ^ 64)%Z in
  if (c <? 2 ^ 63)%Z then c else (c - 2 ^ 64)%Z.

(** The C string that starts at buf: the characters before the first NUL. *)
Fixpoint c_str (buf : string) : string :=
  match buf with
  | EmptyString => EmptyString
  | String c r =>
      if Ascii.eqb c Ascii.zero then EmptyString else String c (c_str r)
  end.

(** Modelled from the spec: kstrdup of mm/util.c is not among the
    sources.  kstrdup(buf, GFP_KERNEL) returns a copy of that string, or
    NULL when there is no memory. *)
Definition kstrdup (ok : bool) (buf : string) : option string :=
  if ok then Some (c_str buf) else None.

(** Modelled from the spec, with strstrip: it cuts the trailing
    whitespace in place and returns the address of the first character
    that is not whitespace; [strstrip_offset] is how far into its argument
    that address points. *)
Fixpoint leading_spaces (s : string) : nat :=
  match s with
  | String c r => if isspace c then S (leading_spaces r) else 0
  | EmptyString => 0
  end.

Definition strstrip_offset (s : string) : nat := leading_spaces (strim s).

(** kfree(devname); return count;  where devname is what strstrip
    returned for the copy.  Modelled from the spec: kfree of mm/slab.c is
    not among the sources; it takes the address that the allocation
    returned, so the free is that of the copy only when strstrip returned
    its start. *)
Definition kfree_and_return (copy : string) (count : Z) (st : bus)
    : store_end :=
  if Nat.eqb (strstrip_offset copy) 0 then Returned (ssize_of_size count) st
  else BadFree st.

(** dev_get_drvdata(dev) reads dev->driver_data: a NULL dev_root is
    dereferenced there, before the buffer is looked at.  The result of
    kstrdup is passed unchecked to strstrip, which reads through it. *)
Definition ls_inject_store (buf : string) (count : Z) (kstrdup_ok : bool)
    (fate : add_fate) (st : bus) : store_end :=
  match dev_root st with
  | None => NullRead
  | Some dev =>
      let ls := drvdata st !! dev in
      match kstrdup kstrdup_ok buf with
      | None => NullRead
      | Some copy =>
          let devname := strstrip copy in
          (* Look if we have a driver for this device *)
          let ret :=
            bus_for_each_drv (bus_drivers st) devname ls_inject_match in
          if (ret =? 0)%Z then kfree_and_return copy count st
          else
            match ls with
            | None => NullRead
            | Some ls =>
                let st :=
                  log (EvDevInfo ("create " +:+ devname +:+ " device")) st in
                let '(_, st) :=
                  lscon_add_device ls (Some devname) None fate st in
                kfree_and_return copy count st
            end
      end
  end.

Definition ls_eject_store (buf : string) (count : Z) (kstrdup_ok : bool)
    (st : bus) : store_end :=
  match dev_root st with
  | None => NullRead
  | Some busdev =>
      let ls := drvdata st !! busdev in
      match kstrdup kstrdup_ok buf with
      | None => NullRead
      | Some copy =>
          let devname := strstrip copy in
          (* Look if we have this device *)
          match bus_find_device_by_name (bus_devices st) devname with
          | None => kfree_and_return copy count st
          | Some i =>
              match ls with
              | None => NullRead
              | Some ls =>
                  let st :=
                    log (EvDevInfo ("destroy " +:+ devname +:+ " device")) st in
                  kfree_and_return copy count (lscon_del_device i st)
              end
          end
      end
  end.

(** *** Connector probe and remove *)

(** What the platform supplies to one lscon_probe call. *)
Record platform_env := {
  kzalloc_ok : bool;
  i2c_adapter_by_node : device_node → option i2c_adapter;
  spi_controller_by_node : device_node → option spi_controller;
  spi_controller_get_ok : bool;
  bus_create_file_ret : bus_attr → Z;
  child_fate : device_node → add_fate
}.

Definition of_parse_phandle (np : connector_node) (prop : string)
    : option device_node := phandles np !! prop.

Definition set_i2c0 (ls : ls_connector) (a : option i2c_adapter) :=
  {| lsc_dev := lsc_dev ls; lsc_i2c0 := a; lsc_i2c1 := lsc_i2c1 ls;
     lsc_spi := lsc_spi ls |}.
Definition set_i2c1 (ls : ls_connector) (a : option i2c_adapter) :=
  {| lsc_dev := lsc_dev ls; lsc_i2c0 := lsc_i2c0 ls; lsc_i2c1 := a;
     lsc_spi := lsc_spi ls |}.
Definition set_spi (ls : ls_connector) (c : option spi_controller) :=
  {| lsc_dev := lsc_dev ls; lsc_i2c0 := lsc_i2c0 ls; lsc_i2c1 := lsc_i2c1 ls;
     lsc_spi := c |}.

(** The two labels at the end of lscon_probe; the first falls through
    to the second. *)
Definition out_put_i2c0 (ls : ls_connector) (ret : Z) (st : bus) : Z * bus :=
  (ret, log (EvI2cPut (lsc_i2c0 ls)) st).

Definition out_put_i2c1 (ls : ls_connector) (ret : Z) (st : bus) : Z * bus :=
  out_put_i2c0 ls ret (log (EvI2cPut (lsc_i2c1 ls)) st).

Definition bus_create_file (env : platform_env) (a : bus_attr) (st : bus)
    : Z * bus :=
  let ret := bus_create_file_ret env a in
  if (ret =? 0)%Z then (0%Z, set_bus_files (bus_files st ++ [a]) st)
  else (ret, st).

(** for_each_available_child_of_node(np, child)
        lscon_add_device(ls, NULL, child);
    the value of each call is dropped. *)
Fixpoint add_children (ls : ls_connector) (env : platform_env)
    (nodes : list device_node) (st : bus) : bus :=
  match nodes with
  | [] => st
  | child :: rest =>
      if available child then
        let '(_, st) :=
          lscon_add_device ls None (Some child) (child_fate env child) st in
        add_children ls env rest st
      else add_children ls env rest st
  end.

Definition lscon_probe (pdev : platform_device) (env : platform_env)
    (st : bus) : Z * bus :=
  let dev := pdev_id pdev in
  let np := pdev_of_node pdev in
  if negb (kzalloc_ok env) then ((- ENOMEM)%Z, st)
  else
    let ls := {| lsc_dev := dev; lsc_i2c0 := None; lsc_i2c1 := None;
                 lsc_spi := None |} in
    (* Bridge I2C busses *)
    let st := log (EvParsePhandle "i2c0") st in
    match of_parse_phandle np "i2c0" with
    | None => ((- ENODEV)%Z, log (EvDevErr "no i2c0 phandle") st)
    | Some child =>
    let st := log (EvFindProvider "i2c0") st in
    match i2c_adapter_by_node env child with
    | None =>
        ((- EPROBE_DEFER)%Z, log (EvDevErr "no i2c0 adapter, deferring") st)
    | Some a0 =>
    let st := log (EvI2cGet a0) st in
    let ls := set_i2c0 ls (Some a0) in
    let st := log (EvParsePhandle "i2c1") st in
    match of_parse_phandle np "i2c1" with
    | None =>
        out_put_i2c0 ls (- ENODEV)%Z (log (EvDevErr "no i2c1 phandle") st)
    | Some child =>
    let st := log (EvFindProvider "i2c1") st in
    match i2c_adapter_by_node env child with
    | None =>
        out_put_i2c0 ls (- EPROBE_DEFER)%Z
          (log (EvDevErr "no i2c0 adapter, deferring") st)
    | Some a1 =>
    let st := log (EvI2cGet a1) st in
    let ls := set_i2c1 ls (Some a1) in
    (* Bridge SPI bus *)
    let st := log (EvParsePhandle "spi") st in
    match of_parse_phandle np "spi" with
    | None =>
        out_put_i2c1 ls (- ENODEV)%Z (log (EvDevErr "no spi phandle") st)
    | Some child =>
    let st := log (EvFindProvider "spi") st in
    match spi_controller_by_node env child with
    | None =>
        out_put_i2c1 ls (- EPROBE_DEFER)%Z
          (log (EvDevErr "no spi controller, deferring") st)
    | Some c =>
    if negb (spi_controller_get_ok env) then
      out_put_i2c1 ls (- ENODEV)%Z (log (EvDevErr "no spi reference") st)
    else
    let st := log (EvSpiGet c) st in
    let ls := set_spi ls (Some c) in
    (* platform_set_drvdata(pdev, ls); ls_bus_type.dev_root = dev; *)
    let st := set_drvdata (<[dev := ls]> (drvdata st)) st in
    let st := log (EvSetRoot dev) (set_dev_root (Some dev) st) in
    let '(ret, st) := bus_create_file env bus_attr_supported st in
    if negb (ret =? 0)%Z then out_put_i2c1 ls ret st else
    let '(ret, st) := bus_create_file env bus_attr_inject st in
    if negb (ret =? 0)%Z then out_put_i2c1 ls ret st else
    let '(ret, st) := bus_create_file env bus_attr_eject st in
    if negb (ret =? 0)%Z then out_put_i2c1 ls ret st else
    (0%Z, add_children ls env (children np) st)
    end end end end end end.

(** bus_for_each_dev(&ls_bus_type, NULL, NULL, lscon_del_dev): the
    callback returns 0, so every device on the list is visited; each
    visit deletes the device at the head of what is left. *)
Fixpoint bus_for_each_dev_del (n : nat) (st : bus) : bus :=
  match n with
  | 0 => st
  | S k => bus_for_each_dev_del k (lscon_del_device 0 st)
  end.

Definition lscon_remove (pdev : platform_device) (st : bus)
    : outcome (Z * bus) :=
  let ls := drvdata st !! pdev_id pdev in
  (* Make sure we remove any registered devices *)
  let st := bus_for_each_dev_del (length (bus_devices st)) st in
  let st := log EvClearRoot (set_dev_root None st) in
  match ls with
  | None => Oops
  | Some ls =>
      let st := log (EvSpiPut (lsc_spi ls)) st in
      let st := log (EvI2cPut (lsc_i2c1 ls)) st in
      let st := log (EvI2cPut (lsc_i2c0 ls)) st in
      Done (0%Z, st)
  end.

End Lscon.

Module Secure96.

(** enum ls_gpio of 96boards-mezzanines.h *)
Inductive ls_gpio :=
| LS_GPIO_A | LS_GPIO_B | LS_GPIO_C | LS_GPIO_D | LS_GPIO_E | LS_GPIO_F
| LS_GPIO_G | LS_GPIO_H | LS_GPIO_I | LS_GPIO_J | LS_GPIO_K | LS_GPIO_L.

(** The value of each enumerator, which is the index of the line on the
    connector. *)
Definition ls_gpio_index (pin : ls_gpio) : Z :=
  match pin with
  | LS_GPIO_A => 0 | LS_GPIO_B => 1 | LS_GPIO_C => 2 | LS_GPIO_D => 3
  | LS_GPIO_E => 4 | LS_GPIO_F => 5 | LS_GPIO_G => 6 | LS_GPIO_H => 7
  | LS_GPIO_I => 8 | LS_GPIO_J => 9 | LS_GPIO_K => 10 | LS_GPIO_L => 11
  end%Z.

(** What the board driver takes from the connector: GPIO descriptors,
    the leds-gpio platform device, three I2C clients and the SPI device.
    A handle is named after what it stands for. *)
Inductive resource :=
| Gpiod (pin : ls_gpio)
| LedsDevice
| Eeprom
| Crypto
| Hash
| Tpm.

Inductive event :=
| Acquire (r : resource)
| Release (h : option resource)      (* None: the call was given NULL *)
| NewEeprom (wp : option resource)   (* wp_gpiod of the platform data in use *)
| Udelay (usecs : nat)
| GpiodSetValue (g : resource) (value : Z)
| SetTpmIrq (g : resource)           (* secure96_tpm.irq = gpiod_to_irq(g) *)
| DevErr (msg : string)
| DevInfo (msg : string).

(** struct secure96, zeroed by devm_kzalloc. *)
Record secure96 := {
  leds_device : option resource;
  secure96_leds : list (option resource);
  eeprom : option resource;
  crypto : option resource;
  hash : option resource;
  tpm_reset : option resource;
  tpm_irq : option resource;
  tpm : option resource
}.

(** The static secure96_eeprom_pdata.wp_gpiod, the driver data of the
    ls_device, and the trace of acquisitions and releases. *)
Record board := {
  wp_gpiod : option resource;
  drvdata : option secure96;
  trace : list event
}.

Definition loaded : board :=
  {| wp_gpiod := None; drvdata := None; trace := [] |}.

Definition log (e : event) (st : board) : board :=
  {| wp_gpiod := wp_gpiod st; drvdata := drvdata st;
     trace := trace st ++ [e] |}.

Definition set_wp_gpiod (g : option resource) (st : board) : board :=
  {| wp_gpiod := g; drvdata := drvdata st; trace := trace st |}.

Definition set_drvdata (s : option secure96) (st : board) : board :=
  {| wp_gpiod := wp_gpiod st; drvdata := s; trace := trace st |}.

Definition forget (st : board) : board :=
  {| wp_gpiod := wp_gpiod st; drvdata := drvdata st; trace := [] |}.

(** What the connector and the kernel grant to one probe call. *)
Record env := {
  sec_alloc_ok : bool;
  leds_alloc_ok : bool;
  gpiod_ok : ls_gpio → bool;
  leds_device_ok : bool;
  eeprom_ok : bool;
  crypto_ok : bool;
  hash_ok : bool;
  tpm_ok : bool
}.

Definition ledinfos : list (ls_gpio * string) :=
  [ (LS_GPIO_F, "secure96:red:0"); (LS_GPIO_G, "secure96:red:1");
    (LS_GPIO_H, "secure96:green:0"); (LS_GPIO_I, "secure96:green:1") ].

Definition zeroed : secure96 :=
  {| leds_device := None; secure96_leds := replicate (length ledinfos) None;
     eeprom := None; crypto := None; hash := None;
     tpm_reset := None; tpm_irq := None; tpm := None |}.

Definition set_led (i : nat) (g : option resource) (s : secure96) :=
  {| leds_device := leds_device s; secure96_leds := <[i := g]> (secure96_leds s);
     eeprom := eeprom s; crypto := crypto s; hash := hash s;
     tpm_reset := tpm_reset s; tpm_irq := tpm_irq s; tpm := tpm s |}.
Definition set_leds_device (h : option resource) (s : secure96) :=
  {| leds_device := h; secure96_leds := secure96_leds s;
     eeprom := eeprom s; crypto := crypto s; hash := hash s;
     tpm_reset := tpm_reset s; tpm_irq := tpm_irq s; tpm := tpm s |}.
Definition set_eeprom (h : option resource) (s : secure96) :=
  {| leds_device := leds_device s; secure96_leds := secure96_leds s;
     eeprom := h; crypto := crypto s; hash := hash s;
     tpm_reset := tpm_reset s; tpm_irq := tpm_irq s; tpm := tpm s |}.
Definition set_crypto (h : option resource) (s : secure96) :=
  {| leds_device := leds_device s; secure96_leds := secure96_leds s;
     eeprom := eeprom s; crypto := h; hash := hash s;
     tpm_reset := tpm_reset s; tpm_irq := tpm_irq s; tpm := tpm s |}.
Definition set_hash (h : option resource) (s : secure96) :=
  {| leds_device := leds_device s; secure96_leds := secure96_leds s;
     eeprom := eeprom s; crypto := crypto s; hash := h;
     tpm_reset := tpm_reset s; tpm_irq := tpm_irq s; tpm := tpm s |}.
Definition set_tpm_reset (h : option resource) (s : secure96) :=
  {| leds_device := leds_device s; secure96_leds := secure96_leds s;
     eeprom := eeprom s; crypto := crypto s; hash := hash s;
     tpm_reset := h; tpm_irq := tpm_irq s; tpm := tpm s |}.
Definition set_tpm_irq (h : option resource) (s : secure96) :=
  {| leds_device := leds_device s; secure96_leds := secure96_leds s;
     eeprom := eeprom s; crypto := crypto s; hash := hash s;
     tpm_reset := tpm_reset s; tpm_irq := h; tpm := tpm s |}.
Definition set_tpm (h : option resource) (s : secure96) :=
  {| leds_device := leds_device s; secure96_leds := secure96_leds s;
     eeprom := eeprom s; crypto := crypto s; hash := hash s;
     tpm_reset := tpm_reset s; tpm_irq := tpm_irq s; tpm := h |}.

(** ls_get_gpiod and ls_put_gpiod of the connector driver: the line is
    taken with devm_gpiod_get_index on the connector device; an error
    pointer is the [None] here. *)
Definition ls_get_gpiod (e : env) (pin : ls_gpio) (st : board)
    : option resource * board :=
  if gpiod_ok e pin then (Some (Gpiod pin), log (Acquire (Gpiod pin)) st)
  else (None, st).

Definition ls_put_gpiod (g : option resource) (st : board) : board :=
  log (Release g) st.

(** A creation call of the I2C, SPI or platform core: the new object,
    or NULL (an error pointer for the platform device). *)
Definition new_device (ok : bool) (r : resource) (st : board)
    : option resource * board :=
  if ok then (Some r, log (Acquire r) st) else (None, st).

(** Populate the four LEDs: the loop of secure96_probe from index i. *)
Fixpoint populate_leds (e : env) (i : nat) (infos : list (ls_gpio * string))
    (sec : secure96) (st : board) : option secure96 * board :=
  match infos with
  | [] => (Some sec, st)
  | (pin, _) :: rest =>
      match ls_get_gpiod e pin st with
      | (None, st) =>
          (None, log (DevErr ("failed to get GPIO line " +:+
                              pretty (ls_gpio_index pin))) st)
      | (Some g, st) => populate_leds e (S i) rest (set_led i (Some g) sec) st
      end
  end.

(** for (i = 0; i < ARRAY_SIZE(ledinfos); i++)
        ls_put_gpiod(ls, sec->secure96_leds[i].gpiod); *)
Definition put_leds (sec : secure96) (st : board) : board :=
  fold_left (λ st g, ls_put_gpiod g st) (secure96_leds sec) st.

(** The labels at the end of secure96_probe, each falling through to
    the next. *)
Definition out_unreg_leds (sec : secure96) (ret : Z) (st : board) : Z * board :=
  (ret, put_leds sec (log (Release (leds_device sec)) st)).

Definition out_remove_eeprom (sec : secure96) (ret : Z) (st : board) :=
  let st := log (Release (eeprom sec)) st in
  let st := match wp_gpiod st with
            | Some g => ls_put_gpiod (Some g) st
            | None => st
            end in
  out_unreg_leds sec ret st.

Definition out_remove_crypto (sec : secure96) (ret : Z) (st : board) :=
  out_remove_eeprom sec ret (log (Release (crypto sec)) st).

Definition out_remove_hash (sec : secure96) (ret : Z) (st : board) :=
  out_remove_crypto sec ret (log (Release (hash sec)) st).

Definition out_remove_tpm_reset (sec : secure96) (ret : Z) (st : board) :=
  out_remove_hash sec ret (ls_put_gpiod (tpm_reset sec) st).

Definition out_remove_tpm_irq (sec : secure96) (ret : Z) (st : board) :=
  out_remove_tpm_reset sec ret (ls_put_gpiod (tpm_irq sec) st).

Definition secure96_probe (e : env) (st : board) : Z * board :=
  if negb (sec_alloc_ok e) then ((- ENOMEM)%Z, st) else
  if negb (leds_alloc_ok e) then ((- ENOMEM)%Z, st) else
  let st := log (DevInfo "populate secure96") st in
  (* Populate the four LEDs *)
  match populate_leds e 0 ledinfos zeroed st with
  | (None, st) => ((- ENODEV)%Z, st)
  | (Some sec, st) =>
  let '(h, st) := new_device (leds_device_ok e) LedsDevice st in
  let sec := set_leds_device h sec in
  match leds_device sec with
  | None => ((- ENODEV)%Z, log (DevErr "failed to populate LEDs device") st)
  | Some _ =>
  (* Populate the three I2C0 devices *)
  let '(gpiod, st) := ls_get_gpiod e LS_GPIO_B st in
  let st := match gpiod with
            | None => log (DevErr "no CAT21M01 write-protect GPIO") st
            | Some g => set_wp_gpiod (Some g) st
            end in
  let '(h, st) := new_device (eeprom_ok e) Eeprom (log (NewEeprom (wp_gpiod st)) st) in
  let sec := set_eeprom h sec in
  match eeprom sec with
  | None =>
      out_unreg_leds sec (- ENODEV)%Z (log (DevErr "failed to populate EEPROM") st)
  | Some _ =>
  let '(h, st) := new_device (crypto_ok e) Crypto st in
  let sec := set_crypto h sec in
  match eeprom sec with           (* if (!sec->eeprom) *)
  | None =>
      out_remove_eeprom sec (- ENODEV)%Z
        (log (DevErr "failed to populate crypto device") st)
  | Some _ =>
  let '(h, st) := new_device (hash_ok e) Hash st in
  let sec := set_hash h sec in
  match eeprom sec with           (* if (!sec->eeprom) *)
  | None =>
      out_remove_crypto sec (- ENODEV)%Z
        (log (DevErr "failed to populate hash device") st)
  | Some _ =>
  (* Populate the SPI TPM device *)
  match ls_get_gpiod e LS_GPIO_D st with
  | (None, st) =>
      out_remove_hash sec (- ENODEV)%Z (log (DevErr "failed to get TPM RESET") st)
  | (Some g, st) =>
  let st := log (Udelay 80) st in
  (* Deassert RST *)
  let st := log (GpiodSetValue g 1) st in
  let sec := set_tpm_reset (Some g) sec in
  match ls_get_gpiod e LS_GPIO_C st with
  | (None, st) =>
      out_remove_tpm_reset sec (- ENODEV)%Z
        (log (DevErr "failed to get TPM IRQ GPIO") st)
  | (Some g, st) =>
  let sec := set_tpm_irq (Some g) sec in
  let st := log (SetTpmIrq g) st in
  let '(h, st) := new_device (tpm_ok e) Tpm st in
  let sec := set_tpm h sec in
  match tpm sec with
  | None =>
      out_remove_tpm_irq sec (- ENODEV)%Z
        (log (DevErr "failed to populate TPM device") st)
  | Some _ => (0%Z, set_drvdata (Some sec) st)
  end end end end end end end end.

(** secure96_remove reads the driver data and releases through it. *)
Definition secure96_remove (st : board) : outcome board :=
  match drvdata st with
  | None => Oops
  | Some sec =>
      let st := log (Release (tpm sec)) st in
      let st := ls_put_gpiod (tpm_irq sec) st in
      let st := ls_put_gpiod (tpm_reset sec) st in
      let st := log (Release (hash sec)) st in
      let st := log (Release (crypto sec)) st in
      let st := log (Release (eeprom sec)) st in
      let st := match wp_gpiod st with
                | Some g => ls_put_gpiod (Some g) st
                | None => st
                end in
      let st := log (Release (leds_device sec)) st in
      let st := put_leds sec st in
      Done (set_drvdata None st)
  end.

(** The acquisitions and the release calls of a trace, in order. *)
Definition acquired (tr : list event) : list resource :=
  omap (λ ev, match ev with Acquire r => Some r | _ => None end) tr.

Definition released (tr : list event) : list (option resource) :=
  omap (λ ev, match ev with Release h => Some h | _ => None end) tr.

(** An environment in which every step succeeds. *)
Definition granted : env :=
  {| sec_alloc_ok := true; leds_alloc_ok := true; gpiod_ok := λ _, true;
     leds_device_ok := true; eeprom_ok := true; crypto_ok := true;
     hash_ok := true; tpm_ok := true |}.

End Secure96.

(** ** Scenarios *)

Module Secure96Cases.
Import Secure96.

(** Every step succeeds except the registration of the leds-gpio device. *)
Definition leds_device_refused : env :=
  {| sec_alloc_ok := true; leds_alloc_ok := true; gpiod_ok := λ _, true;
     leds_device_ok := false; eeprom_ok := true; crypto_ok := true;
     hash_ok := true; tpm_ok := true |}.

(** Every step succeeds except the creation of the crypto chip's client. *)
Definition crypto_refused : env :=
  {| sec_alloc_ok := true; leds_alloc_ok := true; gpiod_ok := λ _, true;
     leds_device_ok := true; eeprom_ok := true; crypto_ok := false;
     hash_ok := true; tpm_ok := true |}.

(** The third LED line (pin H) is refused. *)
Definition led_h_refused : env :=
  {| sec_alloc_ok := true; leds_alloc_ok := true;
     gpiod_ok := λ pin, match pin with LS_GPIO_H => false | _ => true end;
     leds_device_ok := true; eeprom_ok := true; crypto_ok := true;
     hash_ok := true; tpm_ok := true |}.

(** The write-protect line (pin B) is taken but the EEPROM is refused. *)
Definition eeprom_refused : env :=
  {| sec_alloc_ok := true; leds_alloc_ok := true; gpiod_ok := λ _, true;
     leds_device_ok := true; eeprom_ok := false; crypto_ok := true;
     hash_ok := true; tpm_ok := true |}.

(** The write-protect line (pin B) is refused, all else is granted. *)
Definition wp_refused : env :=
  {| sec_alloc_ok := true; leds_alloc_ok := true;
     gpiod_ok := λ pin, match pin with LS_GPIO_B => false | _ => true end;
     leds_device_ok := true; eeprom_ok := true; crypto_ok := true;
     hash_ok := true; tpm_ok := true |}.

(** The write-protect line (pin B) and the TPM reset line (pin D) are
    refused. *)
Definition wp_and_reset_refused : env :=
  {| sec_alloc_ok := true; leds_alloc_ok := true;
     gpiod_ok := λ pin, match pin with
                        | LS_GPIO_B | LS_GPIO_D => false
                        | _ => true
                        end;
     leds_device_ok := true; eeprom_ok := true; crypto_ok := true;
     hash_ok := true; tpm_ok := true |}.

(** Every step succeeds except the creation of the SPI TPM device. *)
Definition tpm_refused : env :=
  {| sec_alloc_ok := true; leds_alloc_ok := true; gpiod_ok := λ _, true;
     leds_device_ok := true; eeprom_ok := true; crypto_ok := true;
     hash_ok := true; tpm_ok := false |}.

(** The board after a probe that was granted everything and the remove
    that followed it. *)
Definition reloaded : board :=
  match secure96_remove (snd (secure96_probe granted loaded)) with
  | Done st => forget st
  | Oops => loaded
  end.

(** The order in which the error path gives back what was acquired: the
    reverse of the acquisition, except that the four LED lines, acquired
    first, are put back last in the order they were taken. *)
Definition unwound (acq : list resource) : list (option resource) :=
  Some <$> (rev (drop (length ledinfos) acq) ++ take (length ledinfos) acq).

End Secure96Cases.

Module LsconCases.
Import Lscon.

(** The events a call has added to the trace. *)
Definition events_since (st st' : bus) : list event :=
  drop (length (trace st)) (trace st').

(** *** References held on the upstream busses *)

Inductive upstream :=
| I2cRef (a : i2c_adapter)
| SpiRef (c : spi_controller).

#[global] Instance upstream_eq_dec : EqDecision upstream.
Proof. solve_decision. Defined.

Fixpoint drop_ref (u : upstream) (h : list upstream) : list upstream :=
  match h with
  | [] => []
  | v :: r => if decide (u = v) then r else v :: drop_ref u r
  end.

Definition held_step (h : list upstream) (ev : event) : list upstream :=
  match ev with
  | EvI2cGet a => I2cRef a :: h
  | EvI2cPut (Some a) => drop_ref (I2cRef a) h
  | EvSpiGet c => SpiRef c :: h
  | EvSpiPut (Some c) => drop_ref (SpiRef c) h
  | _ => h
  end.

(** The references taken and not given back by the calls of a trace. *)
Definition held (tr : list event) : list upstream := fold_left held_step tr [].

(** *** The state of an upstream link *)

Inductive link_status := LinkMissing | LinkNotReady | LinkReady.

Definition is_ready (s : link_status) : bool :=
  match s with LinkReady => true | _ => false end.

(** A link is missing when the connector node has no such phandle, not
    ready when the node it names has no adapter or controller yet. *)
Definition link_status_of (pdev : platform_device) (env : platform_env)
    (prop : string) : link_status :=
  match of_parse_phandle (pdev_of_node pdev) prop with
  | None => LinkMissing
  | Some child =>
      if String.eqb prop "spi" then
        match spi_controller_by_node env child with
        | Some _ => LinkReady
        | None => LinkNotReady
        end
      else
        match i2c_adapter_by_node env child with
        | Some _ => LinkReady
        | None => LinkNotReady
        end
  end.

Definition links : list string := ["i2c0"; "i2c1"; "spi"].

(** The first link, in the order of resolution, that does not resolve. *)
Definition first_unresolved (pdev : platform_device) (env : platform_env)
    : option (string * link_status) :=
  List.find (λ p, negb (is_ready p.2))
            ((λ l, (l, link_status_of pdev env l)) <$> links).

(** How often a trace parses the phandle of a link, and how often it
    looks for the link's provider. *)
Fixpoint parses (prop : string) (tr : list event) : nat :=
  match tr with
  | [] => 0
  | EvParsePhandle p :: r => (if String.eqb p prop then 1 else 0) + parses prop r
  | _ :: r => parses prop r
  end.

Fixpoint lookups (prop : string) (tr : list event) : nat :=
  match tr with
  | [] => 0
  | EvFindProvider p :: r => (if String.eqb p prop then 1 else 0) + lookups prop r
  | _ :: r => lookups prop r
  end.

(** *** Sequences of creations and destructions *)

Inductive op :=
| Create (ls : ls_connector) (name : option string) (np : option device_node)
         (fate : add_fate)
| Destroy (i : nat).

Definition step (st : bus) (o : op) : bus :=
  match o with
  | Create ls name np fate => snd (lscon_add_device ls name np fate st)
  | Destroy i => lscon_del_device i st
  end.

Definition run (ops : list op) (st : bus) : bus := fold_left step ops st.

Definition live_ids (st : bus) : list Z := (λ d, id (lsdev d)) <$> bus_devices st.

(** The ids of the devices on the bus are distinct, within the range of
    the pool and marked as taken in it. *)
Definition pool_ok (st : bus) : Prop :=
  NoDup (live_ids st) ∧
  ∀ i, i ∈ live_ids st →
       (0 ≤ i ≤ INT_MAX)%Z ∧ ls_device_ida st !! Z.to_nat i = Some true.

(** *** Teardown *)

(** What the deletion of one device adds to the trace. *)
Definition del_events (d : bus_device) : list event :=
  match driver d with
  | Some drv => if remove drv then [EvDrvRemove (drv_name drv) (id (lsdev d))]
                else []
  | None => []
  end ++ [EvDeviceDel (id (lsdev d)); EvIdaRemove (id (lsdev d))].

(** How often a driver's remove was called for the device with id i. *)
Fixpoint remove_calls (i : Z) (tr : list event) : nat :=
  match tr with
  | [] => 0
  | EvDrvRemove _ j :: r => (if (j =? i)%Z then 1 else 0) + remove_calls i r
  | _ :: r => remove_calls i r
  end.

Definition remove_due (d : bus_device) : nat :=
  match driver d with
  | Some drv => if remove drv then 1 else 0
  | None => 0
  end.

(** *** Enumeration of the children *)

(** The value of each lscon_add_device call of the loop over the
    children, which the loop itself drops. *)
Fixpoint child_results (ls : ls_connector) (env : platform_env)
    (nodes : list device_node) (st : bus) : list Z :=
  match nodes with
  | [] => []
  | child :: rest =>
      if available child then
        let '(ret, st) :=
          lscon_add_device ls None (Some child) (child_fate env child) st in
        ret :: child_results ls env rest st
      else child_results ls env rest st
  end.

Definition successes (rets : list Z) : nat :=
  length (List.filter (λ r, (r =? 0)%Z) rets).

(** The connector with its three upstream busses resolved. *)
Definition bundle (pdev : platform_device) (a0 a1 : i2c_adapter)
    (c : spi_controller) : ls_connector :=
  {| lsc_dev := pdev_id pdev; lsc_i2c0 := Some a0; lsc_i2c1 := Some a1;
     lsc_spi := Some c |}.

(** *** A board *)

Definition i2c0_node : device_node :=
  {| full_name := "i2c@ffd71000"; compatible := ["snps,designware-i2c"];
     available := true |}.
Definition i2c1_node : device_node :=
  {| full_name := "i2c@ffd72000"; compatible := ["snps,designware-i2c"];
     available := true |}.
Definition spi_node : device_node :=
  {| full_name := "spi@ffd68000"; compatible := ["arm,pl022"];
     available := true |}.

Definition secure96_node : device_node :=
  {| full_name := "secure96"; compatible := ["96boards,secure96"];
     available := true |}.
Definition sensors_node : device_node :=
  {| full_name := "sensors"; compatible := ["96boards,sensors"];
     available := true |}.
Definition disabled_node : device_node :=
  {| full_name := "audio"; compatible := ["96boards,audio"];
     available := false |}.

Definition lscon_node : connector_node :=
  {| phandles := <["i2c0" := i2c0_node]> (<["i2c1" := i2c1_node]>
                   (<["spi" := spi_node]> ∅));
     children := [secure96_node; disabled_node; sensors_node] |}.

Definition lscon_pdev : platform_device :=
  {| pdev_id := 7; pdev_of_node := lscon_node |}.

Definition adapter_of (n : device_node) : option i2c_adapter :=
  if String.eqb (full_name n) "i2c@ffd71000" then Some 0
  else if String.eqb (full_name n) "i2c@ffd72000" then Some 1
  else None.

Definition controller_of (n : device_node) : option spi_controller :=
  if String.eqb (full_name n) "spi@ffd68000" then Some 0 else None.

(** Every provider is there and nothing fails. *)
Definition ready : platform_env :=
  {| kzalloc_ok := true; i2c_adapter_by_node := adapter_of;
     spi_controller_by_node := controller_of; spi_controller_get_ok := true;
     bus_create_file_ret := λ _, 0%Z; child_fate := λ _, fine |}.

(** As [ready], but the first sysfs file cannot be created. *)
Definition no_supported_file : platform_env :=
  {| kzalloc_ok := true; i2c_adapter_by_node := adapter_of;
     spi_controller_by_node := controller_of; spi_controller_get_ok := true;
     bus_create_file_ret :=
       λ a, match a with bus_attr_supported => (- ENOMEM)%Z | _ => 0%Z end;
     child_fate := λ _, fine |}.

(** As [ready], but the SPI controller has not registered yet. *)
Definition spi_not_ready : platform_env :=
  {| kzalloc_ok := true; i2c_adapter_by_node := adapter_of;
     spi_controller_by_node := λ _, None; spi_controller_get_ok := true;
     bus_create_file_ret := λ _, 0%Z; child_fate := λ _, fine |}.

(** As [ready], but kzalloc fails for the child named secure96. *)
Definition secure96_child_fails : platform_env :=
  {| kzalloc_ok := true; i2c_adapter_by_node := adapter_of;
     spi_controller_by_node := controller_of; spi_controller_get_ok := true;
     bus_create_file_ret := λ _, 0%Z;
     child_fate := λ n, if String.eqb (full_name n) "secure96"
                        then {| lsdev_alloc_ok := false; device_add_ret := 0 |}
                        else fine |}.

Definition secure96_driver : ls_driver :=
  {| drv_name := "secure96"; of_match_table := ["96boards,secure96"];
     probe := Some (λ _, 0%Z); remove := true |}.

(** The bus after a successful attach of the board, and after the
    detach that follows. *)
Definition attached : bus :=
  snd (lscon_probe lscon_pdev ready (boot [secure96_driver])).

Definition detached : bus :=
  match lscon_remove lscon_pdev attached with
  | Done (_, st) => st
  | Oops => attached
  end.

(** What a shell writes to an attribute file: the name and a newline. *)
Definition line (name : string) : string :=
  name +:+ String (Ascii.ascii_of_nat 10) EmptyString.

(** The attached bus after secure96 was written to inject: the two
    mezzanines of the device tree and the injected device. *)
Definition populated : bus :=
  match ls_inject_store (line "secure96") 9 true fine attached with
  | Returned _ st => st
  | _ => attached
  end.

Definition unplugged : bus :=
  match lscon_remove lscon_pdev populated with
  | Done (_, st) => st
  | Oops => populated
  end.

(** The connector as [attached] has it in its driver data. *)
Definition the_bundle : ls_connector := bundle lscon_pdev 0 1 0.

End LsconCases.

(** ** The supported attribute *)

Module Supported.
Import Lscon.

Definition PAGE_SIZE : nat := 4096.
Definition NUL : Ascii.ascii := Ascii.zero.
Definition LF : Ascii.ascii := Ascii.ascii_of_nat 10.

(** struct ls_supported_buf: the buffer that show was handed, as the
    bytes of its page, and the count. *)
Record ls_supported_buf := {
  buf : list Ascii.ascii;
  count : nat
}.

(** snprintf(dst, size, "%s\n", name): the bytes it stores, which are
    the first size - 1 characters of the output and a NUL, and the value
    it returns, which is the length of the whole output. *)
Definition snprintf_line (size : nat) (name : string)
    : list Ascii.ascii * nat :=
  let out := String.list_ascii_of_string name ++ [LF] in
  (take (size - 1) out ++ [NUL], length out).

(** The bytes are stored at an offset of the page; [None] when they run
    past its end. *)
Definition store (pg : list Ascii.ascii) (off : nat)
    (bytes : list Ascii.ascii) : option (list Ascii.ascii) :=
  if Nat.leb (off + length bytes) (length pg)
  then Some (take off pg ++ bytes ++ drop (off + length bytes) pg)
  else None.

Definition ls_supported_print (drv : ls_driver) (sbuf : ls_supported_buf)
    : option ls_supported_buf :=
  let '(bytes, n) := snprintf_line PAGE_SIZE (drv_name drv) in
  match store (buf sbuf) (count sbuf) bytes with
  | Some pg => Some {| buf := pg; count := count sbuf + n |}
  | None => None
  end.

(** bus_for_each_drv with ls_supported_print, whose data is updated in
    place; the callback returns 0, so every driver is visited. *)
Fixpoint bus_for_each_drv_print (drvs : list ls_driver)
    (sbuf : ls_supported_buf) : option ls_supported_buf :=
  match drvs with
  | [] => Some sbuf
  | drv :: rest =>
      match ls_supported_print drv sbuf with
      | Some sbuf => bus_for_each_drv_print rest sbuf
      | None => None
      end
  end.

(** ls_supported_show: the value returned and the page as it is left. *)
Definition ls_supported_show (drvs : list ls_driver) (pg : list Ascii.ascii)
    : option (nat * list Ascii.ascii) :=
  match bus_for_each_drv_print drvs {| buf := pg; count := 0 |} with
  | Some sbuf => Some (count sbuf, buf sbuf)
  | None => None
  end.

(** The names of the drivers, one per line, and the length of that text. *)
Fixpoint supported_text (drvs : list ls_driver) : list Ascii.ascii :=
  match drvs with
  | [] => []
  | drv :: rest =>
      String.list_ascii_of_string (drv_name drv) ++ [LF] ++ supported_text rest
  end.

Fixpoint supported_length (drvs : list ls_driver) : nat :=
  match drvs with
  | [] => 0
  | drv :: rest => String.length (drv_name drv) + 1 + supported_length rest
  end.

End Supported.

(** ** What a creation puts on the bus *)

Module LsconDevices.
Import Lscon LsconCases.

(** The device that lscon_add_device sets up from the connector, the
    name, the node and the lowest free id. *)
Definition new_lsdev (ls : ls_connector) (name : option string)
    (np : option device_node) (st : bus) : ls_device :=
  {| id := Z.of_nat (ida_first_free (ls_device_ida st));
     dev_name := match name with
                 | Some n => n
                 | None => "mezzanine" +:+
                           pretty (Z.of_nat (ida_first_free (ls_device_ida st)))
                 end;
     of_node := np;
     parent := lsc_dev ls;
     i2c0 := lsc_i2c0 ls; i2c1 := lsc_i2c1 ls; spi := lsc_spi ls |}.

(** The driver a new device ends up bound to. *)
Definition bound_driver (dev : ls_device) (drvs : list ls_driver)
    : option ls_driver :=
  match List.find (ls_match dev) drvs with
  | Some drv => if (ls_driver_probe dev drv =? 0)%Z then Some drv else None
  | None => None
  end.

(** The devices that the enumeration of the children is to leave on the
    bus, read off the loop: the available children are taken in order;
    each is given memory or not and then the lowest free id of the pool as
    it stands; when device_add accepts it, the device of that child, named
    after its id and carrying the connector's busses, is on the bus, and
    when device_add refuses it the id stays taken and the loop goes on. *)
Fixpoint expected_mezzanines (ls : ls_connector) (env : platform_env)
    (drvs : list ls_driver) (nodes : list device_node) (bm : list bool)
    : list bus_device :=
  match nodes with
  | [] => []
  | child :: rest =>
      if negb (available child) then expected_mezzanines ls env drvs rest bm
      else if negb (lsdev_alloc_ok (child_fate env child))
      then expected_mezzanines ls env drvs rest bm
      else if (INT_MAX <? Z.of_nat (ida_first_free bm))%Z
      then expected_mezzanines ls env drvs rest bm
      else
        let i := Z.of_nat (ida_first_free bm) in
        let bm' := ida_mark (ida_first_free bm) bm in
        if (device_add_ret (child_fate env child) =? 0)%Z then
          let dev :=
            {| id := i; dev_name := "mezzanine" +:+ pretty i;
               of_node := Some child; parent := lsc_dev ls;
               i2c0 := lsc_i2c0 ls; i2c1 := lsc_i2c1 ls;
               spi := lsc_spi ls |} in
          {| lsdev := dev; driver := bound_driver dev drvs |}
          :: expected_mezzanines ls env drvs rest bm'
        else expected_mezzanines ls env drvs rest bm'
  end.

(** The available children whose creation returned 0, in the order in
    which the loop takes them. *)
Definition created_children (ls : ls_connector) (env : platform_env)
    (nodes : list device_node) (st : bus) : list device_node :=
  List.map fst
    (List.filter (λ p, (snd p =? 0)%Z)
       (List.combine (List.filter available nodes)
          (child_results ls env nodes st))).

(** A device made from a child node of the connector ls. *)
Definition mezzanine_of (ls : ls_connector) (nodes : list device_node)
    (d : bus_device) : Prop :=
  parent (lsdev d) = lsc_dev ls ∧
  i2c0 (lsdev d) = lsc_i2c0 ls ∧ i2c1 (lsdev d) = lsc_i2c1 ls ∧
  spi (lsdev d) = lsc_spi ls ∧
  dev_name (lsdev d) = "mezzanine" +:+ pretty (id (lsdev d)) ∧
  ∃ child, child ∈ nodes ∧ available child = true ∧
           of_node (lsdev d) = Some child.

(** The events that take or drop no reference on an upstream bus. *)
Definition neutral (ev : event) : bool :=
  match ev with
  | EvI2cGet _ | EvI2cPut _ | EvSpiGet _ | EvSpiPut _ => false
  | _ => true
  end.

End LsconDevices.

(** ** Releases of the Secure96 driver *)

Module Secure96Releases.
Import Secure96.

#[global] Instance ls_gpio_eq_dec : EqDecision ls_gpio.
Proof. solve_decision. Defined.

#[global] Instance resource_eq_dec : EqDecision resource.
Proof. solve_decision. Defined.

(** The handles that the release calls of a trace were given. *)
Definition released_handles (tr : list event) : list resource :=
  omap id (released tr).

(** The release calls that were given NULL. *)
Definition null_releases (tr : list event) : nat :=
  length (List.filter (λ h, match h with None => true | Some _ => false end)
                      (released tr)).

(** The LED lines that the loop of probe takes before the first refusal. *)
Fixpoint led_prefix (e : env) (infos : list (ls_gpio * string))
    : list resource :=
  match infos with
  | [] => []
  | (pin, _) :: rest =>
      if gpiod_ok e pin then Gpiod pin :: led_prefix e rest else []
  end.

(** A board with an empty trace. *)
Definition fresh (wp : option resource) (dd : option secure96) : board :=
  {| wp_gpiod := wp; drvdata := dd; trace := [] |}.

End Secure96Releases.

(** ** Properties of the Secure96 driver *)

Import Secure96 Secure96Cases.

Example secure96_probe_granted :
  fst (secure96_probe granted loaded) = 0%Z ∧
  acquired (trace (snd (secure96_probe granted loaded))) =
    [Gpiod LS_GPIO_F; Gpiod LS_GPIO_G; Gpiod LS_GPIO_H; Gpiod LS_GPIO_I;
     LedsDevice; Gpiod LS_GPIO_B; Eeprom; Crypto; Hash;
     Gpiod LS_GPIO_D; Gpiod LS_GPIO_C; Tpm] ∧
  released (trace (snd (secure96_probe granted loaded))) = [].
Proof. by vm_compute. Qed.

(** Remove gives everything back: the reverse of the acquisition order
    except for the LED lines, which are put in the order F, G, H, I. *)
Example secure96_remove_granted :
  ∃ st, secure96_remove (forget (snd (secure96_probe granted loaded))) = Done st ∧
    released (trace st) =
      Some <$> [Tpm; Gpiod LS_GPIO_C; Gpiod LS_GPIO_D; Hash; Crypto; Eeprom;
                Gpiod LS_GPIO_B; LedsDevice;
                Gpiod LS_GPIO_F; Gpiod LS_GPIO_G; Gpiod LS_GPIO_H; Gpiod LS_GPIO_I] ∧
    drvdata st = None.
Proof. eexists. by vm_compute. Qed.

(** C1, as stated, fails by the order and by the write-protect step.
    When the SPI TPM device is refused the error path gives back all
    that was acquired, but the four LED lines, acquired first in the
    order F, G, H, I, are put back last in that same order, not in
    reverse.  When the write-protect line is refused, probe releases
    nothing and returns no error. *)
Lemma secure96_probe_not_strict_reverse :
  fst (secure96_probe tpm_refused loaded) = (- ENODEV)%Z ∧
  acquired (trace (snd (secure96_probe tpm_refused loaded))) =
    [Gpiod LS_GPIO_F; Gpiod LS_GPIO_G; Gpiod LS_GPIO_H; Gpiod LS_GPIO_I;
     LedsDevice; Gpiod LS_GPIO_B; Eeprom; Crypto; Hash;
     Gpiod LS_GPIO_D; Gpiod LS_GPIO_C] ∧
  released (trace (snd (secure96_probe tpm_refused loaded))) =
    Some <$> [Gpiod LS_GPIO_C; Gpiod LS_GPIO_D; Hash; Crypto; Eeprom;
              Gpiod LS_GPIO_B; LedsDevice;
              Gpiod LS_GPIO_F; Gpiod LS_GPIO_G; Gpiod LS_GPIO_H;
              Gpiod LS_GPIO_I] ∧
  released (trace (snd (secure96_probe tpm_refused loaded))) ≠
    Some <$> rev (acquired (trace (snd (secure96_probe tpm_refused loaded)))) ∧
  gpiod_ok wp_refused LS_GPIO_B = false ∧
  fst (secure96_probe wp_refused loaded) = 0%Z ∧
  released (trace (snd (secure96_probe wp_refused loaded))) = [].
Proof. split_and!; by vm_compute. Qed.

(** C1, amended: on a board whose write-protect field is clear, when the
    LED lines, the leds-gpio device and the three I2C clients are
    granted, a probe that fails, which it then does at the TPM reset
    line, the TPM interrupt line or the SPI TPM device, returns -ENODEV
    after releasing each resource it acquired exactly once, in reverse
    order of acquisition, except that the four LED lines come last and in
    the order F, G, H, I; the write-protect line, whose refusal is not
    fatal, is among them only if it was acquired.  A probe that succeeds
    releases nothing, and the remove that follows it releases all that
    probe acquired in that same order. *)
Theorem secure96_rollback_late_steps (e : env) (st : board) :
  sec_alloc_ok e = true → leds_alloc_ok e = true →
  (∀ p, p ∈ ledinfos.*1 → gpiod_ok e p = true) →
  leds_device_ok e = true → eeprom_ok e = true →
  crypto_ok e = true → hash_ok e = true →
  wp_gpiod st = None → trace st = [] →
  (fst (secure96_probe e st) ≠ 0%Z →
     fst (secure96_probe e st) = (- ENODEV)%Z ∧
     (gpiod_ok e LS_GPIO_D = false ∨ gpiod_ok e LS_GPIO_C = false ∨
      tpm_ok e = false) ∧
     released (trace (snd (secure96_probe e st))) =
       unwound (acquired (trace (snd (secure96_probe e st)))) ∧
     drvdata (snd (secure96_probe e st)) = drvdata st) ∧
  (fst (secure96_probe e st) = 0%Z →
     released (trace (snd (secure96_probe e st))) = [] ∧
     ∃ st', secure96_remove (forget (snd (secure96_probe e st))) = Done st' ∧
            released (trace st') =
              unwound (acquired (trace (snd (secure96_probe e st)))) ∧
            drvdata st' = None).
Proof.
  intros Hs Hl Hleds Hd He Hc Hh Hwp Htr.
  destruct st as [wp dd tr]; simpl in Hwp, Htr; subst wp tr.
  assert (HF : gpiod_ok e LS_GPIO_F = true) by (apply Hleds; set_solver).
  assert (HG : gpiod_ok e LS_GPIO_G = true) by (apply Hleds; set_solver).
  assert (HH : gpiod_ok e LS_GPIO_H = true) by (apply Hleds; set_solver).
  assert (HI : gpiod_ok e LS_GPIO_I = true) by (apply Hleds; set_solver).
  unfold secure96_probe, populate_leds, ledinfos, ls_get_gpiod, new_device.
  rewrite Hs, Hl, HF, HG, HH, HI, Hd, He, Hc, Hh; simpl.
  destruct (gpiod_ok e LS_GPIO_B), (gpiod_ok e LS_GPIO_D),
    (gpiod_ok e LS_GPIO_C), (tpm_ok e); simpl; split; intros Hret;
    try (exfalso; apply Hret; reflexivity);
    try (exfalso; vm_compute in Hret; discriminate Hret).
  all: try (split; [by vm_compute | eexists; by vm_compute]).
  all: split_and!; [by vm_compute | tauto | by vm_compute | reflexivity].
Qed.

Lemma secure96_rollback_late_steps_witness :
  fst (secure96_probe wp_and_reset_refused loaded) = (- ENODEV)%Z ∧
  released (trace (snd (secure96_probe wp_and_reset_refused loaded))) =
    Some <$> [Hash; Crypto; Eeprom; LedsDevice;
              Gpiod LS_GPIO_F; Gpiod LS_GPIO_G; Gpiod LS_GPIO_H;
              Gpiod LS_GPIO_I] ∧
  ∃ st', secure96_remove (forget (snd (secure96_probe granted loaded))) =
           Done st' ∧
         released (trace st') =
           Some <$> [Tpm; Gpiod LS_GPIO_C; Gpiod LS_GPIO_D; Hash; Crypto;
                     Eeprom; Gpiod LS_GPIO_B; LedsDevice;
                     Gpiod LS_GPIO_F; Gpiod LS_GPIO_G; Gpiod LS_GPIO_H;
                     Gpiod LS_GPIO_I].
Proof.
  assert (Hleds : ∀ e : env, gpiod_ok e LS_GPIO_F = true →
            gpiod_ok e LS_GPIO_G = true → gpiod_ok e LS_GPIO_H = true →
            gpiod_ok e LS_GPIO_I = true →
            ∀ p, p ∈ ledinfos.*1 → gpiod_ok e p = true).
  { intros e HF HG HH HI p Hp. simpl in Hp.
    repeat (apply elem_of_cons in Hp as [-> | Hp]; [assumption |]).
    by apply elem_of_nil in Hp. }
  destruct (secure96_rollback_late_steps wp_and_reset_refused loaded
              eq_refl eq_refl
              (Hleds wp_and_reset_refused eq_refl eq_refl eq_refl eq_refl)
              eq_refl eq_refl eq_refl eq_refl eq_refl eq_refl) as [Hfail _].
  destruct (secure96_rollback_late_steps granted loaded eq_refl eq_refl
              (Hleds granted eq_refl eq_refl eq_refl eq_refl)
              eq_refl eq_refl eq_refl eq_refl eq_refl eq_refl) as [_ Hok].
  destruct Hfail as (Hret & _ & Hrel & _); [by vm_compute |].
  destruct (Hok eq_refl) as (_ & st' & Hrem & Hrel' & _).
  split_and!; [exact Hret | exact Hrel |].
  exists st'. split; [exact Hrem | exact Hrel'].
Defined.

(** Two failures of probe that leave the error path too early.  When the
    leds-gpio device is refused, probe returns -ENODEV holding the four
    LED lines, none of which it releases; when the crypto client is
    refused, the test that follows reads the EEPROM field, so probe goes
    on and returns 0 with a NULL crypto client. *)
Lemma secure96_probe_early_failure_leaks :
  (fst (secure96_probe leds_device_refused loaded) = (- ENODEV)%Z ∧
   acquired (trace (snd (secure96_probe leds_device_refused loaded))) =
     [Gpiod LS_GPIO_F; Gpiod LS_GPIO_G; Gpiod LS_GPIO_H; Gpiod LS_GPIO_I] ∧
   released (trace (snd (secure96_probe leds_device_refused loaded))) = []) ∧
  (fst (secure96_probe crypto_refused loaded) = 0%Z ∧
   (Crypto ∉ acquired (trace (snd (secure96_probe crypto_refused loaded)))) ∧
   (crypto <$> drvdata (snd (secure96_probe crypto_refused loaded))) = Some None).
Proof.
  split; split_and!; try by vm_compute.
  vm_compute. intros H. repeat (inversion H as [|? ? ? H']; clear H; rename H' into H).
Qed.

(** Two more: a refused LED line returns at once
    and keeps the lines taken before it; a refused EEPROM client takes
    the error path from the label after the write-protect release. *)
Example secure96_probe_led_refused :
  fst (secure96_probe led_h_refused loaded) = (- ENODEV)%Z ∧
  acquired (trace (snd (secure96_probe led_h_refused loaded))) =
    [Gpiod LS_GPIO_F; Gpiod LS_GPIO_G] ∧
  released (trace (snd (secure96_probe led_h_refused loaded))) = [].
Proof. by vm_compute. Qed.

Example secure96_probe_eeprom_refused :
  fst (secure96_probe eeprom_refused loaded) = (- ENODEV)%Z ∧
  acquired (trace (snd (secure96_probe eeprom_refused loaded))) =
    [Gpiod LS_GPIO_F; Gpiod LS_GPIO_G; Gpiod LS_GPIO_H; Gpiod LS_GPIO_I;
     LedsDevice; Gpiod LS_GPIO_B] ∧
  released (trace (snd (secure96_probe eeprom_refused loaded))) =
    Some <$> [LedsDevice; Gpiod LS_GPIO_F; Gpiod LS_GPIO_G; Gpiod LS_GPIO_H;
              Gpiod LS_GPIO_I].
Proof. by vm_compute. Qed.

(** The write-protect line does not decide the result of probe: with
    pin B refused and the rest granted, probe succeeds, logs the failure
    and, on a board whose field is clear, creates the EEPROM client
    without a write-protect line. *)
Lemma secure96_probe_wp_not_fatal (st : board) :
  wp_gpiod st = None →
  fst (secure96_probe wp_refused st) = 0%Z ∧
  wp_gpiod (snd (secure96_probe wp_refused st)) = None ∧
  ∃ tr, trace (snd (secure96_probe wp_refused st)) =
          trace st ++ tr ∧
        DevErr "no CAT21M01 write-protect GPIO" ∈ tr ∧
        NewEeprom None ∈ tr ∧ Eeprom ∈ acquired tr.
Proof.
  destruct st as [wp dd tr]; simpl; intros ->.
  split_and!; [by vm_compute | by vm_compute |].
  eexists. split.
  - unfold secure96_probe; simpl. unfold out_remove_tpm_irq; simpl.
    unfold log; simpl. rewrite <- !app_assoc. reflexivity.
  - split_and!; [set_solver | set_solver | vm_compute; set_solver].
Qed.

(** On a board whose write-protect field is clear, probe releases the
    write-protect line only if it acquired it. *)
Lemma secure96_probe_wp_release_clear (e : env) (st : board) :
  wp_gpiod st = None → trace st = [] →
  Some (Gpiod LS_GPIO_B) ∈ released (trace (snd (secure96_probe e st))) →
  Gpiod LS_GPIO_B ∈ acquired (trace (snd (secure96_probe e st))).
Proof.
  destruct st as [wp dd tr]; simpl; intros -> ->.
  destruct e as [a1 a2 g ld ee cc hh tt].
  unfold secure96_probe, populate_leds, ledinfos, ls_get_gpiod, new_device; simpl.
  destruct a1, a2; simpl; try (intros H; by inversion H).
  destruct (g LS_GPIO_F); simpl; try (intros H; by inversion H).
  destruct (g LS_GPIO_G); simpl; try (intros H; by inversion H).
  destruct (g LS_GPIO_H); simpl; try (intros H; by inversion H).
  destruct (g LS_GPIO_I); simpl; try (intros H; by inversion H).
  destruct ld; simpl; try (intros H; by inversion H).
  destruct (g LS_GPIO_B) eqn:HB; simpl.
  - intros _. destruct ee, cc, hh, (g LS_GPIO_D), (g LS_GPIO_C), tt;
      vm_compute; set_solver.
  - destruct ee, cc, hh, (g LS_GPIO_D), (g LS_GPIO_C), tt; vm_compute;
      intros H; exfalso;
      repeat (inversion H as [|? ? ? H']; clear H; rename H' into H).
Qed.

(** C10: failing to get the write-protect line is not fatal, and the
    line is released only when its acquisition succeeded.  The code at
    the input where this fails: the field that holds the line is static
    and is never cleared, so after a granted probe and its remove it
    still names the line; a later probe that is refused pin B creates the
    EEPROM client with that stale line and its error path releases the
    line, which this probe never acquired and remove had already put. *)
Theorem secure96_probe_stale_write_protect :
  wp_gpiod reloaded = Some (Gpiod LS_GPIO_B) ∧
  Some (Gpiod LS_GPIO_B) ∈
    released (trace (match secure96_remove (snd (secure96_probe granted loaded))
                     with Done st => st | Oops => loaded end)) ∧
  fst (secure96_probe wp_and_reset_refused reloaded) = (- ENODEV)%Z ∧
  (Gpiod LS_GPIO_B ∉
    acquired (trace (snd (secure96_probe wp_and_reset_refused reloaded)))) ∧
  NewEeprom (Some (Gpiod LS_GPIO_B)) ∈
    trace (snd (secure96_probe wp_and_reset_refused reloaded)) ∧
  Some (Gpiod LS_GPIO_B) ∈
    released (trace (snd (secure96_probe wp_and_reset_refused reloaded))).
Proof.
  split_and!; try by vm_compute.
  - vm_compute. set_solver.
  - vm_compute. intros H.
    repeat (inversion H as [|? ? ? H']; clear H; rename H' into H).
  - vm_compute. set_solver.
  - vm_compute. set_solver.
Qed.

(** ** Properties of the connector driver *)

Import Lscon LsconCases.

Example attached_devices :
  (λ d, (id (lsdev d), dev_name (lsdev d), drv_name <$> driver d))
    <$> bus_devices attached =
  [(0%Z, "mezzanine0", Some "secure96"); (1%Z, "mezzanine1", None)] ∧
  dev_root attached = Some 7 ∧ drvdata attached !! 7 = Some the_bundle ∧
  held (trace attached) = [SpiRef 0; I2cRef 1; I2cRef 0].
Proof. by vm_compute. Qed.

Example detached_state :
  bus_devices detached = [] ∧ dev_root detached = None ∧
  bus_files detached = [bus_attr_supported; bus_attr_inject; bus_attr_eject] ∧
  held (trace detached) = [].
Proof. by vm_compute. Qed.

Lemma events_since_app (st st' : bus) (tr : list event) :
  trace st' = trace st ++ tr → events_since st st' = tr.
Proof. unfold events_since. intros ->. by rewrite drop_app_length. Qed.

Lemma events_since_refl (st : bus) : events_since st st = [].
Proof. apply events_since_app. by rewrite app_nil_r. Qed.

(** Brings the trace of a state built by successive [log]s to the form
    [trace st ++ tr]. *)
Ltac trace_suffix :=
  simpl; unfold out_put_i2c1, out_put_i2c0; simpl;
  rewrite <- ?app_assoc; simpl; reflexivity.

Ltac held_compute :=
  unfold held; simpl; repeat (rewrite decide_True by reflexivity; simpl).

(** When a link does not resolve, probe returns with every reference it
    took given back, the later one first, and with the bus as it found it. *)
Lemma lscon_probe_link_failure_rollback (pdev : platform_device)
    (env : platform_env) (st : bus) (l : string) (s : link_status) :
  first_unresolved pdev env = Some (l, s) →
  held (events_since st (snd (lscon_probe pdev env st))) = [] ∧
  dev_root (snd (lscon_probe pdev env st)) = dev_root st ∧
  drvdata (snd (lscon_probe pdev env st)) = drvdata st ∧
  bus_devices (snd (lscon_probe pdev env st)) = bus_devices st ∧
  bus_files (snd (lscon_probe pdev env st)) = bus_files st.
Proof.
  unfold first_unresolved, link_status_of, links, lscon_probe, of_parse_phandle.
  simpl. intros H.
  destruct (kzalloc_ok env); simpl; [| by rewrite events_since_refl].
  destruct (phandles (pdev_of_node pdev) !! "i2c0") as [n0|]; simpl in *.
  2: { split_and!; try done. by erewrite events_since_app by trace_suffix. }
  destruct (i2c_adapter_by_node env n0) as [a0|]; simpl in *.
  2: { split_and!; try done. by erewrite events_since_app by trace_suffix. }
  destruct (phandles (pdev_of_node pdev) !! "i2c1") as [n1|]; simpl in *.
  2: { split_and!; try done.
       erewrite events_since_app by trace_suffix. by held_compute. }
  destruct (i2c_adapter_by_node env n1) as [a1|]; simpl in *.
  2: { split_and!; try done.
       erewrite events_since_app by trace_suffix. by held_compute. }
  destruct (phandles (pdev_of_node pdev) !! "spi") as [n2|]; simpl in *.
  2: { split_and!; try done.
       erewrite events_since_app by trace_suffix. by held_compute. }
  destruct (spi_controller_by_node env n2) as [c|]; simpl in *; [done |].
  split_and!; try done.
  erewrite events_since_app by trace_suffix. by held_compute.
Qed.

(** C2: a failed attach holds no upstream resource and leaves no partial
    connector state.  The code at an input where all three links resolve
    and the first sysfs file cannot be created: the error path starts at
    the label that puts the second I2C adapter, so probe returns the
    error with the SPI controller reference still held, dev_root set and
    the driver data in place. *)
Theorem lscon_probe_file_failure_keeps_spi :
  fst (lscon_probe lscon_pdev no_supported_file (boot [])) = (- ENOMEM)%Z ∧
  trace (snd (lscon_probe lscon_pdev no_supported_file (boot []))) =
    [EvParsePhandle "i2c0"; EvFindProvider "i2c0"; EvI2cGet 0;
     EvParsePhandle "i2c1"; EvFindProvider "i2c1"; EvI2cGet 1;
     EvParsePhandle "spi"; EvFindProvider "spi"; EvSpiGet 0;
     EvSetRoot 7; EvI2cPut (Some 1); EvI2cPut (Some 0)] ∧
  held (trace (snd (lscon_probe lscon_pdev no_supported_file (boot [])))) =
    [SpiRef 0] ∧
  dev_root (snd (lscon_probe lscon_pdev no_supported_file (boot []))) = Some 7 ∧
  drvdata (snd (lscon_probe lscon_pdev no_supported_file (boot []))) !! 7 =
    Some the_bundle.
Proof. by vm_compute. Qed.

Ltac count_links :=
  cbn [parses lookups];
  repeat match goal with
         | |- context [String.eqb ?p ?q] =>
             let E := fresh "E" in
             destruct (String.eqb p q) eqn:E;
             [apply String.eqb_eq in E; try discriminate E; subst |];
             cbn [parses lookups Nat.add]
         end;
  split; lia.

(** C4: each of the three link resolutions of attach tells a link that
    is not declared (probe returns -ENODEV and attach is aborted) from a
    declared link whose provider is not there yet (probe returns
    -EPROBE_DEFER, a different value), and returns the latter to the
    caller after at most one lookup of each link: nothing is retried, and
    the bus is left as it was found. *)
Theorem lscon_probe_link_outcomes (pdev : platform_device)
    (env : platform_env) (st : bus) (l : string) (s : link_status) :
  kzalloc_ok env = true →
  first_unresolved pdev env = Some (l, s) →
  (s = LinkMissing → fst (lscon_probe pdev env st) = (- ENODEV)%Z) ∧
  (s = LinkNotReady → fst (lscon_probe pdev env st) = (- EPROBE_DEFER)%Z) ∧
  (- ENODEV)%Z ≠ (- EPROBE_DEFER)%Z ∧
  (∀ prop, parses prop (events_since st (snd (lscon_probe pdev env st))) ≤ 1 ∧
           lookups prop (events_since st (snd (lscon_probe pdev env st))) ≤ 1) ∧
  bus_devices (snd (lscon_probe pdev env st)) = bus_devices st ∧
  dev_root (snd (lscon_probe pdev env st)) = dev_root st.
Proof.
  unfold first_unresolved, link_status_of, links, lscon_probe, of_parse_phandle.
  simpl. intros -> H.
  destruct (phandles (pdev_of_node pdev) !! "i2c0") as [n0|]; simpl in *.
  2: { inversion H; subst. split_and!; try done.
       intros prop. erewrite events_since_app by trace_suffix. count_links. }
  destruct (i2c_adapter_by_node env n0) as [a0|]; simpl in *.
  2: { inversion H; subst. split_and!; try done.
       intros prop. erewrite events_since_app by trace_suffix. count_links. }
  destruct (phandles (pdev_of_node pdev) !! "i2c1") as [n1|]; simpl in *.
  2: { inversion H; subst. split_and!; try done.
       intros prop. erewrite events_since_app by trace_suffix. count_links. }
  destruct (i2c_adapter_by_node env n1) as [a1|]; simpl in *.
  2: { inversion H; subst. split_and!; try done.
       intros prop. erewrite events_since_app by trace_suffix. count_links. }
  destruct (phandles (pdev_of_node pdev) !! "spi") as [n2|]; simpl in *.
  2: { inversion H; subst. split_and!; try done.
       intros prop. erewrite events_since_app by trace_suffix. count_links. }
  destruct (spi_controller_by_node env n2) as [c|]; simpl in *; [done |].
  inversion H; subst. split_and!; try done.
  intros prop. erewrite events_since_app by trace_suffix. count_links.
Qed.

(** The retry-later result at a board whose SPI controller has not
    registered: both adapters are put back and the caller gets
    -EPROBE_DEFER. *)
Lemma lscon_probe_link_outcomes_witness :
  fst (lscon_probe lscon_pdev spi_not_ready (boot [])) = (- EPROBE_DEFER)%Z ∧
  dev_root (snd (lscon_probe lscon_pdev spi_not_ready (boot []))) = None.
Proof.
  pose proof (lscon_probe_link_outcomes lscon_pdev spi_not_ready (boot [])
                "spi" LinkNotReady eq_refl eq_refl) as (_ & H & _ & _ & _ & Hr).
  split; [by apply H | exact Hr].
Defined.

(** *** The control files *)

Example strstrip_line :
  strstrip (line "secure96") = "secure96" ∧
  strstrip (" mezzanine0  " +:+ line "") = "mezzanine0" ∧
  strstrip (line "") = "".
Proof. by vm_compute. Qed.

(** The copy that kstrdup makes ends at the first NUL of the buffer;
    strstrip returns the start of the copy unless it begins with
    whitespace. *)
Example kstrdup_line :
  kstrdup true (line "secure96") = Some (line "secure96") ∧
  kstrdup true ("secure96" +:+ String Ascii.zero (line "junk")) =
    Some "secure96" ∧
  kstrdup false (line "secure96") = None ∧
  strstrip_offset (line "secure96") = 0 ∧
  strstrip_offset ("  " +:+ line "unknown") = 2.
Proof. by vm_compute. Qed.



Lemma kfree_and_return_cases (copy : string) (count : Z) (st : bus) :
  (strstrip_offset copy = 0 →
     kfree_and_return copy count st = Returned (ssize_of_size count) st) ∧
  (strstrip_offset copy ≠ 0 → kfree_and_return copy count st = BadFree st).
Proof.
  unfold kfree_and_return.
  destruct (Nat.eqb (strstrip_offset copy) 0) eqn:E.
  - apply Nat.eqb_eq in E. by split.
  - apply Nat.eqb_neq in E. by split.
Qed.

Lemma kfree_and_return_state (copy : string) (count : Z) (st : bus) :
  (∀ ret st', kfree_and_return copy count st = Returned ret st' → st' = st) ∧
  (∀ st', kfree_and_return copy count st = BadFree st' → st' = st) ∧
  kfree_and_return copy count st ≠ NullRead.
Proof.
  unfold kfree_and_return. destruct (Nat.eqb _ 0); split_and!; congruence.
Qed.

Lemma bus_for_each_drv_none (drvs : list ls_driver) (devname : string) :
  (∀ drv, drv ∈ drvs → drv_name drv ≠ devname) →
  bus_for_each_drv drvs devname ls_inject_match = 0%Z.
Proof.
  induction drvs as [|drv drvs IH]; intros H; [done |].
  cbn [bus_for_each_drv]. unfold ls_inject_match at 1.
  destruct (String.eqb devname (drv_name drv)) eqn:E.
  - apply String.eqb_eq in E. exfalso. apply (H drv); [left | done].
  - cbn. apply IH. intros d Hd. apply H. by right.
Qed.

Lemma bus_find_device_by_name_none (ds : list bus_device) (name : string) :
  (∀ d, d ∈ ds → dev_name (lsdev d) ≠ name) →
  bus_find_device_by_name ds name = None.
Proof.
  induction ds as [|d ds IH]; intros H; [done |].
  cbn [bus_find_device_by_name].
  destruct (String.eqb (dev_name (lsdev d)) name) eqn:E.
  - apply String.eqb_eq in E. exfalso. apply (H d); [left | done].
  - rewrite IH; [done |]. intros d' Hd. apply H. by right.
Qed.

Lemma bus_for_each_dev_del_files (n : nat) (st : bus) :
  bus_files (bus_for_each_dev_del n st) = bus_files st.
Proof.
  revert st. induction n as [|n IH]; intros st; [done |].
  cbn [bus_for_each_dev_del]. rewrite IH.
  unfold lscon_del_device. destruct (bus_devices st !! 0) as [d|]; [| done].
  unfold device_del, ls_driver_remove.
  destruct (driver d) as [drv|]; [destruct (remove drv) |]; reflexivity.
Qed.

Lemma lscon_remove_clears_root (pdev : platform_device) (st : bus) (ret : Z)
    (st' : bus) :
  lscon_remove pdev st = Done (ret, st') →
  dev_root st' = None ∧ bus_files st' = bus_files st.
Proof.
  unfold lscon_remove.
  destruct (drvdata st !! pdev_id pdev); [| discriminate].
  intros E. inversion E. split; [reflexivity |].
  cbn [bus_files log set_dev_root]. apply bus_for_each_dev_del_files.
Qed.

(** C9: a write to inject or to eject reads dev_root and the driver
    data behind it before anything else.  With no connector attached
    dev_root is NULL and the read goes through the NULL pointer, whatever
    was written, however long, and whether or not there is memory for the
    copy; nothing guards it, so a write that ends otherwise was made with
    dev_root set.  This is the state a detach leaves: lscon_remove clears
    dev_root and keeps the files. *)
Theorem ls_store_reads_dev_root_first (buf : string) (count : Z)
    (kstrdup_ok : bool) (fate : add_fate) (st : bus) :
  (dev_root st = None →
     ls_inject_store buf count kstrdup_ok fate st = NullRead ∧
     ls_eject_store buf count kstrdup_ok st = NullRead) ∧
  (ls_inject_store buf count kstrdup_ok fate st ≠ NullRead →
     ∃ dev, dev_root st = Some dev) ∧
  (ls_eject_store buf count kstrdup_ok st ≠ NullRead →
     ∃ dev, dev_root st = Some dev) ∧
  (∀ pdev ret st', lscon_remove pdev st = Done (ret, st') →
     bus_files st' = bus_files st ∧
     ls_inject_store buf count kstrdup_ok fate st' = NullRead ∧
     ls_eject_store buf count kstrdup_ok st' = NullRead).
Proof.
  split_and!.
  - intros H. unfold ls_inject_store, ls_eject_store. by rewrite H.
  - unfold ls_inject_store. destruct (dev_root st) as [dev|]; [by eexists | done].
  - unfold ls_eject_store. destruct (dev_root st) as [dev|]; [by eexists | done].
  - intros pdev ret st' H.
    apply lscon_remove_clears_root in H as [Hr Hf].
    unfold ls_inject_store, ls_eject_store. by rewrite Hr.
Qed.

(** After the detach of the board the two files are still there and a
    write to either of them reads through NULL. *)
Lemma ls_store_reads_dev_root_first_witness :
  (ls_inject_store (line "secure96") 9 true fine detached = NullRead ∧
   ls_eject_store (line "secure96") 9 true detached = NullRead) ∧
  (bus_files detached = bus_files attached ∧
   ls_inject_store (line "mezzanine0") 11 true fine detached = NullRead ∧
   ls_eject_store (line "mezzanine0") 11 true detached = NullRead) ∧
  ∃ dev, dev_root attached = Some dev.
Proof.
  pose proof (ls_store_reads_dev_root_first (line "secure96") 9 true fine
                detached) as (Hd & _).
  pose proof (ls_store_reads_dev_root_first (line "mezzanine0") 11 true fine
                attached) as (_ & Hi & _ & Hr).
  split; [| split].
  - apply Hd. reflexivity.
  - apply (Hr lscon_pdev 0%Z detached). by vm_compute.
  - apply Hi. by vm_compute.
Defined.

(** While a connector is attached and there is memory for the copy, a
    write to inject of a name that, once trimmed, is the name of no
    registered driver, and a write to eject of a name that is the name of
    no device on the bus, leave the bus as it was; they return the count
    when the name was written without whitespace before it. *)
Lemma unmatched_store_attached (buf : string) (count : Z) (fate : add_fate)
    (st : bus) (dev : nat) :
  dev_root st = Some dev →
  ((∀ drv, drv ∈ bus_drivers st → drv_name drv ≠ strstrip (c_str buf)) →
     ls_inject_store buf count true fate st =
     kfree_and_return (c_str buf) count st) ∧
  ((∀ d, d ∈ bus_devices st → dev_name (lsdev d) ≠ strstrip (c_str buf)) →
     ls_eject_store buf count true st =
     kfree_and_return (c_str buf) count st).
Proof.
  intros Hr. split; intros H.
  - unfold ls_inject_store, kstrdup. rewrite Hr.
    by rewrite (bus_for_each_drv_none _ _ H).
  - unfold ls_eject_store, kstrdup. rewrite Hr.
    by rewrite (bus_find_device_by_name_none _ _ H).
Qed.

(** C5: on a name that matches nothing the code does not always return.
    After a detach the inject and eject files are still there and a write
    of such a name reads through the NULL dev_root; with a connector
    attached, a write of such a name with blanks before it hands kfree the
    address that strstrip returned, which is inside the copy and is not
    what kstrdup returned; and when kstrdup has no memory its NULL result
    is read by strstrip.  In none of these does the caller get the count
    back. *)
Theorem unmatched_store_faults (count : Z) (kstrdup_ok : bool)
    (fate : add_fate) :
  (bus_attr_inject ∈ bus_files detached ∧
   bus_attr_eject ∈ bus_files detached ∧
   strstrip (c_str (line "unknown")) = "unknown" ∧
   bus_for_each_drv (bus_drivers detached) "unknown" ls_inject_match = 0%Z ∧
   bus_find_device_by_name (bus_devices detached) "unknown" = None ∧
   ls_inject_store (line "unknown") count kstrdup_ok fate detached = NullRead ∧
   ls_eject_store (line "unknown") count kstrdup_ok detached = NullRead) ∧
  (dev_root attached = Some 7 ∧
   strstrip (c_str ("  " +:+ line "unknown")) = "unknown" ∧
   bus_for_each_drv (bus_drivers attached) "unknown" ls_inject_match = 0%Z ∧
   bus_find_device_by_name (bus_devices attached) "unknown" = None ∧
   ls_inject_store ("  " +:+ line "unknown") count true fate attached =
     BadFree attached ∧
   ls_eject_store ("  " +:+ line "unknown") count true attached =
     BadFree attached) ∧
  (ls_inject_store (line "unknown") count false fate attached = NullRead ∧
   ls_eject_store (line "unknown") count false attached = NullRead).
Proof.
  split_and!; try by vm_compute.
  - vm_compute. set_solver.
  - vm_compute. set_solver.
Qed.

(** *** Creation of a device *)

Example mezzanine_name :
  "mezzanine" +:+ pretty 0%Z = "mezzanine0" ∧
  "mezzanine" +:+ pretty 12%Z = "mezzanine12".
Proof. by vm_compute. Qed.

(** C6: a device created with a name carries that name; a device
    created without one is named mezzanine<id>, with the id that the
    pool returned to this call. *)
Theorem lscon_add_device_name (ls : ls_connector) (name : option string)
    (np : option device_node) (fate : add_fate) (st st' : bus) :
  lscon_add_device ls name np fate st = (0%Z, st') →
  ∃ d, bus_devices st' = bus_devices st ++ [d] ∧
       id (lsdev d) = fst (ida_simple_get (ls_device_ida st)) ∧
       of_node (lsdev d) = np ∧
       dev_name (lsdev d) =
         match name with
         | Some n => n
         | None => "mezzanine" +:+ pretty (fst (ida_simple_get (ls_device_ida st)))
         end.
Proof.
  unfold lscon_add_device, device_add, bus_probe_device.
  destruct (lsdev_alloc_ok fate); simpl; [| discriminate].
  destruct (ida_simple_get (ls_device_ida st)) as [i bm]; simpl.
  destruct (i <? 0)%Z eqn:Hi; [intros E; inversion E; apply Z.ltb_lt in Hi; lia |].
  destruct (device_add_ret fate =? 0)%Z eqn:Hret; simpl.
  - destruct (List.find _ _) as [drv|]; simpl.
    + destruct (ls_driver_probe _ drv =? 0)%Z; simpl; intros E; inversion E;
        simpl; by eexists.
    + intros E; inversion E; simpl; by eexists.
  - rewrite Hret; simpl. intros E; inversion E as [[E1 E2]].
    rewrite E1 in Hret. discriminate.
Qed.

Lemma lscon_add_device_name_witness :
  ∃ d, bus_devices (snd (lscon_add_device the_bundle None (Some sensors_node)
                           fine attached)) = bus_devices attached ++ [d] ∧
       id (lsdev d) = 2%Z ∧ dev_name (lsdev d) = "mezzanine2".
Proof.
  destruct (lscon_add_device_name the_bundle None (Some sensors_node) fine
              attached
              (snd (lscon_add_device the_bundle None (Some sensors_node)
                      fine attached)) eq_refl)
    as (d & Hd & Hid & _ & Hn).
  exists d. split_and!; [exact Hd | exact Hid | exact Hn].
Defined.

(** *** The id pool *)

Lemma ida_first_free_clear (bm : list bool) :
  bm !! ida_first_free bm ≠ Some true.
Proof. induction bm as [|[] bm IH]; simpl; done. Qed.

Lemma ida_first_free_below (bm : list bool) (j : nat) :
  j < ida_first_free bm → bm !! j = Some true.
Proof.
  revert j. induction bm as [|[] bm IH]; simpl; intros j Hj; try lia.
  destruct j as [|j]; simpl; [done |]. apply IH. lia.
Qed.

Lemma ida_first_free_le (bm : list bool) (i : nat) :
  bm !! i ≠ Some true → ida_first_free bm ≤ i.
Proof.
  intros H. destruct (decide (ida_first_free bm ≤ i)) as [|Hn]; [done |].
  exfalso. apply H, ida_first_free_below. lia.
Qed.

Lemma ida_mark_lookup (bm : list bool) (i j : nat) :
  ida_mark i bm !! j = Some true ↔ j = i ∨ bm !! j = Some true.
Proof.
  revert bm j. induction i as [|i IH]; intros [|b bm] [|j]; simpl;
    rewrite ?IH; intuition (try discriminate; try lia; try congruence).
Qed.

Lemma ida_remove_lookup (bm : list bool) (i : Z) (j : nat) :
  ida_simple_remove bm i !! j = Some true ↔
  j ≠ Z.to_nat i ∧ bm !! j = Some true.
Proof.
  unfold ida_simple_remove. destruct (decide (j = Z.to_nat i)) as [->|Hne].
  - split; [| intros [? _]; done].
    destruct (decide (Z.to_nat i < length bm)).
    + rewrite list_lookup_insert_eq by done. discriminate.
    + rewrite list_insert_ge by lia. intros H.
      apply lookup_lt_Some in H. lia.
  - rewrite list_lookup_insert_ne by done. intuition.
Qed.

Example ida_reuses_lowest :
  let '(a, bm1) := ida_simple_get [] in
  let '(b, bm2) := ida_simple_get bm1 in
  let '(c, bm3) := ida_simple_get bm2 in
  let '(d, bm4) := ida_simple_get (ida_simple_remove bm3 b) in
  [a; b; c; d] = [0; 1; 2; 1]%Z.
Proof. reflexivity. Qed.

(** *** What a creation and a destruction change *)

Lemma lscon_add_device_spec (ls : ls_connector) (name : option string)
    (np : option device_node) (fate : add_fate) (st : bus) :
  let r := lscon_add_device ls name np fate st in
  let i := ida_first_free (ls_device_ida st) in
  (fst r ≠ 0%Z ∧ bus_devices (snd r) = bus_devices st ∧
   (ls_device_ida (snd r) = ls_device_ida st ∨
    ls_device_ida (snd r) = ida_mark i (ls_device_ida st)))
  ∨ (fst r = 0%Z ∧ (Z.of_nat i ≤ INT_MAX)%Z ∧
     ls_device_ida (snd r) = ida_mark i (ls_device_ida st) ∧
     ∃ d, bus_devices (snd r) = bus_devices st ++ [d] ∧
          id (lsdev d) = Z.of_nat i).
Proof.
  unfold lscon_add_device, device_add, bus_probe_device, ida_simple_get.
  destruct (lsdev_alloc_ok fate); simpl;
    [| left; split_and!; [by vm_compute | done | by left]].
  destruct (INT_MAX <? _)%Z eqn:Hmax; simpl;
    [left; split_and!; [by vm_compute | done | by left] |].
  apply Z.ltb_ge in Hmax.
  destruct (Z.of_nat _ <? 0)%Z eqn:Hneg; [apply Z.ltb_lt in Hneg; lia |].
  destruct (device_add_ret fate =? 0)%Z eqn:Hret; simpl.
  - right. destruct (List.find _ _) as [drv|]; simpl.
    + destruct (ls_driver_probe _ drv =? 0)%Z; simpl; split_and!; try done;
        by eexists.
    + split_and!; try done; by eexists.
  - rewrite Hret; simpl. left. split_and!; [| done | by right].
    by apply Z.eqb_neq.
Qed.

Lemma lscon_add_device_fine (ls : ls_connector) (name : option string)
    (np : option device_node) (st : bus) :
  (Z.of_nat (ida_first_free (ls_device_ida st)) ≤ INT_MAX)%Z →
  fst (lscon_add_device ls name np fine st) = 0%Z.
Proof.
  intros Hmax.
  unfold lscon_add_device, device_add, bus_probe_device, ida_simple_get.
  simpl. apply Z.ltb_ge in Hmax. rewrite Hmax; simpl.
  destruct (Z.of_nat _ <? 0)%Z eqn:Hneg; [apply Z.ltb_lt in Hneg; lia |].
  destruct (List.find _ _) as [drv|]; simpl; [| done].
  by destruct (ls_driver_probe _ drv =? 0)%Z.
Qed.

Lemma lscon_del_device_spec (i : nat) (d : bus_device) (st : bus) :
  bus_devices st !! i = Some d →
  bus_devices (lscon_del_device i st) = delete i (bus_devices st) ∧
  ls_device_ida (lscon_del_device i st) =
    ida_simple_remove (ls_device_ida st) (id (lsdev d)) ∧
  trace (lscon_del_device i st) = trace st ++ del_events d ∧
  bus_drivers (lscon_del_device i st) = bus_drivers st ∧
  dev_root (lscon_del_device i st) = dev_root st ∧
  drvdata (lscon_del_device i st) = drvdata st ∧
  bus_files (lscon_del_device i st) = bus_files st.
Proof.
  intros H. unfold lscon_del_device, device_del, del_events, ls_driver_remove.
  rewrite H. destruct (driver d) as [drv|]; simpl.
  - destruct (remove drv); simpl; rewrite <- ?app_assoc; by split_and!.
  - rewrite <- ?app_assoc; by split_and!.
Qed.

Lemma lscon_del_device_stale (i : nat) (st : bus) :
  bus_devices st !! i = None → lscon_del_device i st = st.
Proof. intros H. unfold lscon_del_device. by rewrite H. Qed.

(** *** Uniqueness of the ids *)

Lemma pool_ok_boot (drvs : list ls_driver) : pool_ok (boot drvs).
Proof.
  split; [constructor |]. intros i Hi. by apply elem_of_nil in Hi.
Qed.

Lemma pool_ok_add (ls : ls_connector) (name : option string)
    (np : option device_node) (fate : add_fate) (st : bus) :
  pool_ok st → pool_ok (snd (lscon_add_device ls name np fate st)).
Proof.
  intros [Hnd Hin]. unfold pool_ok, live_ids in *.
  destruct (lscon_add_device_spec ls name np fate st)
    as [(_ & Hd & Hbm) | (_ & Hmax & Hbm & d & Hd & Hid)]; rewrite Hd.
  - split; [done |]. intros i Hi. destruct (Hin i Hi) as [Hr Hb].
    split; [done |]. destruct Hbm as [-> | ->]; [done |].
    apply ida_mark_lookup. by right.
  - rewrite fmap_app; simpl. split.
    + apply NoDup_app. split_and!; [done | | by apply NoDup_singleton].
      intros i Hi Hi'. apply list_elem_of_singleton in Hi'.
      destruct (Hin i Hi) as [_ Hb]. subst i. rewrite Hid in Hb.
      rewrite Nat2Z.id in Hb. by apply ida_first_free_clear in Hb.
    + intros i Hi. rewrite Hbm. apply elem_of_app in Hi as [Hi | Hi].
      * destruct (Hin i Hi) as [Hr Hb]. split; [done |].
        apply ida_mark_lookup. by right.
      * apply list_elem_of_singleton in Hi. subst i. rewrite Hid.
        split; [lia |]. apply ida_mark_lookup. left. by rewrite Nat2Z.id.
Qed.

Lemma live_ids_del (i : nat) (d : bus_device) (st : bus) :
  bus_devices st !! i = Some d → NoDup (live_ids st) →
  NoDup (live_ids (lscon_del_device i st)) ∧
  (id (lsdev d) ∉ live_ids (lscon_del_device i st)) ∧
  ∀ j, j ∈ live_ids (lscon_del_device i st) → j ∈ live_ids st.
Proof.
  intros H Hnd. unfold live_ids in *.
  destruct (lscon_del_device_spec i d st H) as (-> & _).
  rewrite delete_take_drop, fmap_app.
  rewrite <- (take_drop_middle _ _ _ H), fmap_app, fmap_cons in Hnd.
  apply NoDup_app in Hnd as (H1 & H2 & H3).
  apply NoDup_cons in H3 as [H3 H4].
  split_and!.
  - apply NoDup_app. split_and!; [done | | done].
    intros x Hx Hx'. apply (H2 x Hx). by right.
  - intros Hin. apply elem_of_app in Hin as [Hin | Hin]; [| done].
    apply (H2 _ Hin). by left.
  - intros j Hj. rewrite <- (take_drop_middle _ _ _ H), fmap_app, fmap_cons.
    apply elem_of_app in Hj as [Hj | Hj]; apply elem_of_app;
      [by left | right; by right].
Qed.

Lemma pool_ok_del (i : nat) (st : bus) :
  pool_ok st → pool_ok (lscon_del_device i st).
Proof.
  intros [Hnd Hin]. destruct (bus_devices st !! i) as [d|] eqn:H.
  2: { by rewrite lscon_del_device_stale. }
  destruct (live_ids_del i d st H Hnd) as (Hnd' & Hout & Hsub).
  split; [done |]. intros j Hj. destruct (Hin j (Hsub j Hj)) as [Hr Hb].
  split; [done |].
  destruct (lscon_del_device_spec i d st H) as (_ & -> & _).
  apply ida_remove_lookup. split; [| done].
  intros E. apply Hout.
  assert (j = id (lsdev d)) as <-; [| done].
  assert (d ∈ bus_devices st) as Hd by (by eapply list_elem_of_lookup_2).
  destruct (Hin (id (lsdev d))) as [Hrd _].
  { unfold live_ids. apply list_elem_of_fmap. by exists d. }
  lia.
Qed.

Lemma pool_ok_run (ops : list op) (st : bus) :
  pool_ok st → pool_ok (run ops st).
Proof.
  revert st. induction ops as [|o ops IH]; intros st H; [done |].
  simpl. apply IH. destruct o; simpl; [by apply pool_ok_add | by apply pool_ok_del].
Qed.

(** C3: after any sequence of creations and destructions the ids of the
    devices on the bus are distinct; and the id of a device that is
    destroyed goes back to the pool: it is no longer taken, the next
    creation succeeds with the lowest free id, which is at most the id
    just freed and is that very id when every lower id is taken. *)
Theorem device_ids_unique_and_reused (drvs : list ls_driver) (ops : list op) :
  NoDup (live_ids (run ops (boot drvs))) ∧
  ∀ i d, bus_devices (run ops (boot drvs)) !! i = Some d →
    let st1 := lscon_del_device i (run ops (boot drvs)) in
    (id (lsdev d) ∉ live_ids st1) ∧
    ¬ ida_allocated (ls_device_ida st1) (id (lsdev d)) ∧
    ∀ ls name np, ∃ st2 d',
      lscon_add_device ls name np fine st1 = (0%Z, st2) ∧
      bus_devices st2 = bus_devices st1 ++ [d'] ∧
      NoDup (live_ids st2) ∧
      (0 ≤ id (lsdev d') ≤ id (lsdev d))%Z ∧
      ((∀ j, (0 ≤ j < id (lsdev d))%Z → ida_allocated (ls_device_ida st1) j) →
       id (lsdev d') = id (lsdev d)).
Proof.
  pose proof (pool_ok_run ops _ (pool_ok_boot drvs)) as Hok.
  set (st := run ops (boot drvs)) in *.
  split; [apply Hok |]. intros i d H st1.
  destruct Hok as [Hnd Hin].
  destruct (live_ids_del i d st H Hnd) as (Hnd' & Hout & Hsub).
  destruct (lscon_del_device_spec i d st H) as (Hd1 & Hbm1 & _).
  destruct (Hin (id (lsdev d))) as [Hr Hb].
  { unfold live_ids. apply list_elem_of_fmap. exists d.
    split; [done |]. by eapply list_elem_of_lookup_2. }
  assert (Hfree : ls_device_ida st1 !! Z.to_nat (id (lsdev d)) ≠ Some true).
  { subst st1. rewrite Hbm1. intros E. apply ida_remove_lookup in E. tauto. }
  pose proof (ida_first_free_le _ _ Hfree) as Hle.
  split_and!; [done | by intros [_ E] |].
  intros ls name np.
  pose proof (pool_ok_add ls name np fine st1 (pool_ok_del i st (conj Hnd Hin)))
    as [Hnd2 _].
  pose proof (lscon_add_device_fine ls name np st1) as Hret.
  destruct (lscon_add_device_spec ls name np fine st1)
    as [(Hne & _) | (_ & Hmax & _ & d' & Hd' & Hid)].
  { exfalso. apply Hne, Hret. lia. }
  exists (snd (lscon_add_device ls name np fine st1)), d'.
  split_and!.
  - apply injective_projections; simpl; [apply Hret; lia | done].
  - done.
  - done.
  - lia.
  - lia.
  - intros Hall. rewrite Hid.
    destruct (decide (ida_first_free (ls_device_ida st1) <
                      Z.to_nat (id (lsdev d)))) as [Hlt|]; [| lia].
    exfalso. apply (ida_first_free_clear (ls_device_ida st1)).
    destruct (Hall (Z.of_nat (ida_first_free (ls_device_ida st1)))) as [_ E];
      [lia |]. by rewrite Nat2Z.id in E.
Qed.

(** Three devices are created, the one with id 1 is destroyed, and the
    next creation is given id 1 again. *)
Lemma device_ids_unique_and_reused_witness :
  let ops := [Create the_bundle None None fine; Create the_bundle None None fine;
              Create the_bundle None None fine] in
  live_ids (run ops (boot [])) = [0; 1; 2]%Z ∧
  ∃ st2 d',
    lscon_add_device the_bundle None None fine
      (lscon_del_device 1 (run ops (boot []))) = (0%Z, st2) ∧
    live_ids st2 = [0; 2]%Z ++ [id (lsdev d')] ∧
    id (lsdev d') = 1%Z.
Proof.
  intros ops. split; [reflexivity |].
  destruct (device_ids_unique_and_reused [] ops) as [_ H].
  destruct (H 1 {| lsdev := {| id := 1; dev_name := "mezzanine1";
                               of_node := None; parent := 7; i2c0 := Some 0;
                               i2c1 := Some 1; spi := Some 0 |};
                   driver := None |} eq_refl)
    as (_ & _ & H2).
  destruct (H2 the_bundle None None) as (st2 & d' & Hadd & Hd & _ & _ & Heq).
  exists st2, d'. split_and!.
  - exact Hadd.
  - unfold live_ids. rewrite Hd, fmap_app. reflexivity.
  - apply Heq. intros j Hj. assert (j = 0%Z) as -> by (simpl in Hj; lia).
    split; [lia | reflexivity].
Defined.

(** *** Detach *)

Example populated_devices :
  (λ d, (id (lsdev d), dev_name (lsdev d), drv_name <$> driver d))
    <$> bus_devices populated =
  [(0%Z, "mezzanine0", Some "secure96"); (1%Z, "mezzanine1", None);
   (2%Z, "secure96", Some "secure96")].
Proof. by vm_compute. Qed.

Lemma bus_for_each_dev_del_spec (ds : list bus_device) (st : bus) :
  bus_devices st = ds →
  bus_devices (bus_for_each_dev_del (length ds) st) = [] ∧
  trace (bus_for_each_dev_del (length ds) st) =
    trace st ++ flat_map del_events ds ∧
  drvdata (bus_for_each_dev_del (length ds) st) = drvdata st.
Proof.
  revert st. induction ds as [|d ds IH]; intros st H; simpl.
  - by rewrite app_nil_r.
  - assert (H0 : bus_devices st !! 0 = Some d) by (by rewrite H).
    destruct (lscon_del_device_spec 0 d st H0) as (Hd & _ & Ht & _ & _ & Hv & _).
    rewrite H in Hd; simpl in Hd.
    destruct (IH _ Hd) as (IH1 & IH2 & IH3).
    rewrite IH1, IH2, IH3, Ht, Hv, <- app_assoc. done.
Qed.

Lemma remove_calls_app (i : Z) (tr1 tr2 : list event) :
  remove_calls i (tr1 ++ tr2) = remove_calls i tr1 + remove_calls i tr2.
Proof.
  induction tr1 as [|ev tr1 IH]; [done |].
  destruct ev; simpl; rewrite ?IH; lia.
Qed.

Lemma remove_calls_del_events (i : Z) (d : bus_device) :
  remove_calls i (del_events d) =
  if (id (lsdev d) =? i)%Z then remove_due d else 0.
Proof.
  unfold del_events, remove_due. destruct (driver d) as [drv|]; simpl.
  - destruct (remove drv); simpl; destruct (_ =? _)%Z; done.
  - by destruct (_ =? _)%Z.
Qed.

Lemma remove_calls_others (i : Z) (ds : list bus_device) :
  i ∉ (λ d, id (lsdev d)) <$> ds →
  remove_calls i (flat_map del_events ds) = 0.
Proof.
  induction ds as [|d ds IH]; intros H; [done |].
  simpl. rewrite remove_calls_app, remove_calls_del_events.
  rewrite fmap_cons in H. apply not_elem_of_cons in H as [Hne Hrest].
  rewrite IH by done. destruct (_ =? _)%Z eqn:E; [| done].
  apply Z.eqb_eq in E. congruence.
Qed.

Lemma remove_calls_once (ds : list bus_device) (d : bus_device) :
  NoDup ((λ d, id (lsdev d)) <$> ds) → d ∈ ds →
  remove_calls (id (lsdev d)) (flat_map del_events ds) = remove_due d.
Proof.
  induction ds as [|a ds IH]; intros Hnd Hin; [by apply elem_of_nil in Hin |].
  rewrite fmap_cons in Hnd. apply NoDup_cons in Hnd as [Ha Hnd].
  simpl. rewrite remove_calls_app, remove_calls_del_events.
  apply elem_of_cons in Hin as [-> | Hin].
  - rewrite Z.eqb_refl, remove_calls_others by done. lia.
  - rewrite IH by done. destruct (_ =? _)%Z eqn:E; [| done].
    apply Z.eqb_eq in E. exfalso. apply Ha. rewrite E.
    apply list_elem_of_fmap. by exists d.
Qed.

(** C7, as stated, fails: detach clears dev_root after the devices are
    destroyed and before the SPI controller and the adapters are put,
    not after.  The bus has the two mezzanines of the device tree and an
    injected device. *)
Lemma lscon_remove_clears_root_before_put :
  events_since populated unplugged =
    [EvDrvRemove "secure96" 0; EvDeviceDel 0; EvIdaRemove 0;
     EvDeviceDel 1; EvIdaRemove 1;
     EvDrvRemove "secure96" 2; EvDeviceDel 2; EvIdaRemove 2;
     EvClearRoot; EvSpiPut (Some 0); EvI2cPut (Some 1); EvI2cPut (Some 0)] ∧
  ¬ ∃ pre, events_since populated unplugged =
           pre ++ [EvSpiPut (Some 0); EvI2cPut (Some 1); EvI2cPut (Some 0);
                   EvClearRoot].
Proof.
  assert (E : events_since populated unplugged =
    [EvDrvRemove "secure96" 0; EvDeviceDel 0; EvIdaRemove 0;
     EvDeviceDel 1; EvIdaRemove 1;
     EvDrvRemove "secure96" 2; EvDeviceDel 2; EvIdaRemove 2;
     EvClearRoot; EvSpiPut (Some 0); EvI2cPut (Some 1); EvI2cPut (Some 0)])
    by (by vm_compute).
  split; [exact E |]. intros [pre H]. rewrite E in H.
  apply (f_equal (@rev event)) in H. rewrite rev_app_distr in H.
  simpl in H. discriminate H.
Qed.

(** C7, amended: detach first destroys every device on the bus, calling
    the remove of each bound driver that has one exactly once, then
    clears dev_root, then puts the SPI controller, then the second I2C
    adapter, then the first. *)
Theorem lscon_remove_order (pdev : platform_device) (st : bus)
    (ls : ls_connector) :
  drvdata st !! pdev_id pdev = Some ls →
  NoDup (live_ids st) →
  ∃ st', lscon_remove pdev st = Done (0%Z, st') ∧
    bus_devices st' = [] ∧ dev_root st' = None ∧
    events_since st st' =
      flat_map del_events (bus_devices st) ++
      [EvClearRoot; EvSpiPut (lsc_spi ls); EvI2cPut (lsc_i2c1 ls);
       EvI2cPut (lsc_i2c0 ls)] ∧
    ∀ d, d ∈ bus_devices st →
         remove_calls (id (lsdev d)) (events_since st st') = remove_due d.
Proof.
  intros Hls Hnd. unfold lscon_remove. rewrite Hls.
  destruct (bus_for_each_dev_del_spec (bus_devices st) st eq_refl)
    as (Hd & Ht & _).
  eexists. split; [reflexivity |]. simpl.
  assert (Hev : events_since st
            (log (EvI2cPut (lsc_i2c0 ls))
               (log (EvI2cPut (lsc_i2c1 ls))
                  (log (EvSpiPut (lsc_spi ls))
                     (log EvClearRoot
                        (set_dev_root None
                           (bus_for_each_dev_del (length (bus_devices st)) st))))))
          = flat_map del_events (bus_devices st) ++
            [EvClearRoot; EvSpiPut (lsc_spi ls); EvI2cPut (lsc_i2c1 ls);
             EvI2cPut (lsc_i2c0 ls)]).
  { apply events_since_app. simpl. rewrite Ht, <- !app_assoc. done. }
  split_and!; [done | done | done |].
  intros d Hin. rewrite Hev, remove_calls_app; simpl.
  rewrite (remove_calls_once _ _ Hnd Hin). lia.
Qed.

Lemma lscon_remove_order_witness :
  ∃ st', lscon_remove lscon_pdev populated = Done (0%Z, st') ∧
    bus_devices st' = [] ∧ dev_root st' = None ∧
    remove_calls 0 (events_since populated st') = 1 ∧
    remove_calls 1 (events_since populated st') = 0 ∧
    remove_calls 2 (events_since populated st') = 1.
Proof.
  destruct (lscon_remove_order lscon_pdev populated the_bundle) as
    (st' & Hr & Hd & Hroot & _ & Hcalls).
  - reflexivity.
  - apply (bool_decide_unpack _). by vm_compute.
  - exists st'. split_and!; [exact Hr | exact Hd | exact Hroot | | |].
    + refine (Hcalls {| lsdev := {| id := 0; dev_name := "mezzanine0";
                            of_node := Some secure96_node; parent := 7;
                            i2c0 := Some 0; i2c1 := Some 1; spi := Some 0 |};
                        driver := Some secure96_driver |} _).
      vm_compute. set_solver.
    + refine (Hcalls {| lsdev := {| id := 1; dev_name := "mezzanine1";
                            of_node := Some sensors_node; parent := 7;
                            i2c0 := Some 0; i2c1 := Some 1; spi := Some 0 |};
                        driver := None |} _).
      vm_compute. set_solver.
    + refine (Hcalls {| lsdev := {| id := 2; dev_name := "secure96";
                            of_node := None; parent := 7;
                            i2c0 := Some 0; i2c1 := Some 1; spi := Some 0 |};
                        driver := Some secure96_driver |} _).
      vm_compute. set_solver.
Defined.

(** *** Enumeration of the children *)

Import LsconDevices.

Lemma add_children_spec (ls : ls_connector) (env : platform_env)
    (nodes : list device_node) (st : bus) :
  length (child_results ls env nodes st) =
    length (List.filter available nodes) ∧
  length (bus_devices (add_children ls env nodes st)) =
    length (bus_devices st) + successes (child_results ls env nodes st).
Proof.
  revert st. induction nodes as [|child rest IH]; intros st; simpl.
  - unfold successes; simpl. lia.
  - destruct (available child); [| apply IH].
    pose proof (lscon_add_device_spec ls None (Some child)
                  (child_fate env child) st) as Hadd.
    destruct (lscon_add_device ls None (Some child) (child_fate env child) st)
      as [ret st1]; simpl in Hadd.
    destruct (IH st1) as [IH1 IH2]. simpl. rewrite IH1, IH2.
    split; [done |]. unfold successes; simpl.
    destruct Hadd as [(Hne & Hd & _) | (-> & _ & _ & d & Hd & _)]; rewrite Hd.
    + apply Z.eqb_neq in Hne. rewrite Hne. done.
    + simpl. rewrite length_app; simpl. lia.
Qed.

(** C8, as stated, fails.  The board has three children, one of them
    disabled, and kzalloc fails for the first: attach returns 0 as it
    does when every creation succeeds, so the value the caller gets does
    not tell the two runs apart; the failed creation leaves nothing in
    the log; and the loop skips the disabled child, for which no device
    is created. *)
Lemma lscon_probe_drops_child_results :
  ∃ st0 st0',
    lscon_probe lscon_pdev secure96_child_fails (boot [secure96_driver]) =
      (0%Z, add_children the_bundle secure96_child_fails
              (children lscon_node) st0) ∧
    lscon_probe lscon_pdev ready (boot [secure96_driver]) =
      (0%Z, add_children the_bundle ready (children lscon_node) st0') ∧
    child_results the_bundle secure96_child_fails (children lscon_node) st0 =
      [(- ENOMEM)%Z; 0%Z] ∧
    child_results the_bundle ready (children lscon_node) st0' = [0%Z; 0%Z] ∧
    (¬ ∃ report : Z → list Z,
         report (fst (lscon_probe lscon_pdev secure96_child_fails
                        (boot [secure96_driver]))) = [(- ENOMEM)%Z; 0%Z] ∧
         report (fst (lscon_probe lscon_pdev ready (boot [secure96_driver]))) =
           [0%Z; 0%Z]) ∧
    trace (snd (lscon_probe lscon_pdev secure96_child_fails
                  (boot [secure96_driver]))) =
      [EvParsePhandle "i2c0"; EvFindProvider "i2c0"; EvI2cGet 0;
       EvParsePhandle "i2c1"; EvFindProvider "i2c1"; EvI2cGet 1;
       EvParsePhandle "spi"; EvFindProvider "spi"; EvSpiGet 0; EvSetRoot 7;
       EvIdaGet 0; EvDeviceAdd 0 "mezzanine0"] ∧
    length (children lscon_node) = 3 ∧
    length (bus_devices (snd (lscon_probe lscon_pdev ready
                                (boot [secure96_driver])))) = 2.
Proof.
  eexists _, _.
  split; [cbv -[add_children]; reflexivity |].
  split; [cbv -[add_children]; reflexivity |].
  split_and!; try (vm_compute; reflexivity).
  intros (report & H1 & H2).
  change (fst (lscon_probe lscon_pdev secure96_child_fails
                 (boot [secure96_driver]))) with 0%Z in H1.
  change (fst (lscon_probe lscon_pdev ready (boot [secure96_driver])))
    with 0%Z in H2.
  rewrite H1 in H2. discriminate H2.
Qed.

(** What one creation does, case by case: without memory nothing
    changes; with the pool exhausted nothing changes; otherwise the
    lowest free id is taken, and the device is on the bus exactly when
    device_add returned 0. *)
Lemma lscon_add_device_outcome (ls : ls_connector) (name : option string)
    (np : option device_node) (fate : add_fate) (st : bus) :
  let r := lscon_add_device ls name np fate st in
  let i := ida_first_free (ls_device_ida st) in
  bus_drivers (snd r) = bus_drivers st ∧
  if negb (lsdev_alloc_ok fate) then
    fst r = (- ENOMEM)%Z ∧ bus_devices (snd r) = bus_devices st ∧
    ls_device_ida (snd r) = ls_device_ida st
  else if (INT_MAX <? Z.of_nat i)%Z then
    fst r = (- ENOSPC)%Z ∧ bus_devices (snd r) = bus_devices st ∧
    ls_device_ida (snd r) = ls_device_ida st
  else
    ls_device_ida (snd r) = ida_mark i (ls_device_ida st) ∧
    if (device_add_ret fate =? 0)%Z then
      fst r = 0%Z ∧
      bus_devices (snd r) =
        bus_devices st ++
        [{| lsdev := new_lsdev ls name np st;
            driver := bound_driver (new_lsdev ls name np st)
                        (bus_drivers st) |}]
    else
      fst r = device_add_ret fate ∧ bus_devices (snd r) = bus_devices st.
Proof.
  unfold lscon_add_device, device_add, bus_probe_device, ida_simple_get,
    bound_driver, new_lsdev.
  destruct (lsdev_alloc_ok fate); simpl; [| done].
  destruct (INT_MAX <? _)%Z eqn:Hmax; simpl; [done |].
  apply Z.ltb_ge in Hmax.
  destruct (Z.of_nat _ <? 0)%Z eqn:Hneg; [apply Z.ltb_lt in Hneg; lia |].
  destruct (device_add_ret fate =? 0)%Z eqn:Hret; simpl.
  - destruct (List.find _ _) as [drv|]; simpl; [| done].
    by destruct (ls_driver_probe _ drv =? 0)%Z.
  - by rewrite Hret.
Qed.

(** The loop over the children leaves on the bus the devices of
    [expected_mezzanines], after those that were there. *)
Lemma add_children_expected (ls : ls_connector) (env : platform_env)
    (nodes : list device_node) (st : bus) :
  bus_devices (add_children ls env nodes st) =
    bus_devices st ++
    expected_mezzanines ls env (bus_drivers st) nodes (ls_device_ida st).
Proof.
  revert st. induction nodes as [|child rest IH]; intros st.
  - simpl. by rewrite app_nil_r.
  - cbn [add_children expected_mezzanines].
    destruct (available child); simpl; [| apply IH].
    pose proof (lscon_add_device_outcome ls None (Some child)
                  (child_fate env child) st) as Hadd.
    destruct (lscon_add_device ls None (Some child) (child_fate env child) st)
      as [ret st1]. cbn [fst snd] in Hadd. destruct Hadd as [Hdrv Hadd].
    rewrite IH, Hdrv.
    destruct (lsdev_alloc_ok (child_fate env child)); simpl in *.
    2: { destruct Hadd as (_ & -> & ->). done. }
    destruct (INT_MAX <? _)%Z.
    { destruct Hadd as (_ & -> & ->). done. }
    destruct Hadd as [-> Hadd].
    destruct (device_add_ret (child_fate env child) =? 0)%Z.
    + destruct Hadd as [_ ->]. by rewrite <- app_assoc.
    + by destruct Hadd as [_ ->].
Qed.

(** The devices of [expected_mezzanines] are those of the children whose
    creation returned 0, one each and in the order of the loop. *)
Lemma expected_mezzanines_nodes (ls : ls_connector) (env : platform_env)
    (nodes : list device_node) (st : bus) :
  (λ d, of_node (lsdev d)) <$>
    expected_mezzanines ls env (bus_drivers st) nodes (ls_device_ida st) =
  Some <$> created_children ls env nodes st.
Proof.
  unfold created_children.
  revert st. induction nodes as [|child rest IH]; intros st; [done |].
  cbn [expected_mezzanines child_results List.filter].
  destruct (available child); simpl; [| apply IH].
  pose proof (lscon_add_device_outcome ls None (Some child)
                (child_fate env child) st) as Hadd.
  destruct (lscon_add_device ls None (Some child) (child_fate env child) st)
    as [ret st1]. cbn [fst snd] in Hadd. destruct Hadd as [Hdrv Hadd].
  specialize (IH st1). rewrite Hdrv in IH. cbn [List.combine List.filter snd].
  destruct (lsdev_alloc_ok (child_fate env child)); simpl in *.
  2: { destruct Hadd as (-> & _ & Hbm). rewrite Hbm in IH.
       by change (- ENOMEM =? 0)%Z with false. }
  destruct (INT_MAX <? _)%Z.
  { destruct Hadd as (-> & _ & Hbm). rewrite Hbm in IH.
    by change (- ENOSPC =? 0)%Z with false. }
  destruct Hadd as [Hbm Hadd]. rewrite Hbm in IH.
  destruct (device_add_ret (child_fate env child) =? 0)%Z eqn:Hret.
  - destruct Hadd as [-> _]. simpl. f_equal. exact IH.
  - destruct Hadd as [-> _]. by rewrite Hret.
Qed.

(** Each of them is made from an available child, is named after its own
    id and carries the busses of the connector. *)
Lemma expected_mezzanines_made (ls : ls_connector) (env : platform_env)
    (drvs : list ls_driver) (all nodes : list device_node) (bm : list bool) :
  (∀ c, c ∈ nodes → c ∈ all) →
  Forall (mezzanine_of ls all) (expected_mezzanines ls env drvs nodes bm).
Proof.
  revert bm. induction nodes as [|child rest IH]; intros bm Hall;
    [constructor |].
  assert (Hrest : ∀ c, c ∈ rest → c ∈ all)
    by (intros c Hc; apply Hall; by right).
  cbn [expected_mezzanines].
  destruct (available child) eqn:Hav; simpl; [| by apply IH].
  destruct (lsdev_alloc_ok (child_fate env child)); simpl; [| by apply IH].
  destruct (INT_MAX <? _)%Z; [by apply IH |].
  destruct (device_add_ret (child_fate env child) =? 0)%Z; [| by apply IH].
  constructor; [| by apply IH].
  unfold mezzanine_of. simpl. split_and!; try done.
  exists child. split_and!; [apply Hall; by left | done | done].
Qed.

(** C8, amended: once the three links are resolved and the sysfs files
    are created, attach calls lscon_add_device once for every available
    direct child of the connector node, in order; a failed creation does
    not stop the loop or fail the attach, which returns 0 whatever the
    creations return; the devices that attach adds to the bus are those
    of the children whose creation returned 0, one for each and in the
    order of the children, each made from its child node, named
    mezzanine<id> after the lowest id free at its turn and carrying the
    busses of the connector; the values of the creations go nowhere. *)
Theorem lscon_probe_children (pdev : platform_device) (env : platform_env)
    (st : bus) :
  kzalloc_ok env = true →
  first_unresolved pdev env = None →
  spi_controller_get_ok env = true →
  (∀ a, bus_create_file_ret env a = 0%Z) →
  ∃ a0 a1 c st0 news,
    lscon_probe pdev env st =
      (0%Z, add_children (bundle pdev a0 a1 c) env
              (children (pdev_of_node pdev)) st0) ∧
    bus_devices st0 = bus_devices st ∧
    length (child_results (bundle pdev a0 a1 c) env
              (children (pdev_of_node pdev)) st0) =
      length (List.filter available (children (pdev_of_node pdev))) ∧
    length (bus_devices (snd (lscon_probe pdev env st))) =
      length (bus_devices st) +
      successes (child_results (bundle pdev a0 a1 c) env
                   (children (pdev_of_node pdev)) st0) ∧
    bus_devices (snd (lscon_probe pdev env st)) = bus_devices st ++ news ∧
    news = expected_mezzanines (bundle pdev a0 a1 c) env (bus_drivers st)
             (children (pdev_of_node pdev)) (ls_device_ida st) ∧
    (λ d, of_node (lsdev d)) <$> news =
      Some <$> created_children (bundle pdev a0 a1 c) env
                 (children (pdev_of_node pdev)) st0 ∧
    Forall (mezzanine_of (bundle pdev a0 a1 c) (children (pdev_of_node pdev)))
      news.
Proof.
  unfold first_unresolved, link_status_of, links, lscon_probe, of_parse_phandle.
  simpl. intros -> H -> Hfiles. simpl.
  destruct (phandles (pdev_of_node pdev) !! "i2c0") as [n0|]; simpl in *;
    [| discriminate].
  destruct (i2c_adapter_by_node env n0) as [a0|]; simpl in *; [| discriminate].
  destruct (phandles (pdev_of_node pdev) !! "i2c1") as [n1|]; simpl in *;
    [| discriminate].
  destruct (i2c_adapter_by_node env n1) as [a1|]; simpl in *; [| discriminate].
  destruct (phandles (pdev_of_node pdev) !! "spi") as [n2|]; simpl in *;
    [| discriminate].
  destruct (spi_controller_by_node env n2) as [c|]; simpl in *; [| discriminate].
  unfold bus_create_file. rewrite !Hfiles. simpl.
  eexists a0, a1, c, _, _. split; [reflexivity |].
  split; [by cbn [bus_devices set_bus_files log set_dev_root set_drvdata] |].
  cbn [snd].
  match goal with
  | |- context [add_children ?ls env ?nodes ?s0] =>
      destruct (add_children_spec ls env nodes s0) as [H1 H2];
      pose proof (add_children_expected ls env nodes s0) as H3;
      pose proof (expected_mezzanines_nodes ls env nodes s0) as H4
  end.
  cbn [bus_devices bus_drivers ls_device_ida set_bus_files log set_dev_root
       set_drvdata] in H3, H4.
  split; [exact H1 |]. split; [rewrite H2; reflexivity |].
  split; [exact H3 |]. split; [reflexivity |]. split; [exact H4 |].
  by apply expected_mezzanines_made.
Qed.

(** On the board with the failing first child: attach returns 0 and the
    one device on the bus is that of the second enabled child, with the
    id the first did not take. *)
Lemma lscon_probe_children_witness :
  fst (lscon_probe lscon_pdev secure96_child_fails (boot [secure96_driver])) =
    0%Z ∧
  ∃ d, bus_devices (snd (lscon_probe lscon_pdev secure96_child_fails
                           (boot [secure96_driver]))) = [d] ∧
       of_node (lsdev d) = Some sensors_node ∧
       dev_name (lsdev d) = "mezzanine0" ∧ id (lsdev d) = 0%Z.
Proof.
  destruct (lscon_probe_children lscon_pdev secure96_child_fails
              (boot [secure96_driver]) eq_refl eq_refl eq_refl
              (λ _, eq_refl))
    as (a0 & a1 & c & st0 & news & Hp & _ & _ & _ & Hd & Hn & _).
  split; [by rewrite Hp |].
  rewrite Hd, Hn. eexists. split; [reflexivity |]. by vm_compute.
Defined.

(** ** Properties beyond the claims *)

(** *** The supported attribute *)

Import Supported.

Lemma length_list_ascii (s : string) :
  length (String.list_ascii_of_string s) = String.length s.
Proof. induction s as [|c s IH]; simpl; [done | by rewrite IH]. Qed.

Lemma ls_supported_print_fits (drv : ls_driver) (sbuf : ls_supported_buf) :
  length (buf sbuf) = PAGE_SIZE →
  count sbuf + (String.length (drv_name drv) + 1) + 1 ≤ PAGE_SIZE →
  ∃ pg, ls_supported_print drv sbuf =
          Some {| buf := pg;
                  count := count sbuf + (String.length (drv_name drv) + 1) |} ∧
        length pg = PAGE_SIZE ∧
        take (count sbuf + (String.length (drv_name drv) + 1)) pg =
          take (count sbuf) (buf sbuf) ++
          String.list_ascii_of_string (drv_name drv) ++ [LF] ∧
        pg !! (count sbuf + (String.length (drv_name drv) + 1)) = Some NUL.
Proof.
  intros Hlen Hfit. unfold ls_supported_print, snprintf_line, store.
  cbv zeta.
  set (out := String.list_ascii_of_string (drv_name drv) ++ [LF]).
  assert (Hout : length out = String.length (drv_name drv) + 1).
  { unfold out. rewrite length_app, length_list_ascii. done. }
  rewrite take_ge by lia.
  rewrite length_app, Hout, Hlen. simpl length.
  destruct (Nat.leb_spec (count sbuf + (String.length (drv_name drv) + 1 + 1))
              PAGE_SIZE) as [_ | Hn]; [| lia].
  eexists. split; [reflexivity |].
  assert (Htk : length (take (count sbuf) (buf sbuf)) = count sbuf)
    by (rewrite length_take; lia).
  split_and!.
  - rewrite !length_app, length_drop, Htk, Hout, Hlen. simpl. lia.
  - rewrite <- (app_assoc out), (app_assoc (take _ _) out).
    rewrite take_app_length'; [done | rewrite length_app, Htk, Hout; lia].
  - rewrite lookup_app_r by lia. rewrite Htk.
    rewrite <- app_assoc, lookup_app_r by lia. rewrite Hout.
    replace (_ - _ - _) with 0 by lia. done.
Qed.

Lemma bus_for_each_drv_print_fits (drvs : list ls_driver)
    (sbuf : ls_supported_buf) :
  length (buf sbuf) = PAGE_SIZE →
  count sbuf + supported_length drvs + 1 ≤ PAGE_SIZE →
  ∃ pg, bus_for_each_drv_print drvs sbuf =
          Some {| buf := pg; count := count sbuf + supported_length drvs |} ∧
        length pg = PAGE_SIZE ∧
        take (count sbuf + supported_length drvs) pg =
          take (count sbuf) (buf sbuf) ++ supported_text drvs ∧
        match drvs with
        | [] => pg = buf sbuf
        | _ => pg !! (count sbuf + supported_length drvs) = Some NUL
        end.
Proof.
  revert sbuf. induction drvs as [|drv drvs IH]; intros sbuf Hlen Hfit.
  - simpl. exists (buf sbuf). rewrite Nat.add_0_r, app_nil_r.
    destruct sbuf; simpl. by split_and!.
  - simpl in Hfit. cbn [bus_for_each_drv_print supported_length supported_text].
    destruct (ls_supported_print_fits drv sbuf Hlen) as (pg1 & -> & Hl1 & Ht1 & Hn1);
      [lia |].
    destruct (IH {| buf := pg1;
                    count := count sbuf + (String.length (drv_name drv) + 1) |})
      as (pg & -> & Hl & Ht & Hn); cbn [buf count]; [done | lia |].
    cbn [buf count] in *. exists pg.
    replace (count sbuf + (String.length (drv_name drv) + 1 + supported_length drvs))
      with (count sbuf + (String.length (drv_name drv) + 1) + supported_length drvs)
      by lia.
    split_and!; [done | done | |].
    + rewrite Ht, Ht1, <- !app_assoc. done.
    + destruct drvs as [|drv' drvs]; [| exact Hn].
      subst pg. cbn [supported_length]. by rewrite Nat.add_0_r.
Qed.

(** X1: as long as the names of the registered drivers, each with
    its newline, and the closing NUL fit in the page, ls_supported_show
    returns the sum of the lengths of the names plus one per driver and
    leaves in the page the names in registration order, one per line,
    followed by a NUL. *)
Theorem ls_supported_show_fits (drvs : list ls_driver)
    (pg : list Ascii.ascii) :
  length pg = PAGE_SIZE →
  supported_length drvs + 1 ≤ PAGE_SIZE →
  ∃ pg', ls_supported_show drvs pg = Some (supported_length drvs, pg') ∧
         take (supported_length drvs) pg' = supported_text drvs ∧
         length pg' = PAGE_SIZE ∧
         (drvs ≠ [] → pg' !! supported_length drvs = Some NUL).
Proof.
  intros Hlen Hfit. unfold ls_supported_show.
  destruct (bus_for_each_drv_print_fits drvs {| buf := pg; count := 0 |})
    as (pg' & -> & Hl & Ht & Hn); cbn [buf count]; [done | lia |].
  cbn [buf count] in *. exists pg'. split_and!; [done | done | done |].
  intros Hne. destruct drvs; [done | exact Hn].
Qed.

Lemma ls_supported_show_fits_witness :
  ∃ pg', ls_supported_show [secure96_driver] (replicate PAGE_SIZE NUL) =
           Some (9, pg') ∧
         take 9 pg' = String.list_ascii_of_string (line "secure96").
Proof.
  destruct (ls_supported_show_fits [secure96_driver] (replicate PAGE_SIZE NUL))
    as (pg' & Hs & Ht & _).
  - apply length_replicate.
  - vm_compute. lia.
  - exists pg'. split; [exact Hs | exact Ht].
Defined.

Lemma bus_for_each_drv_print_overrun (drvs : list ls_driver)
    (sbuf : ls_supported_buf) :
  length (buf sbuf) = PAGE_SIZE →
  (∀ drv, drv ∈ drvs → String.length (drv_name drv) + 1 ≤ PAGE_SIZE - 1) →
  count sbuf + 1 ≤ PAGE_SIZE →
  PAGE_SIZE < count sbuf + supported_length drvs + 1 →
  bus_for_each_drv_print drvs sbuf = None.
Proof.
  revert sbuf. induction drvs as [|drv drvs IH]; intros sbuf Hlen Hshort Hc Hover.
  - simpl in Hover. lia.
  - cbn [bus_for_each_drv_print]. cbn [supported_length] in Hover.
    assert (Hd : String.length (drv_name drv) + 1 ≤ PAGE_SIZE - 1)
      by (apply Hshort; by left).
    destruct (decide (count sbuf + (String.length (drv_name drv) + 1) + 1
                      ≤ PAGE_SIZE)) as [Hfit | Hno].
    + destruct (ls_supported_print_fits drv sbuf Hlen Hfit)
        as (pg1 & -> & Hl1 & _).
      apply IH; cbn [buf count]; try done; try lia.
      intros d Hdin. apply Hshort. by right.
    + unfold ls_supported_print, snprintf_line, store. cbv zeta.
      rewrite take_ge by (rewrite length_app, length_list_ascii; cbn [length]; lia).
      rewrite !length_app, length_list_ascii, Hlen. simpl length.
      destruct (Nat.leb_spec (count sbuf + (String.length (drv_name drv) + 1 + 1))
                  PAGE_SIZE); [lia | done].
Qed.

(** X2: ls_supported_show has no bound on what it writes: with
    names shorter than a page, as soon as the text and its closing NUL no
    longer fit in the page, one of the snprintf calls stores past the end
    of the page. *)
Theorem ls_supported_show_overrun (drvs : list ls_driver)
    (pg : list Ascii.ascii) :
  length pg = PAGE_SIZE →
  (∀ drv, drv ∈ drvs → String.length (drv_name drv) + 1 ≤ PAGE_SIZE - 1) →
  PAGE_SIZE < supported_length drvs + 1 →
  ls_supported_show drvs pg = None.
Proof.
  intros Hlen Hshort Hover. unfold ls_supported_show.
  rewrite bus_for_each_drv_print_overrun; cbn [buf count]; try done.
  unfold PAGE_SIZE. lia.
Qed.

Lemma ls_supported_show_overrun_witness :
  ls_supported_show (replicate 456 secure96_driver) (replicate PAGE_SIZE NUL) =
    None.
Proof.
  apply ls_supported_show_overrun.
  - apply length_replicate.
  - intros drv Hd. apply elem_of_replicate in Hd as [-> _].
    apply Nat.leb_le. by vm_compute.
  - apply Nat.ltb_lt. by vm_compute.
Defined.

(** *** What a creation does to the bus *)

Lemma lscon_add_device_frame (ls : ls_connector) (name : option string)
    (np : option device_node) (fate : add_fate) (st : bus) :
  dev_root (snd (lscon_add_device ls name np fate st)) = dev_root st ∧
  drvdata (snd (lscon_add_device ls name np fate st)) = drvdata st ∧
  bus_drivers (snd (lscon_add_device ls name np fate st)) = bus_drivers st ∧
  bus_files (snd (lscon_add_device ls name np fate st)) = bus_files st ∧
  ∃ tr, trace (snd (lscon_add_device ls name np fate st)) = trace st ++ tr ∧
        forallb neutral tr = true.
Proof.
  unfold lscon_add_device, device_add, bus_probe_device, ida_simple_get.
  destruct (lsdev_alloc_ok fate); simpl.
  2: { split_and!; try done. exists []. by rewrite app_nil_r. }
  destruct (INT_MAX <? _)%Z; simpl.
  2: destruct (Z.of_nat _ <? 0)%Z; simpl.
  1,2: split_and!; try done; exists []; by rewrite app_nil_r.
  destruct (device_add_ret fate =? 0)%Z eqn:Hret; simpl.
  - destruct (List.find _ _) as [drv|]; simpl.
    + destruct (ls_driver_probe _ drv =? 0)%Z; simpl; split_and!; try done;
        eexists; (split; [rewrite <- !app_assoc; reflexivity | done]).
    + split_and!; try done.
      eexists; (split; [rewrite <- !app_assoc; reflexivity | done]).
  - rewrite Hret; simpl. split_and!; try done.
    eexists; (split; [rewrite <- !app_assoc; reflexivity | done]).
Qed.

Lemma lscon_add_device_exact (ls : ls_connector) (name : option string)
    (np : option device_node) (fate : add_fate) (st : bus) :
  lsdev_alloc_ok fate = true → device_add_ret fate = 0%Z →
  (Z.of_nat (ida_first_free (ls_device_ida st)) ≤ INT_MAX)%Z →
  fst (lscon_add_device ls name np fate st) = 0%Z ∧
  bus_devices (snd (lscon_add_device ls name np fate st)) =
    bus_devices st ++
    [{| lsdev := new_lsdev ls name np st;
        driver := bound_driver (new_lsdev ls name np st) (bus_drivers st) |}] ∧
  ls_device_ida (snd (lscon_add_device ls name np fate st)) =
    ida_mark (ida_first_free (ls_device_ida st)) (ls_device_ida st).
Proof.
  intros Ha Hr Hmax.
  unfold lscon_add_device, device_add, bus_probe_device, ida_simple_get,
    bound_driver, new_lsdev.
  rewrite Ha, Hr. simpl. apply Z.ltb_ge in Hmax. rewrite Hmax. simpl.
  destruct (Z.of_nat _ <? 0)%Z eqn:Hneg; [apply Z.ltb_lt in Hneg; lia |].
  destruct (List.find _ _) as [drv|]; simpl; [| done].
  by destruct (ls_driver_probe _ drv =? 0)%Z.
Qed.

(** X4: when kzalloc succeeds and device_add fails,
    lscon_add_device returns the value of device_add and puts nothing on
    the bus, and the id it drew stays taken in the pool: the next
    allocation gets another id. *)
Theorem lscon_add_device_leaks_id (ls : ls_connector) (name : option string)
    (np : option device_node) (fate : add_fate) (st : bus) :
  lsdev_alloc_ok fate = true → device_add_ret fate ≠ 0%Z →
  (Z.of_nat (ida_first_free (ls_device_ida st)) ≤ INT_MAX)%Z →
  fst (lscon_add_device ls name np fate st) = device_add_ret fate ∧
  bus_devices (snd (lscon_add_device ls name np fate st)) = bus_devices st ∧
  ida_allocated (ls_device_ida (snd (lscon_add_device ls name np fate st)))
    (Z.of_nat (ida_first_free (ls_device_ida st))) ∧
  ida_first_free (ls_device_ida (snd (lscon_add_device ls name np fate st))) ≠
    ida_first_free (ls_device_ida st).
Proof.
  intros Ha Hr Hmax.
  assert (Hbm : ls_device_ida (snd (lscon_add_device ls name np fate st)) =
                ida_mark (ida_first_free (ls_device_ida st)) (ls_device_ida st) ∧
                fst (lscon_add_device ls name np fate st) = device_add_ret fate ∧
                bus_devices (snd (lscon_add_device ls name np fate st)) =
                  bus_devices st).
  { unfold lscon_add_device, device_add, ida_simple_get.
    rewrite Ha. simpl. apply Z.ltb_ge in Hmax. rewrite Hmax. simpl.
    destruct (Z.of_nat _ <? 0)%Z eqn:Hneg; [apply Z.ltb_lt in Hneg; lia |].
    apply Z.eqb_neq in Hr. rewrite Hr. simpl. by rewrite Hr. }
  destruct Hbm as (Hbm & Hret & Hd). rewrite Hbm.
  assert (Hset : ida_mark (ida_first_free (ls_device_ida st)) (ls_device_ida st)
                   !! ida_first_free (ls_device_ida st) = Some true)
    by (apply ida_mark_lookup; by left).
  split_and!; [done | done | | ].
  - split; [lia | by rewrite Nat2Z.id].
  - intros E.
    pose proof (ida_first_free_clear
                  (ida_mark (ida_first_free (ls_device_ida st))
                     (ls_device_ida st))) as Hc.
    rewrite E in Hc. done.
Qed.

Lemma lscon_add_device_leaks_id_witness :
  let fate := {| lsdev_alloc_ok := true; device_add_ret := (-17)%Z |} in
  fst (lscon_add_device the_bundle (Some "secure96") None fate attached) =
    (-17)%Z ∧
  length (bus_devices (snd (lscon_add_device the_bundle (Some "secure96") None
                              fate attached))) = 2 ∧
  ida_allocated
    (ls_device_ida (snd (lscon_add_device the_bundle (Some "secure96") None
                           fate attached))) 2.
Proof.
  intros fate.
  destruct (lscon_add_device_leaks_id the_bundle (Some "secure96") None fate
              attached eq_refl) as (Hret & Hd & Hal & _).
  - discriminate.
  - vm_compute. discriminate.
  - split_and!; [exact Hret | by rewrite Hd | exact Hal].
Defined.

(** *** Inject and eject *)

Lemma ls_match_no_node (dev : ls_device) (drv : ls_driver) :
  of_node dev = None →
  ls_match dev drv = String.eqb (dev_name dev) (drv_name drv).
Proof. intros H. unfold ls_match, of_driver_match_device. by rewrite H. Qed.

Lemma bus_for_each_drv_some (drvs : list ls_driver) (devname : string)
    (drv : ls_driver) :
  drv ∈ drvs → drv_name drv = devname →
  bus_for_each_drv drvs devname ls_inject_match = 1%Z.
Proof.
  intros Hin Hn. induction drvs as [|d drvs IH]; [by apply elem_of_nil in Hin |].
  cbn [bus_for_each_drv].
  remember (ls_inject_match d devname) as r eqn:Er.
  unfold ls_inject_match in Er.
  destruct (String.eqb devname (drv_name d)) eqn:E; subst r; [done |].
  cbn. apply IH. apply elem_of_cons in Hin as [-> | Hin]; [| done].
  rewrite Hn, String.eqb_refl in E. discriminate.
Qed.

Lemma bound_driver_by_name (dev : ls_device) (drvs : list ls_driver)
    (drv : ls_driver) :
  of_node dev = None → bound_driver dev drvs = Some drv →
  drv ∈ drvs ∧ drv_name drv = dev_name dev ∧ ls_driver_probe dev drv = 0%Z.
Proof.
  intros Hnp. unfold bound_driver.
  destruct (List.find (ls_match dev) drvs) as [d|] eqn:Hf; [| discriminate].
  apply find_some in Hf as [Hin Hm]. rewrite ls_match_no_node in Hm by done.
  apply String.eqb_eq in Hm.
  destruct (ls_driver_probe dev d =? 0)%Z eqn:Hp; [| discriminate].
  intros [= <-]. apply Z.eqb_eq in Hp.
  split_and!; [by apply list_elem_of_In | done | done].
Qed.

(** A write to inject of the name of a registered driver, with a
    connector attached and memory for the copy: the message, the creation
    under the trimmed name, then the kfree and the return. *)
Lemma ls_inject_store_matched (buf : string) (count : Z) (fate : add_fate)
    (st : bus) (dev : nat) (ls : ls_connector) (drv : ls_driver) :
  dev_root st = Some dev → drvdata st !! dev = Some ls →
  drv ∈ bus_drivers st → drv_name drv = strstrip (c_str buf) →
  ls_inject_store buf count true fate st =
  kfree_and_return (c_str buf) count
    (snd (lscon_add_device ls (Some (strstrip (c_str buf))) None fate
            (log (EvDevInfo ("create " +:+ strstrip (c_str buf) +:+ " device"))
               st))).
Proof.
  intros Hr Hd Hin Hn. unfold ls_inject_store, kstrdup.
  rewrite Hr, Hd, (bus_for_each_drv_some _ _ drv Hin Hn). simpl.
  by destruct (lscon_add_device _ _ _ _ _).
Qed.

(** X5: with a connector attached and memory for the copy, a
    write to inject of the name of a registered driver, when the creation
    succeeds, appends one device to the bus: it has the trimmed name, no
    node, the lowest free id and the busses of the connector, and a
    driver it is bound to is registered under that name and has returned
    0 from its probe.  The write then returns the count as an ssize_t
    when the name was written without whitespace before it; with
    whitespace before it, the device is created all the same and the
    write ends in the kfree of an address inside the copy. *)
Theorem ls_inject_store_creates (buf : string) (count : Z) (fate : add_fate)
    (st : bus) (dev : nat) (ls : ls_connector) (drv : ls_driver) :
  dev_root st = Some dev → drvdata st !! dev = Some ls →
  drv ∈ bus_drivers st → drv_name drv = strstrip (c_str buf) →
  lsdev_alloc_ok fate = true → device_add_ret fate = 0%Z →
  (Z.of_nat (ida_first_free (ls_device_ida st)) ≤ INT_MAX)%Z →
  ∃ st' d,
    (strstrip_offset (c_str buf) = 0 →
       ls_inject_store buf count true fate st =
       Returned (ssize_of_size count) st') ∧
    (strstrip_offset (c_str buf) ≠ 0 →
       ls_inject_store buf count true fate st = BadFree st') ∧
    bus_devices st' = bus_devices st ++ [d] ∧
    lsdev d = new_lsdev ls (Some (strstrip (c_str buf))) None st ∧
    driver d = bound_driver (lsdev d) (bus_drivers st) ∧
    (∀ drv', driver d = Some drv' →
             drv' ∈ bus_drivers st ∧ drv_name drv' = strstrip (c_str buf) ∧
             ls_driver_probe (lsdev d) drv' = 0%Z).
Proof.
  intros Hr Hd Hin Hn Ha Hret Hmax.
  rewrite (ls_inject_store_matched buf count fate st dev ls drv Hr Hd Hin Hn).
  set (st1 := log _ st).
  destruct (lscon_add_device_exact ls (Some (strstrip (c_str buf))) None fate
              st1 Ha Hret Hmax) as (_ & Hdev & _).
  destruct (kfree_and_return_cases (c_str buf) count
              (snd (lscon_add_device ls (Some (strstrip (c_str buf))) None
                      fate st1))) as [Hclean Hbad].
  eexists _, _. split_and!; [exact Hclean | exact Hbad | exact Hdev | done
                             | done |].
  intros drv' Hb. by apply bound_driver_by_name in Hb.
Qed.

Lemma ls_inject_store_creates_witness :
  ∃ st' d,
    ls_inject_store (line "secure96") 9 true fine attached = Returned 9 st' ∧
    bus_devices st' = bus_devices attached ++ [d] ∧
    dev_name (lsdev d) = "secure96" ∧ id (lsdev d) = 2%Z ∧
    drv_name <$> driver d = Some "secure96".
Proof.
  destruct (ls_inject_store_creates (line "secure96") 9 fine attached 7
              the_bundle secure96_driver eq_refl eq_refl)
    as (st' & d & Hs & _ & Hd & Hl & Hdr & _).
  - vm_compute. by left.
  - reflexivity.
  - reflexivity.
  - reflexivity.
  - vm_compute. discriminate.
  - exists st', d. split_and!; [exact (Hs eq_refl) | exact Hd | | |].
    + rewrite Hl. reflexivity.
    + rewrite Hl. reflexivity.
    + rewrite Hdr, Hl. reflexivity.
Defined.

(** X6: a write to inject of the name of a registered driver
    ends as it does when the creation succeeds even when the creation
    fails (no memory, pool exhausted or device_add failing): written
    without whitespace before it, the name gets the count back; the value
    of lscon_add_device is dropped and the bus has the devices it had. *)
Theorem ls_inject_store_hides_failure (buf : string) (count : Z)
    (fate : add_fate) (st : bus) (dev : nat) (ls : ls_connector)
    (drv : ls_driver) :
  dev_root st = Some dev → drvdata st !! dev = Some ls →
  drv ∈ bus_drivers st → drv_name drv = strstrip (c_str buf) →
  lsdev_alloc_ok fate = false ∨ device_add_ret fate ≠ 0%Z ∨
    (INT_MAX < Z.of_nat (ida_first_free (ls_device_ida st)))%Z →
  ∃ st',
    (strstrip_offset (c_str buf) = 0 →
       ls_inject_store buf count true fate st =
       Returned (ssize_of_size count) st') ∧
    (strstrip_offset (c_str buf) ≠ 0 →
       ls_inject_store buf count true fate st = BadFree st') ∧
    bus_devices st' = bus_devices st ∧
    fst (lscon_add_device ls (Some (strstrip (c_str buf))) None fate st)
    ≠ 0%Z.
Proof.
  intros Hr Hd Hin Hn Hfail.
  rewrite (ls_inject_store_matched buf count fate st dev ls drv Hr Hd Hin Hn).
  set (name := strstrip (c_str buf)). set (st1 := log _ st).
  assert (Hne : ∀ s, ls_device_ida s = ls_device_ida st →
                     fst (lscon_add_device ls (Some name) None fate s) ≠ 0%Z).
  { intros s Hs. unfold lscon_add_device, device_add, ida_simple_get.
    rewrite Hs.
    destruct (lsdev_alloc_ok fate) eqn:Ha; simpl; [| by vm_compute].
    destruct (INT_MAX <? _)%Z eqn:Hmax; simpl; [by vm_compute |].
    destruct (Z.of_nat _ <? 0)%Z eqn:Hneg; [apply Z.ltb_lt in Hneg; lia |].
    destruct Hfail as [Hf | [Hf | Hf]]; [discriminate | |
      apply Z.ltb_ge in Hmax; lia].
    apply Z.eqb_neq in Hf. rewrite Hf. simpl. rewrite Hf. simpl.
    by apply Z.eqb_neq. }
  destruct (kfree_and_return_cases (c_str buf) count
              (snd (lscon_add_device ls (Some name) None fate st1)))
    as [Hclean Hbad].
  destruct (lscon_add_device_spec ls (Some name) None fate st1)
    as [(_ & Hsame & _) | (Hz & _)].
  - eexists. split_and!; [exact Hclean | exact Hbad | exact Hsame
                          | by apply Hne].
  - exfalso. by apply (Hne st1).
Qed.

Lemma ls_inject_store_hides_failure_witness :
  let fate := {| lsdev_alloc_ok := false; device_add_ret := 0 |} in
  ∃ st', ls_inject_store (line "secure96") 9 true fate attached =
           Returned 9 st' ∧
         length (bus_devices st') = 2.
Proof.
  intros fate.
  destruct (ls_inject_store_hides_failure (line "secure96") 9 fate attached 7
              the_bundle secure96_driver eq_refl eq_refl)
    as (st' & Hs & _ & Hd & _).
  - vm_compute. by left.
  - reflexivity.
  - by left.
  - exists st'. split; [exact (Hs eq_refl) | by rewrite Hd].
Defined.

Lemma bus_find_device_by_name_first (ds : list bus_device) (name : string)
    (i : nat) (d : bus_device) :
  ds !! i = Some d → dev_name (lsdev d) = name →
  (∀ j d', j < i → ds !! j = Some d' → dev_name (lsdev d') ≠ name) →
  bus_find_device_by_name ds name = Some i.
Proof.
  revert i. induction ds as [|a ds IH]; intros i Hi Hn Hfirst; [done |].
  cbn [bus_find_device_by_name]. destruct i as [|i]; simpl in Hi.
  - injection Hi as ->. by rewrite Hn, String.eqb_refl.
  - destruct (String.eqb (dev_name (lsdev a)) name) eqn:E.
    + apply String.eqb_eq in E. exfalso. apply (Hfirst 0 a); [lia | done | done].
    + rewrite (IH i); [done | done | done |].
      intros j d' Hj Hd'. apply (Hfirst (S j) d'); [lia | done].
Qed.

(** A write to eject of the name of a device on the bus, with a connector
    attached and memory for the copy: the message, the destruction of the
    first device of that name, then the kfree and the return. *)
Lemma ls_eject_store_found (buf : string) (count : Z) (st : bus) (dev : nat)
    (ls : ls_connector) (i : nat) (d : bus_device) :
  dev_root st = Some dev → drvdata st !! dev = Some ls →
  bus_devices st !! i = Some d → dev_name (lsdev d) = strstrip (c_str buf) →
  (∀ j d', j < i → bus_devices st !! j = Some d' →
           dev_name (lsdev d') ≠ strstrip (c_str buf)) →
  ls_eject_store buf count true st =
  kfree_and_return (c_str buf) count
    (lscon_del_device i
       (log (EvDevInfo ("destroy " +:+ strstrip (c_str buf) +:+ " device"))
          st)).
Proof.
  intros Hr Hd Hi Hn Hfirst. unfold ls_eject_store, kstrdup.
  by rewrite Hr, Hd, (bus_find_device_by_name_first _ _ i d Hi Hn Hfirst).
Qed.

(** X7: with a connector attached and memory for the copy, a
    write to eject of the name of a device takes the first device of that
    name off the bus, leaves the others in place, gives its id back to
    the pool, and logs the destruction before the events of the deletion.
    The write then returns the count as an ssize_t when the name was
    written without whitespace before it; with whitespace before it, the
    device is destroyed all the same and the write ends in the kfree of
    an address inside the copy. *)
Theorem ls_eject_store_removes (buf : string) (count : Z) (st : bus)
    (dev : nat) (ls : ls_connector) (i : nat) (d : bus_device) :
  dev_root st = Some dev → drvdata st !! dev = Some ls →
  bus_devices st !! i = Some d → dev_name (lsdev d) = strstrip (c_str buf) →
  (∀ j d', j < i → bus_devices st !! j = Some d' →
           dev_name (lsdev d') ≠ strstrip (c_str buf)) →
  ∃ st',
    (strstrip_offset (c_str buf) = 0 →
       ls_eject_store buf count true st = Returned (ssize_of_size count) st') ∧
    (strstrip_offset (c_str buf) ≠ 0 →
       ls_eject_store buf count true st = BadFree st') ∧
    bus_devices st' = delete i (bus_devices st) ∧
    ¬ ida_allocated (ls_device_ida st') (id (lsdev d)) ∧
    events_since st st' =
      EvDevInfo ("destroy " +:+ strstrip (c_str buf) +:+ " device") ::
      del_events d.
Proof.
  intros Hr Hd Hi Hn Hfirst.
  rewrite (ls_eject_store_found buf count st dev ls i d Hr Hd Hi Hn Hfirst).
  set (st1 := log _ st).
  destruct (lscon_del_device_spec i d st1 Hi) as (Hdev & Hbm & Htr & _).
  destruct (kfree_and_return_cases (c_str buf) count (lscon_del_device i st1))
    as [Hclean Hbad].
  eexists. split_and!; [exact Hclean | exact Hbad | exact Hdev | |].
  - rewrite Hbm. intros [_ E]. apply ida_remove_lookup in E. tauto.
  - apply events_since_app. rewrite Htr. simpl. by rewrite <- app_assoc.
Qed.

Lemma ls_eject_store_removes_witness :
  ∃ st', ls_eject_store (line "mezzanine0") 11 true attached =
           Returned 11 st' ∧
         (λ d, dev_name (lsdev d)) <$> bus_devices st' = ["mezzanine1"] ∧
         events_since attached st' =
           [EvDevInfo "destroy mezzanine0 device"; EvDrvRemove "secure96" 0;
            EvDeviceDel 0; EvIdaRemove 0].
Proof.
  destruct (ls_eject_store_removes (line "mezzanine0") 11 attached 7 the_bundle
              0 {| lsdev := {| id := 0; dev_name := "mezzanine0";
                               of_node := Some secure96_node; parent := 7;
                               i2c0 := Some 0; i2c1 := Some 1; spi := Some 0 |};
                   driver := Some secure96_driver |}
              eq_refl eq_refl eq_refl eq_refl)
    as (st' & Hs & _ & Hd & _ & Hev).
  - intros j d' Hj. lia.
  - exists st'. split_and!; [exact (Hs eq_refl) | by rewrite Hd | exact Hev].
Defined.




(** X24: while a connector is attached and there is memory for
    the copy, a write to inject of a name that, once trimmed, is the name
    of no registered driver, and a write to eject of a name that is the
    name of no device on the bus, leave the bus as it was.  Written
    without whitespace before it, the name gets the count back as an
    ssize_t; written with whitespace before it, it ends in the kfree of
    an address inside the copy. *)
Theorem unmatched_store_returns (buf : string) (count : Z) (fate : add_fate)
    (st : bus) (dev : nat) :
  dev_root st = Some dev →
  ((∀ drv, drv ∈ bus_drivers st → drv_name drv ≠ strstrip (c_str buf)) →
     (strstrip_offset (c_str buf) = 0 →
        ls_inject_store buf count true fate st =
        Returned (ssize_of_size count) st) ∧
     (strstrip_offset (c_str buf) ≠ 0 →
        ls_inject_store buf count true fate st = BadFree st)) ∧
  ((∀ d, d ∈ bus_devices st → dev_name (lsdev d) ≠ strstrip (c_str buf)) →
     (strstrip_offset (c_str buf) = 0 →
        ls_eject_store buf count true st =
        Returned (ssize_of_size count) st) ∧
     (strstrip_offset (c_str buf) ≠ 0 →
        ls_eject_store buf count true st = BadFree st)).
Proof.
  intros Hr.
  destruct (unmatched_store_attached buf count fate st dev Hr) as [Hi He].
  split; intros H.
  - rewrite (Hi H). apply kfree_and_return_cases.
  - rewrite (He H). apply kfree_and_return_cases.
Qed.

Lemma unmatched_store_returns_witness :
  ls_inject_store (line "unknown") 8 true fine attached = Returned 8 attached ∧
  ls_eject_store (line "unknown") 8 true attached = Returned 8 attached.
Proof.
  pose proof (unmatched_store_returns (line "unknown") 8 fine attached 7
                eq_refl) as [Hi He].
  split.
  - apply Hi; [| reflexivity]. intros drv Hd. vm_compute in Hd.
    apply list_elem_of_singleton in Hd. subst drv. by vm_compute.
  - apply He; [| reflexivity]. intros d Hd. vm_compute in Hd.
    repeat (apply elem_of_cons in Hd as [-> | Hd]; [by vm_compute |]).
    by apply elem_of_nil in Hd.
Defined.








(** *** Attach and detach as a whole *)

Lemma held_neutral (tr : list event) (h : list upstream) :
  forallb neutral tr = true → fold_left held_step tr h = h.
Proof.
  revert h. induction tr as [|ev tr IH]; intros h H; [done |].
  simpl in H. apply andb_true_iff in H as [Hev Htr].
  simpl. rewrite <- (IH h Htr) at 2. f_equal. by destruct ev.
Qed.

Lemma del_events_neutral (ds : list bus_device) :
  forallb neutral (flat_map del_events ds) = true.
Proof.
  induction ds as [|d ds IH]; [done |]. simpl. rewrite forallb_app, IH.
  unfold del_events. destruct (driver d) as [drv|]; [| done].
  by destruct (remove drv).
Qed.

(** A creation either puts the device it set up on the bus or leaves
    the list of devices as it was. *)
Lemma lscon_add_device_cases (ls : ls_connector) (name : option string)
    (np : option device_node) (fate : add_fate) (st : bus) :
  bus_devices (snd (lscon_add_device ls name np fate st)) =
    bus_devices st ++
    [{| lsdev := new_lsdev ls name np st;
        driver := bound_driver (new_lsdev ls name np st) (bus_drivers st) |}]
  ∨ bus_devices (snd (lscon_add_device ls name np fate st)) = bus_devices st.
Proof.
  destruct (lsdev_alloc_ok fate) eqn:Ha.
  2: { right. unfold lscon_add_device. by rewrite Ha. }
  destruct (decide (device_add_ret fate = 0%Z)) as [Hr | Hr].
  2: { right. unfold lscon_add_device, device_add, ida_simple_get.
       rewrite Ha. simpl. destruct (INT_MAX <? _)%Z; simpl; [done |].
       destruct (Z.of_nat _ <? 0)%Z; [done |].
       apply Z.eqb_neq in Hr. rewrite Hr. simpl. by rewrite Hr. }
  destruct (decide (Z.of_nat (ida_first_free (ls_device_ida st)) ≤ INT_MAX)%Z)
    as [Hmax | Hmax].
  - left. by apply lscon_add_device_exact.
  - right. unfold lscon_add_device, ida_simple_get. rewrite Ha. simpl.
    destruct (Z.ltb_spec INT_MAX (Z.of_nat (ida_first_free (ls_device_ida st))));
      [done | lia].
Qed.

Lemma add_children_shape (ls : ls_connector) (env : platform_env)
    (all nodes : list device_node) (st : bus) :
  (∀ c, c ∈ nodes → c ∈ all) →
  dev_root (add_children ls env nodes st) = dev_root st ∧
  drvdata (add_children ls env nodes st) = drvdata st ∧
  bus_files (add_children ls env nodes st) = bus_files st ∧
  (∃ tr, trace (add_children ls env nodes st) = trace st ++ tr ∧
         forallb neutral tr = true) ∧
  ∃ news, bus_devices (add_children ls env nodes st) = bus_devices st ++ news ∧
          Forall (mezzanine_of ls all) news.
Proof.
  revert st. induction nodes as [|child rest IH]; intros st Hall.
  - simpl. split_and!; try done.
    + exists []. by rewrite app_nil_r.
    + exists []. by rewrite app_nil_r.
  - cbn [add_children].
    assert (Hrest : ∀ c, c ∈ rest → c ∈ all)
      by (intros c Hc; apply Hall; by right).
    destruct (available child) eqn:Hav; [| by apply IH].
    destruct (lscon_add_device_frame ls None (Some child) (child_fate env child) st)
      as (Hroot & Hdata & _ & Hfiles & tr1 & Htr1 & Hn1).
    pose proof (lscon_add_device_cases ls None (Some child)
                  (child_fate env child) st) as Hcase.
    destruct (lscon_add_device ls None (Some child) (child_fate env child) st)
      as [ret st1]. simpl in Hroot, Hdata, Hfiles, Htr1, Hcase.
    destruct (IH st1 Hrest)
      as (IHroot & IHdata & IHfiles & (tr2 & Htr2 & Hn2) & news & Hnews & Hfor).
    split_and!; [congruence | congruence | congruence | |].
    + exists (tr1 ++ tr2). rewrite Htr2, Htr1, <- app_assoc.
      split; [done |]. by rewrite forallb_app, Hn1, Hn2.
    + destruct Hcase as [Hc | Hc]; rewrite Hnews, Hc.
      * eexists (_ :: news). rewrite <- app_assoc. split; [reflexivity |].
        constructor; [| done]. unfold mezzanine_of, new_lsdev. simpl.
        split_and!; try done. exists child. split_and!; [| done | done].
        apply Hall. by left.
      * by exists news.
Qed.

(** What a successful probe leaves. *)
Lemma lscon_probe_success_shape (pdev : platform_device) (env : platform_env)
    (st : bus) :
  fst (lscon_probe pdev env st) = 0%Z →
  ∃ a0 a1 c mid news,
    trace (snd (lscon_probe pdev env st)) =
      trace st ++
      [EvParsePhandle "i2c0"; EvFindProvider "i2c0"; EvI2cGet a0;
       EvParsePhandle "i2c1"; EvFindProvider "i2c1"; EvI2cGet a1;
       EvParsePhandle "spi"; EvFindProvider "spi"; EvSpiGet c;
       EvSetRoot (pdev_id pdev)] ++ mid ∧
    forallb neutral mid = true ∧
    dev_root (snd (lscon_probe pdev env st)) = Some (pdev_id pdev) ∧
    drvdata (snd (lscon_probe pdev env st)) =
      <[pdev_id pdev := bundle pdev a0 a1 c]> (drvdata st) ∧
    bus_files (snd (lscon_probe pdev env st)) =
      bus_files st ++ [bus_attr_supported; bus_attr_inject; bus_attr_eject] ∧
    bus_devices (snd (lscon_probe pdev env st)) = bus_devices st ++ news ∧
    Forall (mezzanine_of (bundle pdev a0 a1 c) (children (pdev_of_node pdev)))
      news.
Proof.
  unfold lscon_probe, of_parse_phandle, bus_create_file.
  destruct (kzalloc_ok env); simpl; [| by vm_compute].
  destruct (phandles (pdev_of_node pdev) !! "i2c0") as [n0|]; simpl;
    [| by vm_compute].
  destruct (i2c_adapter_by_node env n0) as [a0|]; simpl; [| by vm_compute].
  destruct (phandles (pdev_of_node pdev) !! "i2c1") as [n1|]; simpl;
    [| by vm_compute].
  destruct (i2c_adapter_by_node env n1) as [a1|]; simpl; [| by vm_compute].
  destruct (phandles (pdev_of_node pdev) !! "spi") as [n2|]; simpl;
    [| by vm_compute].
  destruct (spi_controller_by_node env n2) as [c|]; simpl; [| by vm_compute].
  destruct (spi_controller_get_ok env); simpl; [| by vm_compute].
  destruct (bus_create_file_ret env bus_attr_supported =? 0)%Z eqn:E1; simpl.
  2: { rewrite E1; simpl. intros H. rewrite H in E1. discriminate. }
  destruct (bus_create_file_ret env bus_attr_inject =? 0)%Z eqn:E2; simpl.
  2: { rewrite E2; simpl. intros H. rewrite H in E2. discriminate. }
  destruct (bus_create_file_ret env bus_attr_eject =? 0)%Z eqn:E3; simpl.
  2: { rewrite E3; simpl. intros H. rewrite H in E3. discriminate. }
  intros _.
  match goal with
  | |- context [add_children ?ls env ?nodes ?s0] =>
      destruct (add_children_shape ls env nodes nodes s0 (λ c H, H))
        as (Hroot & Hdata & Hfiles & (mid & Htr & Hn) & news & Hnews & Hfor)
  end.
  exists a0, a1, c, mid, news.
  rewrite Htr, Hroot, Hdata, Hfiles, Hnews. simpl.
  rewrite <- !app_assoc. by split_and!.
Qed.

(** X9: lscon_probe returns 0 exactly when its allocation
    succeeds, the three links resolve, the SPI controller reference is
    obtained and the three sysfs files are created; what happens to the
    children has no part in it. *)
Theorem lscon_probe_success_iff (pdev : platform_device) (env : platform_env)
    (st : bus) :
  fst (lscon_probe pdev env st) = 0%Z ↔
  kzalloc_ok env = true ∧ first_unresolved pdev env = None ∧
  spi_controller_get_ok env = true ∧ ∀ a, bus_create_file_ret env a = 0%Z.
Proof.
  unfold first_unresolved, link_status_of, links, lscon_probe, of_parse_phandle,
    bus_create_file. simpl.
  destruct (kzalloc_ok env); simpl; [| split; [by vm_compute | by intros [? _]]].
  destruct (phandles (pdev_of_node pdev) !! "i2c0") as [n0|]; simpl;
    [| split; [by vm_compute | by intros (_ & ? & _)]].
  destruct (i2c_adapter_by_node env n0) as [a0|]; simpl;
    [| split; [by vm_compute | by intros (_ & ? & _)]].
  destruct (phandles (pdev_of_node pdev) !! "i2c1") as [n1|]; simpl;
    [| split; [by vm_compute | by intros (_ & ? & _)]].
  destruct (i2c_adapter_by_node env n1) as [a1|]; simpl;
    [| split; [by vm_compute | by intros (_ & ? & _)]].
  destruct (phandles (pdev_of_node pdev) !! "spi") as [n2|]; simpl;
    [| split; [by vm_compute | by intros (_ & ? & _)]].
  destruct (spi_controller_by_node env n2) as [c|]; simpl;
    [| split; [by vm_compute | by intros (_ & ? & _)]].
  destruct (spi_controller_get_ok env); simpl;
    [| split; [by vm_compute | by intros (_ & _ & ? & _)]].
  destruct (bus_create_file_ret env bus_attr_supported =? 0)%Z eqn:E1; simpl.
  2: { rewrite E1; simpl. apply Z.eqb_neq in E1.
       split; [done | intros (_ & _ & _ & H); by specialize (H bus_attr_supported)]. }
  destruct (bus_create_file_ret env bus_attr_inject =? 0)%Z eqn:E2; simpl.
  2: { rewrite E2; simpl. apply Z.eqb_neq in E2.
       split; [done | intros (_ & _ & _ & H); by specialize (H bus_attr_inject)]. }
  destruct (bus_create_file_ret env bus_attr_eject =? 0)%Z eqn:E3; simpl.
  2: { rewrite E3; simpl. apply Z.eqb_neq in E3.
       split; [done | intros (_ & _ & _ & H); by specialize (H bus_attr_eject)]. }
  split; [intros _ | done]. split_and!; try done.
  intros []; by apply Z.eqb_eq.
Qed.

(** X10: whenever the three links resolve and one of the sysfs
    files cannot be created, lscon_probe returns the error of the first
    file that fails, with the SPI controller reference as the one
    reference still held, dev_root and the driver data set, and no device
    created. *)
Theorem lscon_probe_file_failure (pdev : platform_device) (env : platform_env)
    (st : bus) :
  kzalloc_ok env = true → first_unresolved pdev env = None →
  spi_controller_get_ok env = true →
  (∃ a, bus_create_file_ret env a ≠ 0%Z) →
  fst (lscon_probe pdev env st) ≠ 0%Z ∧
  fst (lscon_probe pdev env st) =
    (if (bus_create_file_ret env bus_attr_supported =? 0)%Z then
       if (bus_create_file_ret env bus_attr_inject =? 0)%Z then
         bus_create_file_ret env bus_attr_eject
       else bus_create_file_ret env bus_attr_inject
     else bus_create_file_ret env bus_attr_supported) ∧
  (∃ c, held (events_since st (snd (lscon_probe pdev env st))) = [SpiRef c]) ∧
  dev_root (snd (lscon_probe pdev env st)) = Some (pdev_id pdev) ∧
  is_Some (drvdata (snd (lscon_probe pdev env st)) !! pdev_id pdev) ∧
  bus_devices (snd (lscon_probe pdev env st)) = bus_devices st.
Proof.
  unfold first_unresolved, link_status_of, links, lscon_probe, of_parse_phandle,
    bus_create_file. simpl. intros -> H -> [a Ha]. simpl.
  destruct (phandles (pdev_of_node pdev) !! "i2c0") as [n0|]; simpl in *;
    [| discriminate].
  destruct (i2c_adapter_by_node env n0) as [a0|]; simpl in *; [| discriminate].
  destruct (phandles (pdev_of_node pdev) !! "i2c1") as [n1|]; simpl in *;
    [| discriminate].
  destruct (i2c_adapter_by_node env n1) as [a1|]; simpl in *; [| discriminate].
  destruct (phandles (pdev_of_node pdev) !! "spi") as [n2|]; simpl in *;
    [| discriminate].
  destruct (spi_controller_by_node env n2) as [c|]; simpl in *; [| discriminate].
  destruct (bus_create_file_ret env bus_attr_supported =? 0)%Z eqn:E1; simpl.
  2: { rewrite E1; simpl. apply Z.eqb_neq in E1.
       split_and!; try done.
       - exists c. erewrite events_since_app by trace_suffix. by held_compute.
       - by rewrite lookup_insert_eq. }
  destruct (bus_create_file_ret env bus_attr_inject =? 0)%Z eqn:E2; simpl.
  2: { rewrite E2; simpl. apply Z.eqb_neq in E2.
       split_and!; try done.
       - exists c. erewrite events_since_app by trace_suffix. by held_compute.
       - by rewrite lookup_insert_eq. }
  destruct (bus_create_file_ret env bus_attr_eject =? 0)%Z eqn:E3; simpl.
  2: { rewrite E3; simpl. apply Z.eqb_neq in E3.
       split_and!; try done.
       - exists c. erewrite events_since_app by trace_suffix. by held_compute.
       - by rewrite lookup_insert_eq. }
  exfalso. apply Z.eqb_eq in E1, E2, E3. by destruct a.
Qed.

Lemma lscon_probe_file_failure_witness :
  fst (lscon_probe lscon_pdev no_supported_file (boot [secure96_driver])) =
    (- ENOMEM)%Z ∧
  dev_root (snd (lscon_probe lscon_pdev no_supported_file
                   (boot [secure96_driver]))) = Some 7.
Proof.
  destruct (lscon_probe_file_failure lscon_pdev no_supported_file
              (boot [secure96_driver]) eq_refl eq_refl eq_refl)
    as (_ & Hret & _ & Hroot & _).
  - exists bus_attr_supported. by vm_compute.
  - split; [exact Hret | exact Hroot].
Defined.

(** X11: when the sysfs files can be created, a probe that
    fails has failed at its allocation, at a link or at the SPI reference:
    it returns -ENOMEM, -ENODEV or -EPROBE_DEFER, holds no reference, and
    leaves dev_root, the driver data, the devices and the files as they
    were. *)
Theorem lscon_probe_failure_rollback (pdev : platform_device)
    (env : platform_env) (st : bus) :
  fst (lscon_probe pdev env st) ≠ 0%Z →
  (∀ a, bus_create_file_ret env a = 0%Z) →
  held (events_since st (snd (lscon_probe pdev env st))) = [] ∧
  dev_root (snd (lscon_probe pdev env st)) = dev_root st ∧
  drvdata (snd (lscon_probe pdev env st)) = drvdata st ∧
  bus_devices (snd (lscon_probe pdev env st)) = bus_devices st ∧
  bus_files (snd (lscon_probe pdev env st)) = bus_files st ∧
  (fst (lscon_probe pdev env st) = (- ENOMEM)%Z ∨
   fst (lscon_probe pdev env st) = (- ENODEV)%Z ∨
   fst (lscon_probe pdev env st) = (- EPROBE_DEFER)%Z).
Proof.
  unfold lscon_probe, of_parse_phandle, bus_create_file. intros Hne Hfiles.
  revert Hne. rewrite !Hfiles. simpl.
  destruct (kzalloc_ok env); simpl.
  2: { intros _. rewrite events_since_refl. split_and!; try done. by left. }
  destruct (phandles (pdev_of_node pdev) !! "i2c0") as [n0|]; simpl.
  2: { intros _. split_and!; try done; [| right; by left].
       by erewrite events_since_app by trace_suffix. }
  destruct (i2c_adapter_by_node env n0) as [a0|]; simpl.
  2: { intros _. split_and!; try done; [| right; by right].
       by erewrite events_since_app by trace_suffix. }
  destruct (phandles (pdev_of_node pdev) !! "i2c1") as [n1|]; simpl.
  2: { intros _. split_and!; try done; [| right; by left].
       erewrite events_since_app by trace_suffix. by held_compute. }
  destruct (i2c_adapter_by_node env n1) as [a1|]; simpl.
  2: { intros _. split_and!; try done; [| right; by right].
       erewrite events_since_app by trace_suffix. by held_compute. }
  destruct (phandles (pdev_of_node pdev) !! "spi") as [n2|]; simpl.
  2: { intros _. split_and!; try done; [| right; by left].
       erewrite events_since_app by trace_suffix. by held_compute. }
  destruct (spi_controller_by_node env n2) as [c|]; simpl.
  2: { intros _. split_and!; try done; [| right; by right].
       erewrite events_since_app by trace_suffix. by held_compute. }
  destruct (spi_controller_get_ok env); simpl.
  2: { intros _. split_and!; try done; [| right; by left].
       erewrite events_since_app by trace_suffix. by held_compute. }
  intros Hne. by exfalso.
Qed.

Lemma lscon_probe_failure_rollback_witness :
  held (events_since (boot [])
          (snd (lscon_probe lscon_pdev spi_not_ready (boot [])))) = [] ∧
  fst (lscon_probe lscon_pdev spi_not_ready (boot [])) = (- EPROBE_DEFER)%Z.
Proof.
  destruct (lscon_probe_failure_rollback lscon_pdev spi_not_ready (boot []))
    as (Hh & _).
  - by vm_compute.
  - reflexivity.
  - split; [exact Hh | reflexivity].
Defined.



(** X13: after a probe that returned 0, every device the probe
    added has the probed device as parent, carries the two adapters and
    the SPI controller of the connector, is named mezzanine followed by
    its id, and has as node an available child of the connector node. *)
Theorem lscon_probe_mezzanines (pdev : platform_device) (env : platform_env)
    (st : bus) :
  fst (lscon_probe pdev env st) = 0%Z →
  ∃ a0 a1 c news,
    drvdata (snd (lscon_probe pdev env st)) !! pdev_id pdev =
      Some (bundle pdev a0 a1 c) ∧
    bus_devices (snd (lscon_probe pdev env st)) = bus_devices st ++ news ∧
    Forall (mezzanine_of (bundle pdev a0 a1 c) (children (pdev_of_node pdev)))
      news.
Proof.
  intros H.
  destruct (lscon_probe_success_shape pdev env st H)
    as (a0 & a1 & c & mid & news & _ & _ & _ & Hdata & _ & Hdev & Hfor).
  exists a0, a1, c, news. split_and!; [| done | done].
  rewrite Hdata. apply lookup_insert_eq.
Qed.

Lemma lscon_probe_mezzanines_witness :
  ∃ news,
    bus_devices attached = news ∧
    Forall (mezzanine_of the_bundle (children lscon_node)) news.
Proof.
  destruct (lscon_probe_mezzanines lscon_pdev ready (boot [secure96_driver])
              eq_refl) as (a0 & a1 & c & news & Hls & Hdev & Hfor).
  exists news. split; [exact Hdev |].
  assert (E : bundle lscon_pdev a0 a1 c = the_bundle).
  { change (drvdata attached !! 7 = Some (bundle lscon_pdev a0 a1 c)) in Hls.
    assert (Hb : drvdata attached !! 7 = Some the_bundle) by reflexivity.
    rewrite Hb in Hls. congruence. }
  by rewrite <- E.
Defined.

(** X14: a probe that returned 0 followed by remove leaves no
    reference held on the upstream busses, no device on the bus and
    dev_root NULL. *)
Theorem lscon_probe_then_remove (pdev : platform_device) (env : platform_env)
    (st : bus) :
  fst (lscon_probe pdev env st) = 0%Z →
  ∃ st', lscon_remove pdev (snd (lscon_probe pdev env st)) = Done (0%Z, st') ∧
         held (events_since st st') = [] ∧
         bus_devices st' = [] ∧ dev_root st' = None.
Proof.
  intros H.
  destruct (lscon_probe_success_shape pdev env st H)
    as (a0 & a1 & c & mid & news & Htr & Hn & Hroot & Hdata & _).
  set (st1 := snd (lscon_probe pdev env st)) in *.
  assert (Hls : drvdata st1 !! pdev_id pdev = Some (bundle pdev a0 a1 c))
    by (rewrite Hdata; apply lookup_insert_eq).
  unfold lscon_remove. rewrite Hls.
  destruct (bus_for_each_dev_del_spec (bus_devices st1) st1 eq_refl)
    as (Hd & Ht & _).
  eexists. split; [reflexivity |]. split_and!; [| done | done].
  erewrite events_since_app.
  2: { simpl. rewrite Ht, Htr, <- !app_assoc. simpl. reflexivity. }
  unfold held. simpl.
  rewrite fold_left_app, (held_neutral mid) by done.
  rewrite fold_left_app, (held_neutral (flat_map del_events _))
    by apply del_events_neutral.
  simpl. by repeat (rewrite decide_True by reflexivity; simpl).
Qed.

Lemma lscon_probe_then_remove_witness :
  ∃ st', lscon_remove lscon_pdev attached = Done (0%Z, st') ∧
         held (events_since (boot [secure96_driver]) st') = [].
Proof.
  destruct (lscon_probe_then_remove lscon_pdev ready (boot [secure96_driver])
              eq_refl) as (st' & Hr & Hh & _).
  exists st'. split; [exact Hr | exact Hh].
Defined.

Lemma bus_for_each_dev_del_ida (ds : list bus_device) (st : bus) (j : nat) :
  bus_devices st = ds →
  ls_device_ida (bus_for_each_dev_del (length ds) st) !! j = Some true ↔
  ls_device_ida st !! j = Some true ∧
  ∀ d, d ∈ ds → Z.to_nat (id (lsdev d)) ≠ j.
Proof.
  revert st. induction ds as [|d ds IH]; intros st H; simpl.
  - split; [intros ?; split; [done |] | by intros [? _]].
    intros d Hd. by apply elem_of_nil in Hd.
  - assert (H0 : bus_devices st !! 0 = Some d) by (by rewrite H).
    destruct (lscon_del_device_spec 0 d st H0) as (Hd & Hbm & _).
    rewrite H in Hd; simpl in Hd.
    rewrite (IH _ Hd), Hbm, ida_remove_lookup. split.
    + intros [[Hne Hb] Hrest]. split; [done |].
      intros d' Hd'. apply elem_of_cons in Hd' as [-> | Hd']; [done |].
      by apply Hrest.
    + intros [Hb Hall]. split_and!; [| done |].
      * intros E. apply (Hall d); [by left | done].
      * intros d' Hd'. apply Hall. by right.
Qed.

(** X15: remove gives back to the pool the ids of the devices
    that were on the bus, and only those: an id is taken afterwards
    exactly when it was taken before and belonged to no device. *)
Theorem lscon_remove_frees_ids (pdev : platform_device) (st : bus)
    (ls : ls_connector) :
  drvdata st !! pdev_id pdev = Some ls →
  ∃ st', lscon_remove pdev st = Done (0%Z, st') ∧
    (∀ j, ls_device_ida st' !! j = Some true ↔
          ls_device_ida st !! j = Some true ∧
          ∀ d, d ∈ bus_devices st → Z.to_nat (id (lsdev d)) ≠ j) ∧
    ∀ d, d ∈ bus_devices st → ¬ ida_allocated (ls_device_ida st') (id (lsdev d)).
Proof.
  intros Hls. unfold lscon_remove. rewrite Hls.
  eexists. split; [reflexivity |]. simpl.
  assert (Hiff : ∀ j,
            ls_device_ida (bus_for_each_dev_del (length (bus_devices st)) st)
              !! j = Some true ↔
            ls_device_ida st !! j = Some true ∧
            ∀ d, d ∈ bus_devices st → Z.to_nat (id (lsdev d)) ≠ j)
    by (intros j; by apply bus_for_each_dev_del_ida).
  split; [exact Hiff |].
  intros d Hd [_ Hal]. apply Hiff in Hal as [_ Hall]. by apply (Hall d).
Qed.

Lemma lscon_remove_frees_ids_witness :
  ∃ st', lscon_remove lscon_pdev populated = Done (0%Z, st') ∧
         ¬ ida_allocated (ls_device_ida st') 0 ∧
         ¬ ida_allocated (ls_device_ida st') 1 ∧
         ¬ ida_allocated (ls_device_ida st') 2.
Proof.
  destruct (lscon_remove_frees_ids lscon_pdev populated the_bundle eq_refl)
    as (st' & Hr & Hiff & _).
  exists st'. split; [exact Hr |].
  split_and!; intros [_ Hal]; apply Hiff in Hal as [_ Hall].
  - refine (Hall {| lsdev := {| id := 0; dev_name := "mezzanine0";
                        of_node := Some secure96_node; parent := 7;
                        i2c0 := Some 0; i2c1 := Some 1; spi := Some 0 |};
                    driver := Some secure96_driver |} _ eq_refl).
    vm_compute. by left.
  - refine (Hall {| lsdev := {| id := 1; dev_name := "mezzanine1";
                        of_node := Some sensors_node; parent := 7;
                        i2c0 := Some 0; i2c1 := Some 1; spi := Some 0 |};
                    driver := None |} _ eq_refl).
    vm_compute. right. by left.
  - refine (Hall {| lsdev := {| id := 2; dev_name := "secure96";
                        of_node := None; parent := 7;
                        i2c0 := Some 0; i2c1 := Some 1; spi := Some 0 |};
                    driver := Some secure96_driver |} _ eq_refl).
    vm_compute. right. right. by left.
Defined.

(** *** The pool across the entry points *)

Lemma pool_ok_ext (st st' : bus) :
  bus_devices st' = bus_devices st → ls_device_ida st' = ls_device_ida st →
  pool_ok st → pool_ok st'.
Proof. unfold pool_ok, live_ids. by intros -> ->. Qed.

Lemma pool_ok_add_children (ls : ls_connector) (env : platform_env)
    (nodes : list device_node) (st : bus) :
  pool_ok st → pool_ok (add_children ls env nodes st).
Proof.
  revert st. induction nodes as [|child rest IH]; intros st H; [done |].
  cbn [add_children]. destruct (available child); [| by apply IH].
  pose proof (pool_ok_add ls None (Some child) (child_fate env child) st H) as H1.
  destruct (lscon_add_device ls None (Some child) (child_fate env child) st)
    as [ret st1]. by apply IH.
Qed.

Lemma pool_ok_del_each (n : nat) (st : bus) :
  pool_ok st → pool_ok (bus_for_each_dev_del n st).
Proof.
  revert st. induction n as [|n IH]; intros st H; [done |].
  simpl. by apply IH, pool_ok_del.
Qed.

(** X16: probe, remove, and the writes to inject and eject all
    keep the ids of the devices on the bus distinct, within range and
    marked as taken in the pool; for the two writes this holds of the bus
    as they leave it whether they return or end in the kfree of an
    address inside the copy. *)
Theorem entry_points_keep_pool (st : bus) :
  pool_ok st →
  (∀ pdev env, pool_ok (snd (lscon_probe pdev env st))) ∧
  (∀ pdev r, lscon_remove pdev st = Done r → pool_ok (snd r)) ∧
  (∀ buf count kstrdup_ok fate st',
     (∃ ret, ls_inject_store buf count kstrdup_ok fate st = Returned ret st') ∨
     ls_inject_store buf count kstrdup_ok fate st = BadFree st' →
     pool_ok st') ∧
  (∀ buf count kstrdup_ok st',
     (∃ ret, ls_eject_store buf count kstrdup_ok st = Returned ret st') ∨
     ls_eject_store buf count kstrdup_ok st = BadFree st' →
     pool_ok st').
Proof.
  intros H. split_and!.
  - intros pdev env. unfold lscon_probe, of_parse_phandle, bus_create_file.
    destruct (kzalloc_ok env); simpl; [| done].
    destruct (phandles (pdev_of_node pdev) !! "i2c0") as [n0|]; simpl;
      [| by eapply pool_ok_ext].
    destruct (i2c_adapter_by_node env n0) as [a0|]; simpl;
      [| by eapply pool_ok_ext].
    destruct (phandles (pdev_of_node pdev) !! "i2c1") as [n1|]; simpl;
      [| by eapply pool_ok_ext].
    destruct (i2c_adapter_by_node env n1) as [a1|]; simpl;
      [| by eapply pool_ok_ext].
    destruct (phandles (pdev_of_node pdev) !! "spi") as [n2|]; simpl;
      [| by eapply pool_ok_ext].
    destruct (spi_controller_by_node env n2) as [c|]; simpl;
      [| by eapply pool_ok_ext].
    destruct (spi_controller_get_ok env); simpl; [| by eapply pool_ok_ext].
    destruct (bus_create_file_ret env bus_attr_supported =? 0)%Z eqn:E1; simpl.
    2: { rewrite E1; simpl. by eapply pool_ok_ext. }
    destruct (bus_create_file_ret env bus_attr_inject =? 0)%Z eqn:E2; simpl.
    2: { rewrite E2; simpl. by eapply pool_ok_ext. }
    destruct (bus_create_file_ret env bus_attr_eject =? 0)%Z eqn:E3; simpl.
    2: { rewrite E3; simpl. by eapply pool_ok_ext. }
    apply pool_ok_add_children. by eapply pool_ok_ext.
  - intros pdev r. unfold lscon_remove.
    destruct (drvdata st !! pdev_id pdev); [| discriminate].
    intros [= <-]. simpl.
    eapply pool_ok_ext; [| | apply (pool_ok_del_each (length (bus_devices st)) st H)];
      done.
  - intros buf count ok fate st'. unfold ls_inject_store.
    destruct (dev_root st) as [dev|]; [| by intros [[ret E] | E]].
    destruct (kstrdup ok buf) as [copy|]; [| by intros [[ret E] | E]].
    destruct (_ =? 0)%Z.
    { destruct (kfree_and_return_state copy count st) as (Hret & Hbad & _).
      intros [[ret E] | E]; [apply Hret in E | apply Hbad in E]; by subst st'. }
    destruct (drvdata st !! dev) as [ls|]; [| by intros [[ret E] | E]].
    match goal with
    | |- context [lscon_add_device ?ls ?n ?np ?f ?s] =>
        pose proof (pool_ok_add ls n np f s) as Hadd;
        destruct (lscon_add_device ls n np f s) as [r st1]
    end.
    simpl in Hadd.
    assert (pool_ok st1) as H1 by (apply Hadd; by eapply pool_ok_ext).
    destruct (kfree_and_return_state copy count st1) as (Hret & Hbad & _).
    intros [[ret E] | E]; [apply Hret in E | apply Hbad in E]; by subst st'.
  - intros buf count ok st'. unfold ls_eject_store.
    destruct (dev_root st) as [dev|]; [| by intros [[ret E] | E]].
    destruct (kstrdup ok buf) as [copy|]; [| by intros [[ret E] | E]].
    destruct (bus_find_device_by_name _ _) as [i|].
    2: { destruct (kfree_and_return_state copy count st) as (Hret & Hbad & _).
         intros [[ret E] | E]; [apply Hret in E | apply Hbad in E];
           by subst st'. }
    destruct (drvdata st !! dev) as [ls|]; [| by intros [[ret E] | E]].
    match goal with
    | |- context [kfree_and_return copy count ?s] =>
        assert (pool_ok s) as H1
          by (apply pool_ok_del; by eapply pool_ok_ext);
        destruct (kfree_and_return_state copy count s) as (Hret & Hbad & _)
    end.
    intros [[ret E] | E]; [apply Hret in E | apply Hbad in E]; by subst st'.
Qed.

Lemma entry_points_keep_pool_witness :
  NoDup (live_ids attached) ∧ NoDup (live_ids populated) ∧
  NoDup (live_ids detached).
Proof.
  destruct (entry_points_keep_pool (boot [secure96_driver])
              (pool_ok_boot [secure96_driver])) as (Hp & _).
  pose proof (Hp lscon_pdev ready) as Ha. change (pool_ok attached) in Ha.
  destruct (entry_points_keep_pool attached Ha) as (_ & Hr & Hi & _).
  split_and!.
  - apply Ha.
  - refine (proj1 (Hi (line "secure96") 9%Z true fine populated _)).
    left. exists 9%Z. by vm_compute.
  - refine (proj1 (Hr lscon_pdev (0%Z, detached) _)). by vm_compute.
Defined.

(** *** The Secure96 driver on every path *)

Import Secure96Releases.

(** Runs probe on an environment given by its fields and leaves the
    return value and the trace to be read off. *)
Ltac probe_open :=
  unfold secure96_probe, populate_leds, ledinfos, ls_get_gpiod, new_device;
  simpl.

(** X17: secure96_probe returns 0 exactly when its two
    allocations, the four LED lines, the leds-gpio device, the EEPROM
    client, the TPM reset and interrupt lines and the TPM device are
    granted; the write-protect line, the crypto client and the hash
    client have no part in it. *)
Theorem secure96_probe_success_iff (e : env) (st : board) :
  fst (secure96_probe e st) = 0%Z ↔
  sec_alloc_ok e = true ∧ leds_alloc_ok e = true ∧
  gpiod_ok e LS_GPIO_F = true ∧ gpiod_ok e LS_GPIO_G = true ∧
  gpiod_ok e LS_GPIO_H = true ∧ gpiod_ok e LS_GPIO_I = true ∧
  leds_device_ok e = true ∧ eeprom_ok e = true ∧
  gpiod_ok e LS_GPIO_D = true ∧ gpiod_ok e LS_GPIO_C = true ∧
  tpm_ok e = true.
Proof.
  destruct e as [a1 a2 g ld ee cc hh tt]. probe_open.
  destruct a1; simpl; [| split; [by vm_compute | by intros (?&?)]].
  destruct a2; simpl; [| split; [by vm_compute | by intros (?&?&?)]].
  destruct (g LS_GPIO_F); simpl;
    [| split; [by vm_compute | by intros (?&?&?&?)]].
  destruct (g LS_GPIO_G); simpl;
    [| split; [by vm_compute | by intros (?&?&?&?&?)]].
  destruct (g LS_GPIO_H); simpl;
    [| split; [by vm_compute | by intros (?&?&?&?&?&?)]].
  destruct (g LS_GPIO_I); simpl;
    [| split; [by vm_compute | by intros (?&?&?&?&?&?&?)]].
  destruct ld; simpl; [| split; [by vm_compute | by intros (?&?&?&?&?&?&?&?)]].
  destruct (g LS_GPIO_B); simpl;
    (destruct ee; simpl;
       [| split; [by vm_compute | by intros (?&?&?&?&?&?&?&?&?)]]);
    destruct cc, hh; simpl;
    (destruct (g LS_GPIO_D); simpl;
       [| split; [by vm_compute | by intros (?&?&?&?&?&?&?&?&?&?)]]);
    (destruct (g LS_GPIO_C); simpl;
       [| split; [by vm_compute | by intros (?&?&?&?&?&?&?&?&?&?&?)]]);
    (destruct tt; simpl;
       [| split; [by vm_compute | by intros (?&?&?&?&?&?&?&?&?&?&?)]]);
    done.
Qed.

Ltac result_leaf :=
  simpl; split_and!;
  [ first [left; reflexivity | right; left; reflexivity
          | right; right; reflexivity]
  | intros H; first [reflexivity | exfalso; apply H; reflexivity]
  | intros H; first [reflexivity | exfalso; vm_compute in H; discriminate H] ].

(** X18: secure96_probe returns 0, -ENOMEM or -ENODEV; a probe
    that fails leaves the driver data as it was, and a probe that
    succeeds stores a struct secure96 whose handles are all set except
    those of a refused crypto or hash client, which are NULL. *)
Theorem secure96_probe_result (e : env) (st : board) :
  (fst (secure96_probe e st) = 0%Z ∨
   fst (secure96_probe e st) = (- ENOMEM)%Z ∨
   fst (secure96_probe e st) = (- ENODEV)%Z) ∧
  (fst (secure96_probe e st) ≠ 0%Z →
   Secure96.drvdata (snd (secure96_probe e st)) = Secure96.drvdata st) ∧
  (fst (secure96_probe e st) = 0%Z →
   Secure96.drvdata (snd (secure96_probe e st)) =
     Some {| leds_device := Some LedsDevice;
             secure96_leds := [Some (Gpiod LS_GPIO_F); Some (Gpiod LS_GPIO_G);
                               Some (Gpiod LS_GPIO_H); Some (Gpiod LS_GPIO_I)];
             eeprom := Some Eeprom;
             crypto := if crypto_ok e then Some Crypto else None;
             hash := if hash_ok e then Some Hash else None;
             tpm_reset := Some (Gpiod LS_GPIO_D);
             tpm_irq := Some (Gpiod LS_GPIO_C);
             tpm := Some Tpm |}).
Proof.
  destruct e as [a1 a2 g ld ee cc hh tt], st as [wp dd tr]. probe_open.
  destruct a1; [| result_leaf].
  destruct a2; [| result_leaf].
  destruct (g LS_GPIO_F); [| result_leaf].
  destruct (g LS_GPIO_G); [| result_leaf].
  destruct (g LS_GPIO_H); [| result_leaf].
  destruct (g LS_GPIO_I); [| result_leaf].
  destruct ld; [| result_leaf].
  destruct (g LS_GPIO_B), wp, ee, cc, hh, (g LS_GPIO_D), (g LS_GPIO_C), tt;
    result_leaf.
Qed.

Ltac decide_now := apply (bool_decide_unpack _); vm_compute; reflexivity.

(** X19: on a board whose write-protect field is clear, on every
    path of secure96_probe no resource is acquired twice, no handle is
    released twice, and every handle released was acquired by this call. *)
Theorem secure96_probe_releases_safe (e : env) (dd : option secure96) :
  let tr := Secure96.trace (snd (secure96_probe e (fresh None dd))) in
  NoDup (acquired tr) ∧ NoDup (released_handles tr) ∧
  Forall (λ r, r ∈ acquired tr) (released_handles tr).
Proof.
  destruct e as [a1 a2 g ld ee cc hh tt]. unfold fresh. probe_open.
  destruct a1; [| decide_now].
  destruct a2; [| decide_now].
  destruct (g LS_GPIO_F); [| decide_now].
  destruct (g LS_GPIO_G); [| decide_now].
  destruct (g LS_GPIO_H); [| decide_now].
  destruct (g LS_GPIO_I); [| decide_now].
  destruct ld; [| decide_now].
  destruct (g LS_GPIO_B), ee, cc, hh, (g LS_GPIO_D), (g LS_GPIO_C), tt;
    decide_now.
Qed.

(** X20: when one of the LED lines is refused, secure96_probe
    returns -ENODEV at once: the LED lines before the first refused one
    are acquired, nothing is released, and the driver data and the
    write-protect field are untouched. *)
Theorem secure96_probe_led_failure (e : env) (wp : option resource)
    (dd : option secure96) :
  sec_alloc_ok e = true → leds_alloc_ok e = true →
  (∃ p, p ∈ ledinfos.*1 ∧ gpiod_ok e p = false) →
  fst (secure96_probe e (fresh wp dd)) = (- ENODEV)%Z ∧
  acquired (Secure96.trace (snd (secure96_probe e (fresh wp dd)))) =
    led_prefix e ledinfos ∧
  released (Secure96.trace (snd (secure96_probe e (fresh wp dd)))) = [] ∧
  Secure96.drvdata (snd (secure96_probe e (fresh wp dd))) = dd ∧
  wp_gpiod (snd (secure96_probe e (fresh wp dd))) = wp.
Proof.
  destruct e as [a1 a2 g ld ee cc hh tt]. simpl.
  intros -> -> (p & Hp & Hno). unfold fresh. probe_open.
  destruct (g LS_GPIO_F) eqn:HF; [| by vm_compute].
  destruct (g LS_GPIO_G) eqn:HG; [| by vm_compute].
  destruct (g LS_GPIO_H) eqn:HH; [| by vm_compute].
  destruct (g LS_GPIO_I) eqn:HI; [| by vm_compute].
  exfalso.
  repeat (apply elem_of_cons in Hp as [-> | Hp]; [congruence |]).
  by apply elem_of_nil in Hp.
Qed.

Lemma secure96_probe_led_failure_witness :
  fst (secure96_probe led_h_refused (fresh None None)) = (- ENODEV)%Z ∧
  acquired (Secure96.trace (snd (secure96_probe led_h_refused
                                   (fresh None None)))) =
    [Gpiod LS_GPIO_F; Gpiod LS_GPIO_G].
Proof.
  destruct (secure96_probe_led_failure led_h_refused None None eq_refl eq_refl)
    as (Hret & Hacq & _).
  - exists LS_GPIO_H. split; [| reflexivity]. simpl. set_solver.
  - split; [exact Hret | exact Hacq].
Defined.

(** X21: after a probe that returned 0 on a board whose
    write-protect field was clear, secure96_remove makes its release
    calls in the order TPM, interrupt line, reset line, hash, crypto,
    EEPROM, write-protect line if taken, leds-gpio device, LED lines; a
    refused crypto or hash client is released as NULL; the handles
    released are those the probe acquired, once each, and the driver data
    is cleared. *)
Theorem secure96_remove_after_probe (e : env) (dd : option secure96) :
  fst (secure96_probe e (fresh None dd)) = 0%Z →
  ∃ st', secure96_remove (forget (snd (secure96_probe e (fresh None dd)))) =
           Done st' ∧
    released (Secure96.trace st') =
      [Some Tpm; Some (Gpiod LS_GPIO_C); Some (Gpiod LS_GPIO_D);
       (if hash_ok e then Some Hash else None);
       (if crypto_ok e then Some Crypto else None);
       Some Eeprom] ++
      (if gpiod_ok e LS_GPIO_B then [Some (Gpiod LS_GPIO_B)] else []) ++
      [Some LedsDevice; Some (Gpiod LS_GPIO_F); Some (Gpiod LS_GPIO_G);
       Some (Gpiod LS_GPIO_H); Some (Gpiod LS_GPIO_I)] ∧
    NoDup (released_handles (Secure96.trace st')) ∧
    Forall (λ r, r ∈ released_handles (Secure96.trace st'))
      (acquired (Secure96.trace (snd (secure96_probe e (fresh None dd))))) ∧
    Forall (λ r, r ∈ acquired (Secure96.trace
                                 (snd (secure96_probe e (fresh None dd)))))
      (released_handles (Secure96.trace st')) ∧
    Secure96.drvdata st' = None.
Proof.
  destruct e as [a1 a2 g ld ee cc hh tt]. unfold fresh. probe_open.
  destruct a1; [| by vm_compute].
  destruct a2; [| by vm_compute].
  destruct (g LS_GPIO_F); [| by vm_compute].
  destruct (g LS_GPIO_G); [| by vm_compute].
  destruct (g LS_GPIO_H); [| by vm_compute].
  destruct (g LS_GPIO_I); [| by vm_compute].
  destruct ld; [| by vm_compute].
  destruct (g LS_GPIO_B), ee, cc, hh, (g LS_GPIO_D), (g LS_GPIO_C), tt;
    simpl; intros H; try (exfalso; vm_compute in H; discriminate H);
    (eexists; split; [reflexivity |]);
    (split; [reflexivity |]);
    (split; [decide_now |]);
    (split; [decide_now |]);
    (split; [decide_now | reflexivity]).
Qed.

Lemma secure96_remove_after_probe_witness :
  ∃ st', secure96_remove (forget (snd (secure96_probe crypto_refused
                                         (fresh None None)))) = Done st' ∧
    released (Secure96.trace st') =
      [Some Tpm; Some (Gpiod LS_GPIO_C); Some (Gpiod LS_GPIO_D); Some Hash;
       None; Some Eeprom; Some (Gpiod LS_GPIO_B); Some LedsDevice;
       Some (Gpiod LS_GPIO_F); Some (Gpiod LS_GPIO_G); Some (Gpiod LS_GPIO_H);
       Some (Gpiod LS_GPIO_I)].
Proof.
  destruct (secure96_remove_after_probe crypto_refused None eq_refl)
    as (st' & Hr & Hrel & _).
  exists st'. split; [exact Hr | exact Hrel].
Defined.

(** X22: when the write-protect line is granted and the EEPROM
    client is refused, secure96_probe returns -ENODEV after releasing the
    leds-gpio device and the LED lines only: the write-protect line stays
    acquired and stays in the static platform data. *)
Theorem secure96_probe_eeprom_failure (e : env) (wp : option resource)
    (dd : option secure96) :
  sec_alloc_ok e = true → leds_alloc_ok e = true →
  (∀ p, p ∈ ledinfos.*1 → gpiod_ok e p = true) →
  leds_device_ok e = true → gpiod_ok e LS_GPIO_B = true →
  eeprom_ok e = false →
  fst (secure96_probe e (fresh wp dd)) = (- ENODEV)%Z ∧
  acquired (Secure96.trace (snd (secure96_probe e (fresh wp dd)))) =
    [Gpiod LS_GPIO_F; Gpiod LS_GPIO_G; Gpiod LS_GPIO_H; Gpiod LS_GPIO_I;
     LedsDevice; Gpiod LS_GPIO_B] ∧
  released (Secure96.trace (snd (secure96_probe e (fresh wp dd)))) =
    [Some LedsDevice; Some (Gpiod LS_GPIO_F); Some (Gpiod LS_GPIO_G);
     Some (Gpiod LS_GPIO_H); Some (Gpiod LS_GPIO_I)] ∧
  wp_gpiod (snd (secure96_probe e (fresh wp dd))) = Some (Gpiod LS_GPIO_B).
Proof.
  intros Hs Hl Hleds Hd HB He.
  assert (HF : gpiod_ok e LS_GPIO_F = true) by (apply Hleds; set_solver).
  assert (HG : gpiod_ok e LS_GPIO_G = true) by (apply Hleds; set_solver).
  assert (HH : gpiod_ok e LS_GPIO_H = true) by (apply Hleds; set_solver).
  assert (HI : gpiod_ok e LS_GPIO_I = true) by (apply Hleds; set_solver).
  unfold fresh, secure96_probe, populate_leds, ledinfos, ls_get_gpiod,
    new_device.
  rewrite Hs, Hl, HF, HG, HH, HI, Hd, HB, He. by vm_compute.
Qed.

Lemma secure96_probe_eeprom_failure_witness :
  fst (secure96_probe eeprom_refused (fresh None None)) = (- ENODEV)%Z ∧
  wp_gpiod (snd (secure96_probe eeprom_refused (fresh None None))) =
    Some (Gpiod LS_GPIO_B).
Proof.
  destruct (secure96_probe_eeprom_failure eeprom_refused None None
              eq_refl eq_refl) as (Hret & _ & _ & Hwp);
    try reflexivity.
  split; [exact Hret | exact Hwp].
Defined.

(** X23: once the static write-protect field holds a line,
    secure96_probe leaves it in the field or replaces it by the line it
    acquires, and secure96_remove leaves it in the field: nothing clears
    it. *)
Theorem wp_gpiod_never_cleared (e : env) (st : board) (g : resource) :
  wp_gpiod st = Some g →
  (wp_gpiod (snd (secure96_probe e st)) = Some g ∨
   wp_gpiod (snd (secure96_probe e st)) = Some (Gpiod LS_GPIO_B)) ∧
  ∀ st', secure96_remove st = Done st' → wp_gpiod st' = Some g.
Proof.
  intros Hwp. split.
  - destruct e as [a1 a2 gp ld ee cc hh tt], st as [wp dd tr].
    simpl in Hwp. subst wp. probe_open.
    destruct a1; [| by left].
    destruct a2; [| by left].
    destruct (gp LS_GPIO_F); [| by left].
    destruct (gp LS_GPIO_G); [| by left].
    destruct (gp LS_GPIO_H); [| by left].
    destruct (gp LS_GPIO_I); [| by left].
    destruct ld; [| by left].
    destruct (gp LS_GPIO_B), ee, cc, hh, (gp LS_GPIO_D), (gp LS_GPIO_C), tt;
      simpl; first [by left | by right].
  - intros st'. unfold secure96_remove.
    destruct st as [wp [sec|] tr]; simpl in *; [| discriminate].
    subst wp. intros [= <-]. simpl.
    unfold put_leds. generalize (secure96_leds sec). intros l.
    match goal with
    | |- wp_gpiod (fold_left _ l ?s) = _ =>
        assert (Hs : wp_gpiod s = Some g) by reflexivity; revert Hs;
        generalize s
    end.
    induction l as [|x l IH]; intros s Hs; [done |]. simpl. by apply IH.
Qed.

Lemma wp_gpiod_never_cleared_witness :
  wp_gpiod reloaded = Some (Gpiod LS_GPIO_B) ∧
  (wp_gpiod (snd (secure96_probe wp_refused reloaded)) =
     Some (Gpiod LS_GPIO_B)).
Proof.
  destruct (wp_gpiod_never_cleared wp_refused reloaded (Gpiod LS_GPIO_B)
              eq_refl) as [[H | H] _].
  - split; [reflexivity | exact H].
  - split; [reflexivity | exact H].
Defined.
